(** * Blug: the site-assembly pipeline of [blug.py]

    A shallow embedding of the functions of [src/blug/blug.py] that derive
    post file names and paths, load posts from converted Markdown, sort and
    categorise them, paginate the listing and link each post to its
    predecessor, followed by the properties proved about them.

    Conventions.
    - A Python [str] is a [string]; a character [c : ascii] stands for the
      code point [nat_of_ascii c] (U+0000 to U+00FF).  Post files are opened
      with [encoding='ascii'], so every title and body the loader produces
      lies in this range.  The character predicates below follow Python's
      tables on the whole range.  A title of the command line may hold any
      character: [PyUnicode] has the slug on lists of code points.
    - A raised exception is the [Raise] case of [result].
    - The file operations of a function, the directories it asks for and the
      files it opens for writing, are listed as [event]s in program order.
      What becomes of them is decided on a [file_system]: [carry_out]
      performs them one by one and stops at the first that raises.
    - Templates are taken to be found and to render. *)

From Stdlib Require Import Ascii String DecimalString DecimalNat ZArith Lia.
From stdpp Require Import gmap strings list fin_maps sorting lexico.

Local Open Scope string_scope.
Local Open Scope list_scope.
Local Open Scope nat_scope.

(* ===================================================================== *)
(** ** Python strings *)
(* ===================================================================== *)

Module PyStr.

(** [ord(c)] *)
Definition ord (c : ascii) : nat := nat_of_ascii c.

Definition between (lo hi n : nat) : bool := (lo <=? n)%nat && (n <=? hi)%nat.

(** [c.isupper()]: A-Z, and U+00C0-U+00DE without the multiplication sign. *)
Definition isupper (c : ascii) : bool :=
  let n := ord c in
  between 65 90 n || between 192 214 n || between 216 222 n.

(** [c.isalnum()]: digits, letters, and in the upper half the ordinal
    indicators, superscript digits, the micro sign, the vulgar fractions and
    the accented letters. *)
Definition isalnum (c : ascii) : bool :=
  let n := ord c in
  between 48 57 n || between 65 90 n || between 97 122 n
  || (n =? 170)%nat || between 178 179 n || (n =? 181)%nat
  || between 185 186 n || between 188 190 n
  || between 192 214 n || between 216 246 n || between 248 255 n.

(** [c.isspace()] *)
Definition isspace (c : ascii) : bool :=
  let n := ord c in
  between 9 13 n || between 28 32 n || (n =? 133)%nat || (n =? 160)%nat.

(** [c.lower()] for one character: every upper-case character of the range
    has its lower-case partner 32 places further. *)
Definition lower_char (c : ascii) : ascii :=
  if isupper c then ascii_of_nat (ord c + 32) else c.

(** [s.lower()] *)
Fixpoint lower (s : string) : string :=
  match s with
  | EmptyString => EmptyString
  | String c s' => String (lower_char c) (lower s')
  end.

(** [''.join(char for char in s if f(char))] *)
Fixpoint join_if (f : ascii -> bool) (s : string) : string :=
  match s with
  | EmptyString => EmptyString
  | String char s' => if f char then String char (join_if f s') else join_if f s'
  end.

(** [s.replace(old, new)] for one-character [old] and [new]. *)
Fixpoint replace (old new : ascii) (s : string) : string :=
  match s with
  | EmptyString => EmptyString
  | String c s' => String (if Ascii.eqb c old then new else c) (replace old new s')
  end.

(** The rest of [s] after the prefix [p], when [s.startswith(p)]. *)
Fixpoint strip_prefix (p s : string) : option string :=
  match p, s with
  | EmptyString, _ => Some s
  | String a p', String b s' => if Ascii.eqb a b then strip_prefix p' s' else None
  | String _ _, EmptyString => None
  end.

(** [s.partition(sep)] for a non-empty [sep]: the part before the first
    occurrence of [sep], [sep] itself and the part after it; [(s, '', '')]
    when [sep] does not occur. *)
Fixpoint partition (sep s : string) : string * string * string :=
  match strip_prefix sep s with
  | Some rest => (EmptyString, sep, rest)
  | None =>
      match s with
      | EmptyString => (EmptyString, EmptyString, EmptyString)
      | String c s' =>
          let '(before, found, after) := partition sep s' in
          (String c before, found, after)
      end
  end.

(** [s.split()]: the maximal runs of characters that are not white space. *)
Fixpoint split (s : string) : list string :=
  match s with
  | EmptyString => []
  | String c s' =>
      if isspace c then split s'
      else
        match s' with
        | EmptyString => [String c EmptyString]
        | String d _ =>
            if isspace d then String c EmptyString :: split s'
            else
              match split s' with
              | word :: words => String c word :: words
              | [] => [String c EmptyString]
              end
        end
  end.

(** [s.lstrip()], [s.rstrip()] and [s.strip()] *)
Fixpoint lstrip (s : string) : string :=
  match s with
  | EmptyString => EmptyString
  | String c s' => if isspace c then lstrip s' else s
  end.

Fixpoint rstrip (s : string) : string :=
  match s with
  | EmptyString => EmptyString
  | String c s' =>
      match rstrip s' with
      | EmptyString => if isspace c then EmptyString else String c EmptyString
      | rest => String c rest
      end
  end.

Definition strip (s : string) : string := rstrip (lstrip s).

(** [str(n)] for a natural number. *)
Definition str (n : nat) : string := NilEmpty.string_of_uint (Nat.to_uint n).

(** [s.zfill(width)] for a string of digits. *)
Fixpoint zeros (n : nat) : string :=
  match n with
  | O => EmptyString
  | S n' => String "0" (zeros n')
  end.

Definition zfill (width : nat) (s : string) : string :=
  zeros (width - String.length s) ++ s.

(** [c in s] *)
Fixpoint contains (c : ascii) (s : string) : bool :=
  match s with
  | EmptyString => false
  | String d s' => Ascii.eqb d c || contains c s'
  end.

(** All characters of [s] satisfy [f]. *)
Fixpoint all_chars (f : ascii -> bool) (s : string) : bool :=
  match s with
  | EmptyString => true
  | String c s' => f c && all_chars f s'
  end.

End PyStr.

(* ===================================================================== *)
(** ** File names and paths of posts *)
(* ===================================================================== *)

(** [generate_post_file_name(title)], for a title of characters up to
    U+00FF. *)
Definition generate_post_file_name (title : string) : string :=
  PyStr.replace " " "-"
    (PyStr.join_if (fun char => PyStr.isalnum char || Ascii.eqb char " ")
       (PyStr.lower title)).

(** A [datetime], as [strptime] builds it from [%Y-%m-%d %H:%M]: seconds and
    microseconds are zero and stay out of the record. *)
Record datetime := {
  year : nat;
  month : nat;
  day : nat;
  hour : nat;
  minute : nat
}.

(** The text of one [strftime] directive, for the directives of the
    formats the program uses.  [%Y] is the year as the C library prints it,
    a decimal number without leading zeros, so a year below 1000 has fewer
    than four digits; the others have two digits. *)
Definition directive (d : ascii) (date : datetime) : string :=
  if Ascii.eqb d "Y" then PyStr.str (year date)
  else if Ascii.eqb d "m" then PyStr.zfill 2 (PyStr.str (month date))
  else if Ascii.eqb d "d" then PyStr.zfill 2 (PyStr.str (day date))
  else if Ascii.eqb d "H" then PyStr.zfill 2 (PyStr.str (hour date))
  else if Ascii.eqb d "M" then PyStr.zfill 2 (PyStr.str (minute date))
  else String "%" (String d EmptyString).

(** [datetime.datetime.strftime(date, format)] *)
Fixpoint strftime (date : datetime) (format : string) : string :=
  match format with
  | EmptyString => EmptyString
  | String c rest =>
      match rest with
      | String d rest' =>
          if Ascii.eqb c "%" then directive d date ++ strftime date rest'
          else String c (strftime date rest)
      | EmptyString => String c EmptyString
      end
  end.

(** [s.startswith('/')] and [s.endswith('/')] *)
Definition starts_with_sep (s : string) : bool :=
  match s with
  | String c _ => Ascii.eqb c "/"
  | EmptyString => false
  end.

Fixpoint ends_with_sep (s : string) : bool :=
  match s with
  | EmptyString => false
  | String c EmptyString => Ascii.eqb c "/"
  | String _ s' => ends_with_sep s'
  end.

(** One round of the loop of [posixpath.join]. *)
Definition join_step (path b : string) : string :=
  if starts_with_sep b then b
  else if String.eqb path "" || ends_with_sep path then path ++ b
  else path ++ "/" ++ b.

(** [os.path.join(a, *p)] *)
Definition path_join (a : string) (p : list string) : string :=
  foldl join_step a p.

(** [generate_post_file_path(title, date)] *)
Definition generate_post_file_path (title : string) (date : datetime) : string :=
  path_join (strftime date "%Y/%m/%d/") [generate_post_file_name title].

(* ===================================================================== *)
(** ** Exceptions *)
(* ===================================================================== *)

Inductive exn :=
| KeyError (key : string)
| IndexError
| ValueError (message : string)
| EnvironmentError (message : string)
| FileNotFoundError (path : string).

Inductive result (A : Type) :=
| Ok (a : A)
| Raise (e : exn).
Arguments Ok {A} a.
Arguments Raise {A} e.

#[global] Instance result_bind : MBind result := fun A B k r =>
  match r with
  | Ok a => k a
  | Raise e => Raise e
  end.

#[global] Instance result_ret : MRet result := fun A a => Ok a.

(** [for x in l: f(x)] collecting the results, stopping at the first
    exception. *)
Fixpoint for_each {A B : Type} (f : A -> result B) (l : list A) : result (list B) :=
  match l with
  | [] => Ok []
  | x :: l' => y ← f x; ys ← for_each f l'; Ok (y :: ys)
  end.

(* ===================================================================== *)
(** ** Loading posts *)
(* ===================================================================== *)

(** A post: the dictionary [get_all_posts] fills, with the key
    [post_previous] that [generate_all_files] adds later.  A reference to
    another post is its position in [all_posts]; [None] is a key not yet set. *)
Record post := {
  body : string;
  title : string;
  teaser : string;
  categories : list string;
  date : datetime;
  relative_path : string;
  relative_url : string;
  canonical_url : string;
  post_previous : option nat
}.

(** [Meta[key][0]] on the metadata the Markdown engine returns: each key is
    bound to the list of its lines. *)
Definition meta_first (Meta : gmap string (list string)) (key : string) : result string :=
  match Meta !! key with
  | None => Raise (KeyError key)
  | Some [] => Raise IndexError
  | Some (line :: _) => Ok line
  end.

(** Truth value of an optional string: [None] and [''] are false. *)
Definition truthy (s : option string) : bool :=
  match s with
  | None => false
  | Some s => negb (String.eqb s "")
  end.

Section Loader.

(** [datetime.datetime.strptime(date_string, format)], of the standard
    library. *)
Variable strptime : string -> string -> result datetime.

(** The body of the loop of [get_all_posts] for one [.md] file, from what
    the Markdown engine returns for it: [generated_html] and [Meta]. *)
Definition load_post (blog_prefix canonical_url : string) (blog_root : option string)
    (generated_html : string) (Meta : gmap string (list string)) : result post :=
  post_title ← meta_first Meta "title";
  let post_teaser := (PyStr.partition "<!--more-->" generated_html).1.1 in
  categories_line ← meta_first Meta "categories";
  let post_categories := PyStr.split categories_line in
  date_line ← meta_first Meta "date";
  post_date ← strptime (PyStr.strip date_line) "%Y-%m-%d %H:%M";
  let path := generate_post_file_path post_title post_date in
  let path := if truthy (Some blog_prefix) then path_join blog_prefix [path] else path in
  let url :=
    match blog_root with
    | Some root =>
        if truthy blog_root then path_join "/" [root; path] else path_join "/" [path]
    | None => path_join "/" [path]
    end in
  Ok {| body := generated_html;
        title := post_title;
        teaser := post_teaser;
        categories := post_categories;
        date := post_date;
        relative_path := path;
        relative_url := url;
        canonical_url := canonical_url ++ url;
        post_previous := None |}.

(** [get_all_posts], over the converted [.md] files of the content
    directory in listing order. *)
Definition get_all_posts (blog_prefix canonical_url : string) (blog_root : option string)
    (converted : list (string * gmap string (list string))) : result (list post) :=
  for_each (fun file => load_post blog_prefix canonical_url blog_root file.1 file.2) converted.

End Loader.

(** The value of a decimal digit, and of two of them. *)
Definition digit_value (c : ascii) : option nat :=
  let n := PyStr.ord c in
  if PyStr.between 48 57 n then Some (n - 48) else None.

Definition two_digits (a b : ascii) : option nat :=
  x ← digit_value a; y ← digit_value b; Some (10 * x + y).

(** A parser for the zero-padded form [YYYY-MM-DD HH:MM] of a date with a
    day that every month has (1 to 28): on these strings [strptime] with the
    format [%Y-%m-%d %H:%M] yields the same fields.  It stands for
    [strptime] in the examples. *)
Definition strptime_padded (date_string format : string) : result datetime :=
  match date_string with
  | String y1 (String y2 (String y3 (String y4 (String "-" (String m1 (String m2
      (String "-" (String d1 (String d2 (String " " (String h1 (String h2
      (String ":" (String n1 (String n2 EmptyString))))))))))))))) =>
      match two_digits y1 y2, two_digits y3 y4, two_digits m1 m2,
            two_digits d1 d2, two_digits h1 h2, two_digits n1 n2 with
      | Some yh, Some yl, Some m, Some d, Some h, Some n =>
          if (1 <=? 100 * yh + yl)%nat && PyStr.between 1 12 m && PyStr.between 1 28 d
             && (h <=? 23)%nat && (n <=? 59)%nat
          then Ok {| year := 100 * yh + yl; month := m; day := d; hour := h; minute := n |}
          else Raise (ValueError date_string)
      | _, _, _, _, _, _ => Raise (ValueError date_string)
      end
  | _ => Raise (ValueError date_string)
  end.

(* ===================================================================== *)
(** ** Sorting by date *)
(* ===================================================================== *)

(** Comparison of two [datetime]s: field by field, the year first. *)
Definition lexicographic (c1 c2 : comparison) : comparison :=
  match c1 with
  | Eq => c2
  | _ => c1
  end.

Definition datetime_compare (a b : datetime) : comparison :=
  lexicographic (year a ?= year b)%nat
    (lexicographic (month a ?= month b)%nat
       (lexicographic (day a ?= day b)%nat
          (lexicographic (hour a ?= hour b)%nat (minute a ?= minute b)%nat))).

(** [a < b] on [datetime]s. *)
Definition datetime_lt (a b : datetime) : bool :=
  match datetime_compare a b with
  | Lt => true
  | _ => false
  end.

Section ListSort.

Context {A K : Type}.
(** [<] on the keys, the only comparison [list.sort] uses. *)
Variable lt : K -> K -> bool.
Variable key : A -> K.

(** [x] goes behind the elements with a smaller key and before all
    others, so before those with an equal key. *)
Fixpoint sort_insert (x : A) (l : list A) : list A :=
  match l with
  | [] => [x]
  | y :: l' => if lt (key y) (key x) then y :: sort_insert x l' else x :: y :: l'
  end.

(** A stable ascending sort.  The result of a stable sort is determined by
    its input when [lt] is a strict weak order, so it is the list Python's
    own algorithm leaves. *)
Fixpoint sort_ascending (l : list A) : list A :=
  match l with
  | [] => []
  | x :: l' => sort_insert x (sort_ascending l')
  end.

(** [l.sort(key=key, reverse=reverse)]: with [reverse = True] the list is
    reversed, sorted and reversed again, which keeps elements with equal
    keys in their original order. *)
Definition list_sort (reversed : bool) (l : list A) : list A :=
  if reversed then reverse (sort_ascending (reverse l)) else sort_ascending l.

End ListSort.

(** [all_posts.sort(key=lambda i: i['date'], reverse=True)] *)
Definition sort_posts (all_posts : list post) : list post :=
  list_sort datetime_lt date true all_posts.

(* ===================================================================== *)
(** ** Categories *)
(* ===================================================================== *)

(** [categories[category].append(post)] on a [defaultdict(list)] *)
Definition append_to (by_category : gmap string (list post)) (category : string)
    (p : post) : gmap string (list post) :=
  <[category := default [] (by_category !! category) ++ [p]]> by_category.

(** The two loops of [generate_all_files] that fill [categories]. *)
Definition add_post (by_category : gmap string (list post)) (p : post) :
    gmap string (list post) :=
  foldl (fun acc category => append_to acc category p) by_category (categories p).

Definition build_categories (all_posts : list post) : gmap string (list post) :=
  foldl add_post ∅ all_posts.

(* ===================================================================== *)
(** ** Pages written *)
(* ===================================================================== *)

(** The site configuration: the keys of [config.CONFIG] the pipeline reads. *)
Record site_config := {
  content_dir : string;
  output_dir : string;
  blog_dir : string;
  blog_prefix : string;
  blog_root : option string;
  url : string;
  template_dir : string
}.

(** The variables handed to a template: the site configuration and the keys
    the generators add to it.  [None] is a key that is not set;
    [next_page = Some None] is the key bound to Python's [None]. *)
Record template_variables := {
  site : site_config;
  current_posts : option (list post);
  next_page : option (option nat);
  post_variable : option post
}.

(** The dictionary [site_config] seen as template variables, and
    [copy(site_config)]: none of the generators' keys is set. *)
Definition variables_from (config : site_config) : template_variables :=
  {| site := config; current_posts := None; next_page := None; post_variable := None |}.

Definition copy (config : site_config) : template_variables := variables_from config.

Definition set_current_posts (v : template_variables) (page : list post) : template_variables :=
  {| site := site v; current_posts := Some page; next_page := next_page v;
     post_variable := post_variable v |}.

Definition set_next_page (v : template_variables) (n : option nat) : template_variables :=
  {| site := site v; current_posts := current_posts v; next_page := Some n;
     post_variable := post_variable v |}.

Definition set_post (v : template_variables) (p : post) : template_variables :=
  {| site := site v; current_posts := current_posts v; next_page := next_page v;
     post_variable := Some p |}.

(** The file operations of a run.  [CreatePathToFile path] is the call
    [create_path_to_file(path)], and [WriteFile path template v] is
    [open(path, 'w')] followed by the write of [template.render(v)].  An
    event is the call, not its success: [carry_out] has the outcome on a
    file system. *)
Inductive event :=
| CreatePathToFile (path : string)
| WriteFile (path : string) (template : string) (variables : template_variables).

(** [generate_static_page(template_variables, output_dir, template, filename)]:
    the two file operations of the call, in their order.  The file is opened
    in [output_dir], whatever directory [create_path_to_file] has seen to;
    [generate_static_page_in] carries the two out. *)
Definition generate_static_page (variables : template_variables)
    (output_dir template filename : string) : list event :=
  [CreatePathToFile output_dir;
   WriteFile (path_join output_dir [filename]) template variables].

(** [range(start, stop, step)] for a positive [step] *)
Definition range (start stop step : nat) : list nat :=
  map (fun i => start + i * step) (seq 0 ((stop - start + (step - 1)) / step)).

(** [l[a:b]] for [a <= b] *)
Definition slice {A : Type} (l : list A) (a b : nat) : list A :=
  take (b - a) (drop a l).

(** [enumerate(l)] *)
Definition enumerate {A : Type} (l : list A) : list (nat * A) :=
  zip (seq 0 (length l)) l.

(** One round of the loop of [generate_pagination_pages]: the variables are
    one dictionary, updated in each round and rendered at once. *)
Definition pagination_round (config : site_config) (num_posts : nat) (template : string)
    (state : template_variables * list event) (item : nat * list post) :
    template_variables * list event :=
  let '(index, page) := item in
  let current_page := index + 1 in
  let variables := set_current_posts state.1 page in
  let variables := set_next_page variables (Some (current_page + 1)) in
  let variables :=
    if (Z.of_nat (current_page * 5) >=? Z.of_nat num_posts - 5)%Z
    then set_next_page variables None
    else variables in
  let output_dir := path_join (blog_dir config) ["page"; PyStr.str current_page] in
  (variables, state.2 ++ generate_static_page variables output_dir template "index.html").

(** [generate_pagination_pages(site_config, all_posts, template)] *)
Definition generate_pagination_pages (config : site_config) (all_posts : list post)
    (template : string) : list event :=
  let template_variables := copy config in
  let num_posts := length all_posts in
  (foldl (pagination_round config num_posts template) (template_variables, [])
     (enumerate (map (fun index => slice all_posts index (index + 5))
                   (range 5 num_posts 5)))).2.

(** [generate_post(post, template_variables, template_environment)]: the
    variables as the call leaves them, the events, and the outcome. *)
Definition generate_post (p : post) (variables : template_variables) :
    template_variables * list event * result unit :=
  let output_path := path_join (output_dir (site variables)) [relative_path p; "index.html"] in
  if String.eqb (body p) ""
  then (variables, [],
        Raise (EnvironmentError ("No content for post [" ++ relative_path p ++ "] found.")))
  else
    let variables := set_post variables p in
    (variables,
     [CreatePathToFile output_path; WriteFile output_path "post_index.html" variables],
     Ok tt).

(* ===================================================================== *)
(** ** Linking each post to the previous one *)
(* ===================================================================== *)

Definition set_post_previous (p : post) (previous : nat) : post :=
  {| body := body p; title := title p; teaser := teaser p; categories := categories p;
     date := date p; relative_path := relative_path p; relative_url := relative_url p;
     canonical_url := canonical_url p; post_previous := Some previous |}.

(** The post [all_posts[index + 1]], or [all_posts[0]] on [IndexError]. *)
Definition previous_of (all_posts : list post) (index : nat) : nat :=
  match all_posts !! (index + 1) with
  | Some _ => index + 1
  | None => 0
  end.

(** The [try] statement of the last loop of [generate_all_files]: the post
    at [index] gets its [post_previous]. *)
Definition link (all_posts : list post) (index : nat) : list post :=
  match all_posts !! index with
  | Some p => <[index := set_post_previous p (previous_of all_posts index)]> all_posts
  | None => all_posts
  end.


(** The state of the last loop of [generate_all_files]: the posts, the
    dictionary [site_config] that [generate_post] updates, and the events. *)
Record run := {
  posts : list post;
  variables_of : template_variables;
  events : list event
}.

(** One round: link, then generate the post's page. *)
Definition generate_round (index : nat) (r : run) : run * result unit :=
  let linked := link (posts r) index in
  match linked !! index with
  | Some p =>
      let '(variables, written, outcome) := generate_post p (variables_of r) in
      ({| posts := linked; variables_of := variables; events := events r ++ written |},
       outcome)
  | None => (r, Raise IndexError)   (* not reached: [enumerate] gives positions of the list *)
  end.

(** The rounds in order, up to the first exception. *)
Fixpoint generate_rounds (indices : list nat) (r : run) : run * result unit :=
  match indices with
  | [] => (r, Ok tt)
  | index :: rest =>
      match generate_round index r with
      | (r', Ok _) => generate_rounds rest r'
      | (r', Raise e) => (r', Raise e)
      end
  end.

(** The state in which the last loop of [generate_all_files] starts. *)
Definition first_run (all_posts : list post) (config : site_config) : run :=
  {| posts := all_posts; variables_of := variables_from config; events := [] |}.

(** The last loop of [generate_all_files]. *)
Definition generate_posts (all_posts : list post) (config : site_config) : run * result unit :=
  generate_rounds (seq 0 (length all_posts)) (first_run all_posts config).

(* ===================================================================== *)
(** ** Words of the specification *)
(* ===================================================================== *)

(** The slug as the specification words it: lower-case the title, drop every
    character that is not alphanumeric or a space, replace each remaining
    space with a hyphen. *)
Definition deriveSlug_spec (title : string) : string :=
  string_of_list_ascii
    (map (fun c => if Ascii.eqb c " " then "-"%char else c)
       (List.filter (fun c => PyStr.isalnum c || Ascii.eqb c " ")
          (map PyStr.lower_char (list_ascii_of_string title)))).

(** The teaser as the specification words it: the part of the body strictly
    before the first occurrence of [sep], the whole body when [sep] does not
    occur. *)
Definition before_first (sep body_html teaser_html : string) : Prop :=
  (∃ rest, body_html = (teaser_html ++ sep ++ rest)%string
           ∧ ∀ a b, body_html = (a ++ sep ++ b)%string →
                    (String.length teaser_html ≤ String.length a)%nat)
  ∨ (teaser_html = body_html ∧ ∀ a b, body_html ≠ (a ++ sep ++ b)%string).

(** The date part of a path as the specification words it: [YYYY/MM/DD/]. *)
Definition date_path (date : datetime) : string :=
  (PyStr.zfill 4 (PyStr.str (year date)) ++ "/"
   ++ PyStr.zfill 2 (PyStr.str (month date)) ++ "/"
   ++ PyStr.zfill 2 (PyStr.str (day date)) ++ "/")%string.

(** The date part of a path as [strftime] writes it for [%Y/%m/%d/]: the
    year as it is, the month and the day with two digits. *)
Definition date_directory (date : datetime) : string :=
  (PyStr.str (year date) ++ "/"
   ++ PyStr.zfill 2 (PyStr.str (month date)) ++ "/"
   ++ PyStr.zfill 2 (PyStr.str (day date)) ++ "/")%string.

(** The fields of a [datetime] in the order of their weight. *)
Definition fields (d : datetime) : nat * (nat * (nat * (nat * nat))) :=
  (year d, (month d, (day d, (hour d, minute d)))).

#[global] Instance datetime_eq_dec : EqDecision datetime.
Proof. solve_decision. Defined.

(** [p] is not older than [q]: the date of [p] is not before the date of [q]. *)
Definition not_older (p q : post) : Prop := datetime_lt (date p) (date q) = false.

(** The bucket of a category as the specification words it: going through
    the posts in order, a post is appended once for each time it declares
    the category. *)
Definition declarations (category : string) (p : post) : list post :=
  c ← categories p; if decide (c = category) then [p] else [].

Definition bucket_of (category : string) (all_posts : list post) : list post :=
  all_posts ≫= declarations category.

(** Window [k] as the specification words it: the posts [5k : 5k+5], and the
    pointer [k+1] unless [5k ≥ totalPosts − 5]. *)
Definition window_variables (config : site_config) (all_posts : list post) (k : nat) :
    template_variables :=
  {| site := config;
     current_posts := Some (slice all_posts (5 * k) (5 * k + 5));
     next_page :=
       Some (if bool_decide (Z.of_nat (length all_posts) - 5 ≤ 5 * Z.of_nat k)%Z
             then None else Some (k + 1));
     post_variable := None |}.

(** The page of window [k]: [<blog_dir>/page/<k>/index.html]. *)
Definition window_page (config : site_config) (all_posts : list post) (template : string)
    (k : nat) : list event :=
  generate_static_page (window_variables config all_posts k)
    (path_join (blog_dir config) ["page"; PyStr.str k]) template "index.html".


(** No category is bound to an empty list. *)
Definition no_empty_bucket (m : gmap string (list post)) : Prop :=
  ∀ category bucket, m !! category = Some bucket → bucket ≠ [].


(** What [generate_post] reads of a post before it writes: linking leaves it
    as it is. *)
Definition content (p : post) : string * string := (body p, relative_path p).

(** The characters [encoding='ascii'] lets through, and the characters of
    the slug of such a title: a hyphen, a digit or one of a-z. *)
Definition is_ascii (c : ascii) : bool := PyStr.ord c <? 128.

Definition is_ascii_slug_char (c : ascii) : bool :=
  Ascii.eqb c "-" || PyStr.between 48 57 (PyStr.ord c) || PyStr.between 97 122 (PyStr.ord c).

(** A character of a slug: a hyphen, or alphanumeric and not upper-case. *)
Definition is_slug_char (c : ascii) : bool :=
  Ascii.eqb c "-" || (PyStr.isalnum c && negb (PyStr.isupper c)).

(* ===================================================================== *)
(** ** Titles outside U+0000-U+00FF *)
(* ===================================================================== *)

(** [generate_post_file_name] also gets the title of the command line, which
    may hold any character.  Here a string is the list of its code points,
    and the tables of [str] cover U+0000-U+00FF, as above, and the
    mathematical bold letters U+1D400-U+1D433: capital A to Z, then small a
    to z, all alphanumeric and none with a lower-case partner.  For a code
    point outside the tables the functions give [None]. *)
Module PyUnicode.

Definition code_points (s : string) : list N := N_of_ascii <$> list_ascii_of_string s.

Definition bold_capital (c : N) : bool := (0x1D400 <=? c)%N && (c <=? 0x1D419)%N.

Definition bold_small (c : N) : bool := (0x1D41A <=? c)%N && (c <=? 0x1D433)%N.

(** [c.isupper()], [c.isalnum()] and [c.lower()] *)
Definition isupper (c : N) : option bool :=
  if (c <? 256)%N then Some (PyStr.isupper (ascii_of_N c))
  else if bold_capital c then Some true
  else if bold_small c then Some false
  else None.

Definition isalnum (c : N) : option bool :=
  if (c <? 256)%N then Some (PyStr.isalnum (ascii_of_N c))
  else if bold_capital c || bold_small c then Some true
  else None.

Definition lower_char (c : N) : option N :=
  if (c <? 256)%N then Some (N_of_ascii (PyStr.lower_char (ascii_of_N c)))
  else if bold_capital c || bold_small c then Some c
  else None.

(** [s.lower()] *)
Fixpoint lower (s : list N) : option (list N) :=
  match s with
  | [] => Some []
  | c :: s' => l ← lower_char c; rest ← lower s'; Some (l :: rest)
  end.

(** [''.join(char for char in s if f(char))] *)
Fixpoint join_if (f : N -> option bool) (s : list N) : option (list N) :=
  match s with
  | [] => Some []
  | char :: s' =>
      keep ← f char; rest ← join_if f s';
      Some (if keep : bool then char :: rest else rest)
  end.

(** [s.replace(old, new)] for one-character [old] and [new]. *)
Definition replace (old new : N) (s : list N) : list N :=
  (λ c, if (c =? old)%N then new else c) <$> s.

(** [generate_post_file_name(title)]; 32 is the space and 45 the hyphen. *)
Definition generate_post_file_name (title : list N) : option (list N) :=
  lowered ← lower title;
  kept ← join_if (λ char, alnum ← isalnum char; Some (alnum || (char =? 32)%N)) lowered;
  Some (replace 32 45 kept).

End PyUnicode.

(* ===================================================================== *)
(** ** Paths of the file system *)
(* ===================================================================== *)

Module PyPath.

(** [s.rfind(c)] for a character [c]: the index of its last occurrence, or
    -1 when there is none. *)
Fixpoint rfind (c : ascii) (s : string) : Z :=
  match s with
  | EmptyString => (-1)%Z
  | String d s' =>
      let r := rfind c s' in
      if (0 <=? r)%Z then (r + 1)%Z
      else if Ascii.eqb d c then 0%Z else (-1)%Z
  end.

(** [s[:n]] and [s[n:]] for [n >= 0] *)
Fixpoint upto (n : nat) (s : string) : string :=
  match n, s with
  | S n', String c s' => String c (upto n' s')
  | _, _ => EmptyString
  end.

Fixpoint from (n : nat) (s : string) : string :=
  match n, s with
  | S n', String _ s' => from n' s'
  | _, _ => s
  end.

(** The loop of [genericpath._splitext] that skips the leading dots of the
    file name: [true] when it meets another character at [filenameIndex]
    or later, within the given number of rounds. *)
Fixpoint skip_dots (p : string) (filenameIndex rounds : nat) : bool :=
  match rounds with
  | O => false
  | S rounds' =>
      match String.get filenameIndex p with
      | Some c =>
          if Ascii.eqb c "." then skip_dots p (S filenameIndex) rounds' else true
      | None => true
      end
  end.

(** [os.path.splitext(p)] *)
Definition splitext (p : string) : string * string :=
  let sepIndex := rfind "/" p in
  let dotIndex := rfind "." p in
  if (sepIndex <? dotIndex)%Z
  then
    let filenameIndex := Z.to_nat (sepIndex + 1) in
    if skip_dots p filenameIndex (Z.to_nat dotIndex - filenameIndex)
    then (upto (Z.to_nat dotIndex) p, from (Z.to_nat dotIndex) p)
    else (p, EmptyString)
  else (p, EmptyString).

(** [s.rstrip('/')] *)
Fixpoint rstrip_sep (s : string) : string :=
  match s with
  | EmptyString => EmptyString
  | String c s' =>
      match rstrip_sep s' with
      | EmptyString => if Ascii.eqb c "/" then EmptyString else String c EmptyString
      | rest => String c rest
      end
  end.

(** ['/' * n] *)
Fixpoint seps (n : nat) : string :=
  match n with
  | O => EmptyString
  | S n' => String "/" (seps n')
  end.

(** [os.path.dirname(p)] *)
Definition dirname (p : string) : string :=
  let i := Z.to_nat (rfind "/" p + 1) in
  let head := upto i p in
  if negb (String.eqb head "") && negb (String.eqb head (seps (String.length head)))
  then rstrip_sep head
  else head.

End PyPath.

(** [create_path_to_file(path)], with [os.path.exists] as [present]: the
    directory handed to [os.makedirs], or [None] when the directory is there
    and [os.makedirs] is not called. *)
Definition create_path_to_file (present : string -> bool) (path : string) : option string :=
  let path :=
    if String.eqb (PyPath.splitext path).2 "" then (path ++ "/")%string
    else PyPath.dirname path in
  if present path then None else Some path.

(** The test of the loop of [get_all_posts] on a name of the content
    directory: files with another extension than [.md] are passed over. *)
Definition is_post_file (post_file_name : string) : bool :=
  String.eqb (PyPath.splitext post_file_name).2 ".md".

(* ===================================================================== *)
(** ** The static pages and the whole site *)
(* ===================================================================== *)

(** The variables of the pages of [generate_static_files]: the site
    configuration with its optional key [additional_pages] (the entries in
    the order of the dictionary), and the keys the function adds to its copy
    of the configuration.  [None] is a key that is not set. *)
Record static_variables := {
  shared : template_variables;
  additional_pages_key : option (list (string * gmap string string));
  canonical_url_key : option string;
  all_posts_key : option (list post);
  now_key : option string
}.

Definition set_front (v : static_variables) (next : nat) (current : list post) :
    static_variables :=
  {| shared := set_current_posts (set_next_page (shared v) (Some next)) current;
     additional_pages_key := additional_pages_key v;
     canonical_url_key := canonical_url_key v;
     all_posts_key := all_posts_key v;
     now_key := now_key v |}.

Definition set_canonical_url (v : static_variables) (canonical : string) : static_variables :=
  {| shared := shared v;
     additional_pages_key := additional_pages_key v;
     canonical_url_key := Some canonical;
     all_posts_key := all_posts_key v;
     now_key := now_key v |}.

Definition set_all_posts (v : static_variables) (listed : list post) : static_variables :=
  {| shared := shared v;
     additional_pages_key := additional_pages_key v;
     canonical_url_key := canonical_url_key v;
     all_posts_key := Some listed;
     now_key := now_key v |}.

Definition set_now (v : static_variables) (now : string) : static_variables :=
  {| shared := shared v;
     additional_pages_key := additional_pages_key v;
     canonical_url_key := canonical_url_key v;
     all_posts_key := all_posts_key v;
     now_key := Some now |}.

(** The dictionary [site_config] as [generate_static_files] receives it. *)
Definition site_variables (config : site_config)
    (additional_pages : option (list (string * gmap string string))) : static_variables :=
  {| shared := variables_from config;
     additional_pages_key := additional_pages;
     canonical_url_key := None;
     all_posts_key := None;
     now_key := None |}.

Inductive static_event :=
| CreateStaticPath (path : string)
| WriteStatic (path : string) (template : string) (variables : static_variables).

(** [generate_static_page(template_variables, output_dir, template, filename)]
    for the variables of [generate_static_files]: the two file operations of
    the call. *)
Definition generate_static_page_with (variables : static_variables)
    (output_dir template filename : string) : list static_event :=
  [CreateStaticPath output_dir;
   WriteStatic (path_join output_dir [filename]) template variables].

(** One round of the loop over [site_config['additional_pages']]. *)
Definition additional_page (config : site_config) (variables : static_variables)
    (entry_name : string) (entry : gmap string string) : result (list static_event) :=
  match entry !! "template" with
  | None => Raise (KeyError "template")
  | Some template_path =>
      let path :=
        match entry !! "path" with
        | Some entry_path => path_join (output_dir config) [entry_path]
        | None => path_join (output_dir config) [entry_name]
        end in
      Ok (generate_static_page_with variables path template_path "index.html")
  end.

(** The loop over the additional pages: the events up to the first
    exception of the code, and the outcome. *)
Fixpoint additional_pages_loop (config : site_config) (variables : static_variables)
    (entries : list (string * gmap string string)) : list static_event * result unit :=
  match entries with
  | [] => ([], Ok tt)
  | (entry_name, entry) :: rest =>
      match additional_page config variables entry_name entry with
      | Raise e => ([], Raise e)
      | Ok page =>
          let '(pages, outcome) := additional_pages_loop config variables rest in
          (page ++ pages, outcome)
      end
  end.

(** One round of the loop over [categories.items()]. *)
Definition category_round (config : site_config)
    (state : static_variables * list static_event) (item : string * list post) :
    static_variables * list static_event :=
  let '(category, listed) := item in
  let variables := set_all_posts state.1 listed in
  let output_dir := path_join (blog_dir config) ["categories"; category] in
  (variables,
   state.2 ++ generate_static_page_with variables output_dir "archives.html" "index.html"
           ++ generate_static_page_with variables output_dir "atom.xml" "atom.xml").

(** [generate_static_files(site_config, posts, categories, template_environment)],
    with the text of [datetime.datetime.now().isoformat()] as [now] and
    [categories] as the items of the dictionary in its order: the file
    operations of the call in their order, up to the exception the code
    itself raises, and the outcome when every operation succeeds.
    [generate_static_files_in] is the call on a file system. *)
Definition generate_static_files (config : site_config)
    (additional_pages : option (list (string * gmap string string))) (now : string)
    (all_posts : list post) (categories : list (string * list post)) :
    list static_event * result unit :=
  let own := site_variables config additional_pages in
  let '(additional, outcome) :=
    match additional_pages with
    | Some entries => additional_pages_loop config own entries
    | None => ([], Ok tt)
    end in
  match outcome with
  | Raise e => (additional, Raise e)
  | Ok _ =>
      let canonical_url_base := url config in
      let canonical_blog_base :=
        (url config ++ "/" ++ blog_prefix config ++ "/")%string in
      let template_variables := set_front own 1 (take 5 all_posts) in
      let template_variables := set_canonical_url template_variables (url config) in
      let front := generate_static_page_with template_variables (output_dir config)
                     "list.html" "index.html" in
      let template_variables := set_canonical_url template_variables canonical_blog_base in
      let blog := generate_static_page_with template_variables (blog_dir config)
                    "list.html" "index.html" in
      let template_variables :=
        set_canonical_url template_variables (canonical_url_base ++ "/about-me/")%string in
      let about := generate_static_page_with template_variables
                     (path_join (output_dir config) ["about-me"]) "about.html" "index.html" in
      let template_variables := set_all_posts template_variables all_posts in
      let template_variables :=
        set_canonical_url template_variables (canonical_blog_base ++ "archives/")%string in
      let archives := generate_static_page_with template_variables
                        (path_join (blog_dir config) ["archives"]) "archives.html"
                        "index.html" in
      let template_variables := set_now template_variables now in
      let feed := generate_static_page_with template_variables (output_dir config)
                    "atom.xml" "atom.xml" in
      let after := foldl (category_round config) (template_variables, []) categories in
      (additional ++ front ++ blog ++ about ++ archives ++ feed ++ after.2, Ok tt)
  end.

(** [categories[category].append(post)] on the items of the dictionary: a
    new key goes to the end. *)
Fixpoint items_append (items : list (string * list post)) (category : string) (p : post) :
    list (string * list post) :=
  match items with
  | [] => [(category, [p])]
  | (c, bucket) :: rest =>
      if String.eqb c category then (c, bucket ++ [p]) :: rest
      else (c, bucket) :: items_append rest category p
  end.

(** The two loops of [generate_all_files] that fill [categories], on the
    items of the dictionary. *)
Definition items_add_post (items : list (string * list post)) (p : post) :
    list (string * list post) :=
  foldl (fun acc category => items_append acc category p) items (categories p).

Definition build_category_items (all_posts : list post) : list (string * list post) :=
  foldl items_add_post [] all_posts.

(** What a run writes: a page of [generate_static_files], or a page of
    [generate_pagination_pages] or [generate_post]. *)
Inductive site_event :=
| Static (e : static_event)
| Listed (e : event).

(** [generate_all_files(site_config)], from the converted [.md] files of
    the content directory: the file operations of the run in their order, up
    to the exception the code itself raises, and the outcome when every
    operation succeeds.  [generate_all_files_in] is the run on a file
    system. *)
Definition generate_all_files (strptime : string -> string -> result datetime)
    (now : string) (config : site_config)
    (additional_pages : option (list (string * gmap string string)))
    (converted : list (string * gmap string (list string))) :
    list site_event * result unit :=
  match get_all_posts strptime (blog_prefix config) (url config) (blog_root config)
          converted with
  | Raise e => ([], Raise e)
  | Ok all_posts =>
      let all_posts := sort_posts all_posts in
      let categories := build_category_items all_posts in
      let '(static, outcome) :=
        generate_static_files config additional_pages now all_posts categories in
      match outcome with
      | Raise e => (Static <$> static, Raise e)
      | Ok _ =>
          let pages := generate_pagination_pages config all_posts "list.html" in
          let '(last, outcome) := generate_posts all_posts config in
          ((Static <$> static) ++ (Listed <$> pages) ++ (Listed <$> events last), outcome)
      end
  end.

(** The assignment of [generate_site]: [blog_dir] is [output_dir] joined
    with [blog_prefix]. *)
Definition with_blog_dir (config : site_config) : site_config :=
  {| content_dir := content_dir config;
     output_dir := output_dir config;
     blog_dir := path_join (output_dir config) [blog_prefix config];
     blog_prefix := blog_prefix config;
     blog_root := blog_root config;
     url := url config;
     template_dir := template_dir config |}.

(** The variables of the front page [index.html], of the archives page and
    of the site's feed, as the assignments of [generate_static_files] leave
    them. *)
Definition front_variables (config : site_config)
    (additional_pages : option (list (string * gmap string string)))
    (all_posts : list post) : static_variables :=
  set_canonical_url (set_front (site_variables config additional_pages) 1 (take 5 all_posts))
    (url config).

Definition archives_variables (config : site_config)
    (additional_pages : option (list (string * gmap string string)))
    (all_posts : list post) : static_variables :=
  set_canonical_url
    (set_all_posts (front_variables config additional_pages all_posts) all_posts)
    ((url config ++ "/" ++ blog_prefix config ++ "/") ++ "archives/")%string.

Definition feed_variables (config : site_config)
    (additional_pages : option (list (string * gmap string string))) (now : string)
    (all_posts : list post) : static_variables :=
  set_now (archives_variables config additional_pages all_posts) now.

(** The two pages of a category. *)
Definition category_pages (config : site_config) (variables : static_variables)
    (item : string * list post) : list static_event :=
  let output_dir := path_join (blog_dir config) ["categories"; item.1] in
  generate_static_page_with (set_all_posts variables item.2) output_dir
    "archives.html" "index.html"
  ++ generate_static_page_with (set_all_posts variables item.2) output_dir
       "atom.xml" "atom.xml".

(** The pages of [generate_static_files] behind the additional pages. *)
Definition standard_pages (config : site_config)
    (additional_pages : option (list (string * gmap string string))) (now : string)
    (all_posts : list post) (categories : list (string * list post)) : list static_event :=
  let front := front_variables config additional_pages all_posts in
  generate_static_page_with front (output_dir config) "list.html" "index.html"
  ++ generate_static_page_with
       (set_canonical_url front (url config ++ "/" ++ blog_prefix config ++ "/")%string)
       (blog_dir config) "list.html" "index.html"
  ++ generate_static_page_with
       (set_canonical_url front (url config ++ "/about-me/")%string)
       (path_join (output_dir config) ["about-me"]) "about.html" "index.html"
  ++ generate_static_page_with (archives_variables config additional_pages all_posts)
       (path_join (blog_dir config) ["archives"]) "archives.html" "index.html"
  ++ generate_static_page_with (feed_variables config additional_pages now all_posts)
       (output_dir config) "atom.xml" "atom.xml"
  ++ (categories ≫= category_pages config
                      (feed_variables config additional_pages now all_posts)).

(** The keys of a list of items in the order in which they first occur. *)
Fixpoint first_seen (seen : list string) (l : list string) : list string :=
  match l with
  | [] => []
  | c :: l' => if decide (c ∈ seen) then first_seen seen l' else c :: first_seen (c :: seen) l'
  end.

(** A prefix of a path that is empty or ends with the separator, and the
    test for a dot. *)
Definition directory_prefix (pre : string) : Prop :=
  pre = "" ∨ ∃ d, pre = (d ++ "/")%string.

Definition is_dot (c : ascii) : bool := Ascii.eqb c ".".

(** Every additional page of the configuration names its template. *)
Definition templates_given (additional_pages : option (list (string * gmap string string))) :
    Prop :=
  ∀ entries, additional_pages = Some entries →
             Forall (λ entry, is_Some (entry.2 !! "template")) entries.

(** The directory of an additional page: its [path], or its name when it
    has none, under [output_dir]. *)
Definition additional_page_path (config : site_config)
    (entry : string * gmap string string) : string :=
  path_join (output_dir config) [default entry.1 (entry.2 !! "path")].

(* ===================================================================== *)
(** ** The file system *)
(* ===================================================================== *)

(** The file system as the program meets it: its states, and the calls the
    program makes, each with the state it leaves or the exception it raises.
    [open_write] stands for opening a file for writing and writing the
    rendered page to it. *)
Record file_system := {
  state : Type;
  path_exists : state -> string -> bool;              (* os.path.exists(path) *)
  makedirs : state -> string -> result state;         (* os.makedirs(path) *)
  open_write : state -> string -> result state;       (* open(path, 'w') *)
  rmtree : state -> string -> result state;           (* shutil.rmtree(path) *)
  copytree : state -> string -> string -> result state  (* shutil.copytree(src, dst) *)
}.

(** [create_path_to_file(path)] on a file system. *)
Definition create_path_to_file_in (F : file_system) (s : state F) (path : string) :
    result (state F) :=
  match create_path_to_file (path_exists F s) path with
  | Some directory => makedirs F s directory
  | None => Ok s
  end.

(** The two kinds of file operations of a run, and the operation behind
    each event. *)
Inductive operation :=
| MakePath (path : string)
| OpenWrite (path : string).

Definition event_operation (e : event) : operation :=
  match e with
  | CreatePathToFile path => MakePath path
  | WriteFile path _ _ => OpenWrite path
  end.

Definition static_operation (e : static_event) : operation :=
  match e with
  | CreateStaticPath path => MakePath path
  | WriteStatic path _ _ => OpenWrite path
  end.

Definition site_operation (e : site_event) : operation :=
  match e with
  | Static e => static_operation e
  | Listed e => event_operation e
  end.

Definition carry_out_one (F : file_system) (s : state F) (o : operation) : result (state F) :=
  match o with
  | MakePath path => create_path_to_file_in F s path
  | OpenWrite path => open_write F s path
  end.

(** The operations of a list of events carried out in order, up to the first
    one that raises: the events done, the state reached and the outcome. *)
Fixpoint carry_out {E : Type} (op : E -> operation) (F : file_system) (s : state F)
    (l : list E) : list E * state F * result unit :=
  match l with
  | [] => ([], s, Ok tt)
  | e :: rest =>
      match carry_out_one F s (op e) with
      | Raise x => ([], s, Raise x)
      | Ok s' =>
          let '(done, s'', outcome) := carry_out op F s' rest in
          (e :: done, s'', outcome)
      end
  end.

(** A run on a file system.  [program] holds the file operations of the run
    in the order of the code, up to the exception the code itself raises,
    and the outcome of the code.  On a file system the run goes as far as
    the operations succeed: it ends with the exception of the first
    operation that fails, and with the outcome of the code when none does. *)
Definition run_in {E A : Type} (op : E -> operation) (F : file_system) (s : state F)
    (program : list E * result A) : list E * state F * result A :=
  let '(done, s', outcome) := carry_out op F s program.1 in
  (done, s', match outcome with Raise x => Raise x | Ok _ => program.2 end).

(** [generate_static_page], [generate_static_files] and
    [generate_all_files] on a file system. *)
Definition generate_static_page_in (F : file_system) (s : state F)
    (variables : template_variables) (output_dir template filename : string) :
    list event * state F * result unit :=
  carry_out event_operation F s (generate_static_page variables output_dir template filename).

Definition generate_static_files_in (F : file_system) (s : state F) (config : site_config)
    (additional_pages : option (list (string * gmap string string))) (now : string)
    (all_posts : list post) (categories : list (string * list post)) :
    list static_event * state F * result unit :=
  run_in static_operation F s
    (generate_static_files config additional_pages now all_posts categories).

Definition generate_all_files_in (F : file_system) (s : state F)
    (strptime : string -> string -> result datetime) (now : string) (config : site_config)
    (additional_pages : option (list (string * gmap string string)))
    (converted : list (string * gmap string (list string))) :
    list site_event * state F * result unit :=
  run_in site_operation F s
    (generate_all_files strptime now config additional_pages converted).

(** [copy_static_content(output_dir, root_dir)] *)
Definition copy_static_content (F : file_system) (s : state F)
    (output_dir root_dir : string) : result (state F) :=
  s' ← (if path_exists F s output_dir then rmtree F s output_dir else Ok s);
  copytree F s' (path_join root_dir ["static"]) output_dir.

(** [generate_site()] on the configuration [config.CONFIG], in the working
    directory [cwd]; [converted] is the content directory as
    [generate_all_files] finds it. *)
Definition generate_site (F : file_system) (s : state F)
    (strptime : string -> string -> result datetime) (now : string) (cwd : string)
    (config : site_config)
    (additional_pages : option (list (string * gmap string string)))
    (converted : list (string * gmap string (list string))) :
    list site_event * result bool :=
  let site_config := with_blog_dir config in
  match copy_static_content F s (output_dir site_config) cwd with
  | Raise e => ([], Raise e)
  | Ok s' =>
      let '(pages, _, outcome) :=
        generate_all_files_in F s' strptime now site_config additional_pages converted in
      (pages, match outcome with Ok _ => Ok true | Raise e => Raise e end)
  end.

(** A file system of directories, for the examples.  A state is the list of
    the directories that exist, each without a separator at its end;
    [os.makedirs] adds a directory with those above it, and a file can be
    opened for writing where its directory exists. *)
Fixpoint ancestors (before rest : string) : list string :=
  match rest with
  | EmptyString => [before]
  | String c rest' =>
      (if Ascii.eqb c "/" then [before] else [])
      ++ ancestors (before ++ String c EmptyString) rest'
  end.

Definition is_directory (directories : list string) (path : string) : bool :=
  existsb (String.eqb (PyPath.rstrip_sep path)) directories.

Definition below (directory path : string) : bool :=
  String.eqb path directory
  || match PyStr.strip_prefix (directory ++ "/") path with
     | Some _ => true
     | None => false
     end.

Definition sample_fs : file_system :=
  {| state := list string;
     path_exists := is_directory;
     makedirs := λ directories path,
       if String.eqb path "" then Raise (FileNotFoundError path)
       else Ok (ancestors "" (PyPath.rstrip_sep path) ++ directories);
     open_write := λ directories path,
       if is_directory directories (PyPath.dirname path) then Ok directories
       else Raise (FileNotFoundError path);
     rmtree := λ directories path,
       Ok (List.filter (λ d, negb (below (PyPath.rstrip_sep path) d)) directories);
     copytree := λ directories source destination,
       if is_directory directories source
       then Ok (PyPath.rstrip_sep destination :: directories)
       else Raise (FileNotFoundError source) |}.

(** The posts a written page lists: its variable [current_posts]. *)
Definition listed_posts (e : event) : list post :=
  match e with
  | WriteFile _ _ v => default [] (current_posts v)
  | CreatePathToFile _ => []
  end.




(** Metadata with the three lines of a skeleton. *)
Definition skeleton_meta (title date : string) : gmap string (list string) :=
  {[ "title" := [title]; "date" := [date]; "categories" := [""] ]}.

(* ===================================================================== *)
(** ** Sample data *)
(* ===================================================================== *)

(** The converted file of the specification's teaser example, once with a
    [categories] line and once without one. *)
Definition sample_html : string := "<p>intro</p><!--more--><p>rest</p>".

Definition sample_meta : gmap string (list string) :=
  {[ "title" := ["My Post"]; "date" := ["2024-03-07 10:00"];
     "categories" := ["python web"] ]}.

Definition sample_meta_without_categories : gmap string (list string) :=
  {[ "title" := ["My Post"]; "date" := ["2024-03-07 10:00"] ]}.

(** The dates of the specification's sorting example. *)
Definition jan_1_2024 : datetime :=
  {| year := 2024; month := 1; day := 1; hour := 0; minute := 0 |}.

Definition dec_31_2023 : datetime :=
  {| year := 2023; month := 12; day := 31; hour := 0; minute := 0 |}.

Definition sample_post : post :=
  {| body := sample_html;
     title := "My Post";
     teaser := "<p>intro</p>";
     categories := ["python"; "web"];
     date := {| year := 2024; month := 3; day := 7; hour := 10; minute := 0 |};
     relative_path := "blog/2024/03/07/my-post";
     relative_url := "/blog/2024/03/07/my-post";
     canonical_url := "http://example.com/blog/2024/03/07/my-post";
     post_previous := None |}.

(** A site configuration as [generate_site] completes it. *)
Definition sample_config : site_config :=
  {| content_dir := "content";
     output_dir := "generated";
     blog_dir := "generated/blog";
     blog_prefix := "blog";
     blog_root := None;
     url := "http://example.com";
     template_dir := "templates" |}.

(** The file system in which nothing exists yet. *)
Definition nothing_present (path : string) : bool := false.

(** [c.isdigit()] for the ASCII digits, the characters of [str(n)]. *)
Definition is_digit (c : ascii) : bool := PyStr.between 48 57 (PyStr.ord c).

(** The sample post with an empty body. *)
Definition sample_empty_post : post :=
  {| body := "";
     title := "Empty";
     teaser := "";
     categories := [];
     date := {| year := 2024; month := 3; day := 6; hour := 9; minute := 30 |};
     relative_path := "blog/2024/03/06/empty";
     relative_url := "/blog/2024/03/06/empty";
     canonical_url := "http://example.com/blog/2024/03/06/empty";
     post_previous := None |}.

(** A content directory with two converted files, the second one without
    text, and the time of a run. *)
Definition sample_converted : list (string * gmap string (list string)) :=
  [(sample_html, sample_meta); ("", skeleton_meta "Empty" "2024-03-06 09:30")].

Definition sample_now : string := "2024-03-07T10:00:00".

(* ===================================================================== *)
(** * Properties *)
(* ===================================================================== *)

(** ** Characters *)

Ltac each_char c := destruct c as [[] [] [] [] [] [] [] []].

Lemma lower_char_not_upper (c : ascii) : PyStr.isupper (PyStr.lower_char c) = false.
Proof. each_char c; reflexivity. Qed.

Lemma lower_char_fixed (c : ascii) : PyStr.isupper c = false → PyStr.lower_char c = c.
Proof. unfold PyStr.lower_char. by intros ->. Qed.

Lemma space_not_alnum : PyStr.isalnum " " = false.
Proof. reflexivity. Qed.

Lemma alnum_not_space (c : ascii) : PyStr.isalnum c = true → Ascii.eqb c " " = false.
Proof.
  intros H. destruct (Ascii.eqb_spec c " ") as [->|]; [|done].
  by rewrite space_not_alnum in H.
Qed.

Lemma alnum_not_hyphen (c : ascii) : PyStr.isalnum c = true → Ascii.eqb c "-" = false.
Proof.
  intros H. destruct (Ascii.eqb_spec c "-") as [->|]; [|done]. discriminate H.
Qed.

Lemma alnum_not_sep (c : ascii) : PyStr.isalnum c = true → Ascii.eqb c "/" = false.
Proof.
  intros H. destruct (Ascii.eqb_spec c "/") as [->|]; [|done]. discriminate H.
Qed.

(** ** Slugs *)

Section Slug.

(** The three passes of [generate_post_file_name] as one pass. *)
Lemma slug_cons (c : ascii) (s : string) :
  generate_post_file_name (String c s) =
    if Ascii.eqb (PyStr.lower_char c) " " then String "-" (generate_post_file_name s)
    else if PyStr.isalnum (PyStr.lower_char c)
         then String (PyStr.lower_char c) (generate_post_file_name s)
         else generate_post_file_name s.
Proof.
  unfold generate_post_file_name. cbn [PyStr.lower PyStr.join_if].
  destruct (Ascii.eqb_spec (PyStr.lower_char c) " ") as [->|Hne].
  - reflexivity.
  - rewrite orb_false_r. destruct (PyStr.isalnum (PyStr.lower_char c)) eqn:Hal; [|done].
    cbn [PyStr.replace]. by rewrite (alnum_not_space _ Hal).
Qed.

Lemma lower_char_space (c : ascii) :
  Ascii.eqb (PyStr.lower_char c) " " = Ascii.eqb c " ".
Proof. each_char c; reflexivity. Qed.

Lemma slug_all_slug_chars (title : string) :
  PyStr.all_chars is_slug_char (generate_post_file_name title) = true.
Proof.
  induction title as [|c s IH]; [done|].
  rewrite slug_cons.
  destruct (Ascii.eqb (PyStr.lower_char c) " "); [by cbn; rewrite IH|].
  destruct (PyStr.isalnum (PyStr.lower_char c)) eqn:Hal; [|done].
  cbn [PyStr.all_chars]. rewrite IH, andb_true_r.
  unfold is_slug_char. by rewrite Hal, lower_char_not_upper, orb_true_r.
Qed.

Lemma slug_no_space (title : string) :
  PyStr.contains " " (generate_post_file_name title) = false.
Proof.
  induction title as [|c s IH]; [done|].
  rewrite slug_cons.
  destruct (Ascii.eqb (PyStr.lower_char c) " "); [by cbn; rewrite IH|].
  destruct (PyStr.isalnum (PyStr.lower_char c)) eqn:Hal; [|done].
  cbn [PyStr.contains]. by rewrite IH, (alnum_not_space _ Hal).
Qed.

Lemma slug_no_upper (title : string) :
  PyStr.all_chars (fun c => negb (PyStr.isupper c)) (generate_post_file_name title) = true.
Proof.
  induction title as [|c s IH]; [done|].
  rewrite slug_cons.
  destruct (Ascii.eqb (PyStr.lower_char c) " "); [by cbn; rewrite IH|].
  destruct (PyStr.isalnum (PyStr.lower_char c)) eqn:Hal; [|done].
  cbn [PyStr.all_chars]. by rewrite IH, lower_char_not_upper.
Qed.

(** A hyphen of the slug comes from a space of the title, and back. *)
Lemma slug_hyphen (title : string) :
  PyStr.contains "-" (generate_post_file_name title) = PyStr.contains " " title.
Proof.
  induction title as [|c s IH]; [done|].
  rewrite slug_cons. cbn [PyStr.contains].
  destruct (Ascii.eqb (PyStr.lower_char c) " ") eqn:Hsp;
    rewrite lower_char_space in Hsp; rewrite Hsp; [done|].
  destruct (PyStr.isalnum (PyStr.lower_char c)) eqn:Hal; [|done].
  cbn [PyStr.contains]. by rewrite (alnum_not_hyphen _ Hal).
Qed.

(** A title of alphanumeric characters without upper-case ones is its own
    slug. *)
Lemma slug_fixed (s : string) :
  PyStr.all_chars (fun c => PyStr.isalnum c && negb (PyStr.isupper c)) s = true →
  generate_post_file_name s = s.
Proof.
  induction s as [|c s IH]; [done|].
  cbn [PyStr.all_chars]. intros [[Hal Hup]%andb_prop Hs]%andb_prop.
  apply negb_true_iff in Hup.
  rewrite slug_cons, (lower_char_fixed _ Hup), (alnum_not_space _ Hal), Hal.
  by rewrite IH.
Qed.

Lemma slug_without_hyphen (title : string) :
  PyStr.contains " " title = false →
  PyStr.all_chars (fun c => PyStr.isalnum c && negb (PyStr.isupper c))
    (generate_post_file_name title) = true.
Proof.
  induction title as [|c s IH]; [done|].
  cbn [PyStr.contains]. intros [Hc Hs]%orb_false_elim.
  rewrite slug_cons, lower_char_space, Hc.
  destruct (PyStr.isalnum (PyStr.lower_char c)) eqn:Hal; [|by apply IH].
  cbn [PyStr.all_chars]. by rewrite Hal, lower_char_not_upper, IH.
Qed.

Lemma slug_first_char (title : string) : starts_with_sep (generate_post_file_name title) = false.
Proof.
  pose proof (slug_all_slug_chars title) as H.
  destruct (generate_post_file_name title) as [|c s]; [done|].
  cbn in *. apply andb_prop in H as [H _]. unfold is_slug_char in H.
  apply orb_prop in H as [H|[H _]%andb_prop].
  - apply Ascii.eqb_eq in H as ->. reflexivity.
  - by apply alnum_not_sep.
Qed.

Lemma slug_spec (title : string) : generate_post_file_name title = deriveSlug_spec title.
Proof.
  unfold deriveSlug_spec. induction title as [|c s IH]; [done|].
  rewrite slug_cons. cbn [list_ascii_of_string map List.filter].
  destruct (Ascii.eqb (PyStr.lower_char c) " ") eqn:Hb.
  - rewrite orb_true_r. cbn [map string_of_list_ascii]. by rewrite Hb, IH.
  - rewrite orb_false_r.
    destruct (PyStr.isalnum (PyStr.lower_char c)); [|done].
    cbn [map string_of_list_ascii]. by rewrite Hb, IH.
Qed.

Lemma lower_char_ascii (c : ascii) :
  is_ascii c = true → PyStr.isalnum (PyStr.lower_char c) = true →
  is_ascii_slug_char (PyStr.lower_char c) = true.
Proof. each_char c; cbv; congruence. Qed.

Lemma slug_ascii (title : string) :
  PyStr.all_chars is_ascii title = true →
  PyStr.all_chars is_ascii_slug_char (generate_post_file_name title) = true.
Proof.
  induction title as [|c s IH]; [done|].
  cbn [PyStr.all_chars]. intros [Hc Hs]%andb_prop.
  rewrite slug_cons.
  destruct (Ascii.eqb (PyStr.lower_char c) " "); [by cbn; rewrite IH|].
  destruct (PyStr.isalnum (PyStr.lower_char c)) eqn:Hal; [|by apply IH].
  cbn [PyStr.all_chars]. by rewrite lower_char_ascii, IH.
Qed.

End Slug.

(** ** Paths *)

Lemma append_nil (b : string) : ("" ++ b)%string = b.
Proof. reflexivity. Qed.

Lemma append_cons (x : ascii) (a b : string) : (String x a ++ b)%string = String x (a ++ b).
Proof. reflexivity. Qed.

Lemma append_assoc (a b c : string) : ((a ++ b) ++ c = a ++ b ++ c)%string.
Proof.
  induction a as [|x a IH]; [done|]. by rewrite !append_cons, IH.
Qed.

Lemma ends_with_sep_append (a : string) (c : ascii) (b : string) :
  ends_with_sep (a ++ String c b)%string = ends_with_sep (String c b).
Proof.
  induction a as [|x a IH]; [done|].
  rewrite append_cons. cbn [ends_with_sep]. rewrite IH.
  destruct a; [by rewrite append_nil | by rewrite append_cons].
Qed.

Lemma strftime_date_directory (date : datetime) :
  strftime date "%Y/%m/%d/" = date_directory date.
Proof. reflexivity. Qed.

Lemma date_directory_ends_with_sep (date : datetime) :
  ends_with_sep (date_directory date) = true.
Proof.
  unfold date_directory. rewrite <- !append_assoc.
  change "/" with (String "/" "") at 3. by rewrite ends_with_sep_append.
Qed.

(** A year from 1000 to 9999 has four digits and needs no padding; a
    smaller one has fewer. *)
Lemma year_four_digits (n : nat) :
  1000 ≤ n → (Z.of_nat n ≤ 9999)%Z → PyStr.zfill 4 (PyStr.str n) = PyStr.str n.
Proof.
  assert (forallb (λ n, (n <? 1000) || String.eqb (PyStr.zfill 4 (PyStr.str n)) (PyStr.str n))
            (seq 0 (100 * 100)) = true) as Hall by (vm_compute; reflexivity).
  intros Hlow Hn. rewrite forallb_forall in Hall.
  specialize (Hall n). rewrite in_seq in Hall.
  destruct (Nat.ltb_spec n 1000); [lia|].
  apply String.eqb_eq, Hall. lia.
Qed.

Lemma year_short (n : nat) : n < 1000 → String.length (PyStr.str n) < 4.
Proof.
  assert (forallb (λ n, String.length (PyStr.str n) <? 4) (seq 0 1000) = true)
    as Hall by (vm_compute; reflexivity).
  intros Hn. rewrite forallb_forall in Hall.
  apply Nat.ltb_lt, Hall, in_seq. lia.
Qed.

Lemma date_directory_path (date : datetime) :
  1000 ≤ year date → (Z.of_nat (year date) ≤ 9999)%Z → date_directory date = date_path date.
Proof. intros Hlow Hn. unfold date_directory, date_path. by rewrite year_four_digits. Qed.

Lemma zfill_4_length (n : nat) :
  (Z.of_nat n ≤ 9999)%Z → String.length (PyStr.zfill 4 (PyStr.str n)) = 4.
Proof.
  assert (forallb (λ n, String.length (PyStr.zfill 4 (PyStr.str n)) =? 4)
            (seq 0 (100 * 100)) = true) as Hall by (vm_compute; reflexivity).
  intros Hn. rewrite forallb_forall in Hall.
  apply Nat.eqb_eq, Hall, in_seq. lia.
Qed.

Lemma zfill_2_length (n : nat) : n ≤ 99 → String.length (PyStr.zfill 2 (PyStr.str n)) = 2.
Proof.
  assert (forallb (λ n, String.length (PyStr.zfill 2 (PyStr.str n)) =? 2) (seq 0 100) = true)
    as Hall by (vm_compute; reflexivity).
  intros Hn. rewrite forallb_forall in Hall.
  apply Nat.eqb_eq, Hall, in_seq. lia.
Qed.

Lemma post_file_path (title : string) (date : datetime) :
  generate_post_file_path title date
  = (date_directory date ++ generate_post_file_name title)%string.
Proof.
  unfold generate_post_file_path, path_join. cbn [foldl]. unfold join_step.
  rewrite slug_first_char, strftime_date_directory, date_directory_ends_with_sep.
  by rewrite orb_true_r.
Qed.

(** ** Partition *)

Lemma strip_prefix_Some (p s rest : string) :
  PyStr.strip_prefix p s = Some rest ↔ s = (p ++ rest)%string.
Proof.
  revert s. induction p as [|a p IH]; intros s; cbn.
  - split; [by intros [= ->]|by intros ->].
  - destruct s as [|b s]; [done|].
    destruct (Ascii.eqb_spec a b) as [->|Hne].
    + rewrite IH. split; [by intros ->|by intros [= ->]].
    + split; [done|]. intros [= -> _]. done.
Qed.

Lemma strip_prefix_None (p s : string) :
  PyStr.strip_prefix p s = None → ∀ b, s ≠ (p ++ b)%string.
Proof. intros H b Hs. apply strip_prefix_Some in Hs. congruence. Qed.

Lemma partition_before_first (sep s : string) :
  before_first sep s (PyStr.partition sep s).1.1.
Proof.
  induction s as [|c s IH].
  - cbn. destruct (PyStr.strip_prefix sep "") as [rest|] eqn:Hp.
    + left. exists rest. apply strip_prefix_Some in Hp. split; [done|]. cbn. lia.
    + right. split; [done|]. intros [|x a] b Hs; [|done].
      by apply (strip_prefix_None _ _ Hp b).
  - cbn [PyStr.partition]. destruct (PyStr.strip_prefix sep (String c s)) as [rest|] eqn:Hp.
    + left. exists rest. apply strip_prefix_Some in Hp. split; [done|]. cbn. lia.
    + destruct (PyStr.partition sep s) as [[before found] after] eqn:Hs. cbn in *.
      destruct IH as [(rest & Heq & Hmin)|[Heq Hno]].
      * left. exists rest. split; [by rewrite Heq at 1|].
        intros [|x a] b Hab; [by destruct (strip_prefix_None _ _ Hp b)|].
        injection Hab as -> Hab. cbn. apply Hmin in Hab. lia.
      * right. split; [by rewrite Heq|].
        intros [|x a] b Hab; [by destruct (strip_prefix_None _ _ Hp b)|].
        injection Hab as -> Hab. by apply Hno in Hab.
Qed.

(** ** Loading *)

Section LoaderFacts.

Variable strptime : string -> string -> result datetime.

Lemma bind_Ok {A B : Type} (r : result A) (k : A → result B) (b : B) :
  (r ≫= k) = Ok b → ∃ a, r = Ok a ∧ k a = Ok b.
Proof. destruct r as [a|e]; [by exists a|done]. Qed.

Lemma load_post_fields blog_prefix canonical_url blog_root generated_html Meta p :
  load_post strptime blog_prefix canonical_url blog_root generated_html Meta = Ok p →
  body p = generated_html
  ∧ teaser p = (PyStr.partition "<!--more-->" generated_html).1.1
  ∧ ∃ line, meta_first Meta "categories" = Ok line ∧ categories p = PyStr.split line.
Proof.
  unfold load_post. intros H.
  apply bind_Ok in H as (t & _ & H).
  apply bind_Ok in H as (line & Hline & H).
  apply bind_Ok in H as (dl & _ & H).
  apply bind_Ok in H as (d & _ & H).
  injection H as <-. cbn. eauto.
Qed.

Lemma meta_first_missing (Meta : gmap string (list string)) (key : string) :
  Meta !! key = None → meta_first Meta key = Raise (KeyError key).
Proof. unfold meta_first. by intros ->. Qed.

Lemma load_post_missing_categories blog_prefix canonical_url blog_root generated_html Meta :
  Meta !! "categories" = None →
  ∃ e, load_post strptime blog_prefix canonical_url blog_root generated_html Meta = Raise e
       ∧ (is_Some (head (default [] (Meta !! "title"))) → e = KeyError "categories").
Proof.
  intros Hc. unfold load_post. rewrite (meta_first_missing _ _ Hc).
  destruct (meta_first Meta "title") as [t|e] eqn:Ht; cbn.
  - eauto.
  - exists e. split; [done|]. unfold meta_first in Ht.
    destruct (Meta !! "title") as [[|l ls]|]; cbn; intros [x Hx]; done.
Qed.

Lemma for_each_Raise {A B : Type} (f : A → result B) (l : list A) (x : A) (e : exn) :
  x ∈ l → f x = Raise e → ∃ e', for_each f l = Raise e'.
Proof.
  intros Hin Hx. induction l as [|y l IH]; [by apply elem_of_nil in Hin|].
  cbn. apply elem_of_cons in Hin as [<-|Hin].
  - rewrite Hx. by exists e.
  - destruct (f y) as [b|e0]; cbn; [|by exists e0].
    destruct (IH Hin) as [e' ->]. by exists e'.
Qed.

Lemma split_spaces (s : string) : PyStr.all_chars PyStr.isspace s = true → PyStr.split s = [].
Proof.
  induction s as [|c s IH]; [done|].
  cbn. intros [-> Hs]%andb_prop. by apply IH.
Qed.

Lemma split_nil (s : string) : PyStr.split s = [] → PyStr.all_chars PyStr.isspace s = true.
Proof.
  induction s as [|c s IH]; [done|].
  cbn. destruct (PyStr.isspace c); [by apply IH|].
  destruct s as [|d s]; [done|].
  destruct (PyStr.isspace d); [done|]. by destruct (PyStr.split (String d s)).
Qed.

End LoaderFacts.

(** ** Sorting *)

Lemma datetime_lt_lexico (a b : datetime) :
  datetime_lt a b = true ↔ lexico (fields a) (fields b).
Proof.
  destruct a as [y1 m1 d1 h1 n1], b as [y2 m2 d2 h2 n2].
  unfold datetime_lt, datetime_compare, fields, lexico, prod_lexico, lexico, nat_lexico.
  cbn [year month day hour minute fst snd].
  repeat match goal with
         | |- context [(?x ?= ?y)%nat] => destruct (Nat.compare_spec x y)
         end; cbn [lexicographic]; split; intros; try done; try lia; naive_solver lia.
Qed.

Lemma datetime_lt_asym (a b : datetime) : datetime_lt a b = true → datetime_lt b a = false.
Proof.
  intros Hab%datetime_lt_lexico. apply not_true_is_false. intros Hba%datetime_lt_lexico.
  apply (irreflexivity lexico (fields a)). by trans (fields b).
Qed.

Lemma datetime_lt_irrefl (a : datetime) : datetime_lt a a = false.
Proof.
  apply not_true_is_false. intros H%datetime_lt_lexico.
  by apply (irreflexivity lexico (fields a)).
Qed.

Lemma datetime_lt_negtrans (a b c : datetime) :
  datetime_lt a c = true → datetime_lt a b = true ∨ datetime_lt b c = true.
Proof.
  rewrite !datetime_lt_lexico. intros Hac.
  destruct (trichotomy lexico (fields a) (fields b)) as [Hab|[Heq|Hba]].
  - by left.
  - right. by rewrite <- Heq.
  - right. by trans (fields a).
Qed.

Section ListSortFacts.

Context {A K : Type}.
Variable lt : K → K → bool.
Variable key : A → K.
Hypothesis lt_asym : ∀ a b, lt a b = true → lt b a = false.
Hypothesis lt_negtrans : ∀ a b c, lt a c = true → lt a b = true ∨ lt b c = true.

(** [x] may stand before [y] in ascending order. *)
Let ascending (x y : A) : Prop := lt (key y) (key x) = false.

Lemma sort_insert_perm (x : A) (l : list A) : sort_insert lt key x l ≡ₚ x :: l.
Proof.
  induction l as [|y l IH]; [done|]. cbn.
  destruct (lt (key y) (key x)); [|done].
  rewrite IH. apply Permutation_swap.
Qed.

Lemma sort_ascending_perm (l : list A) : sort_ascending lt key l ≡ₚ l.
Proof.
  induction l as [|x l IH]; [done|]. cbn. by rewrite sort_insert_perm, IH.
Qed.

Lemma sort_insert_sorted (x : A) (l : list A) :
  StronglySorted ascending l → StronglySorted ascending (sort_insert lt key x l).
Proof.
  induction l as [|y l IH]; intros Hl.
  - cbn. by repeat constructor.
  - apply StronglySorted_cons in Hl as [Hy Hl]. cbn.
    destruct (lt (key y) (key x)) eqn:Hyx.
    + apply StronglySorted_cons. split; [|by apply IH].
      rewrite sort_insert_perm. constructor; [|done].
      unfold ascending. by apply lt_asym.
    + apply StronglySorted_cons. split; [|by apply StronglySorted_cons].
      constructor; [done|].
      eapply Forall_impl; [exact Hy|]. intros z Hz. unfold ascending in *.
      destruct (lt (key z) (key x)) eqn:Hzx; [|done].
      destruct (lt_negtrans _ (key y) _ Hzx); congruence.
Qed.

Lemma sort_ascending_sorted (l : list A) : StronglySorted ascending (sort_ascending lt key l).
Proof.
  induction l as [|x l IH]; [constructor|]. cbn. by apply sort_insert_sorted.
Qed.

(** Elements whose keys are not ordered keep their places among themselves. *)
Lemma sort_insert_filter (P : A → Prop) `{!∀ x, Decision (P x)} (x : A) (l : list A) :
  (∀ y z, P y → P z → lt (key y) (key z) = false) →
  filter P (sort_insert lt key x l) = filter P (x :: l).
Proof.
  intros HP. induction l as [|y l IH]; [done|]. cbn.
  destruct (lt (key y) (key x)) eqn:Hyx; [|done].
  rewrite (filter_cons _ y), IH, !filter_cons.
  destruct (decide (P y)) as [Hy|Hy], (decide (P x)) as [Hx|Hx]; try done.
  rewrite (HP y x Hy Hx) in Hyx. done.
Qed.

Lemma sort_ascending_filter (P : A → Prop) `{!∀ x, Decision (P x)} (l : list A) :
  (∀ y z, P y → P z → lt (key y) (key z) = false) →
  filter P (sort_ascending lt key l) = filter P l.
Proof.
  intros HP. induction l as [|x l IH]; [done|]. cbn.
  rewrite sort_insert_filter by done. by rewrite !filter_cons, IH.
Qed.

Lemma reverse_sorted (R : A → A → Prop) (l : list A) :
  StronglySorted R l → StronglySorted (flip R) (reverse l).
Proof.
  induction 1 as [|x l Hl IH Hx]; [constructor|].
  rewrite reverse_cons. apply StronglySorted_app. split_and!.
  - intros y z Hy ->%list_elem_of_singleton. rewrite elem_of_reverse in Hy.
    rewrite Forall_forall in Hx. unfold flip. by apply Hx.
  - done.
  - by repeat constructor.
Qed.

Lemma list_sort_reversed_perm (l : list A) : list_sort lt key true l ≡ₚ l.
Proof.
  unfold list_sort. by rewrite reverse_Permutation, sort_ascending_perm, reverse_Permutation.
Qed.

Lemma list_sort_reversed_sorted (l : list A) :
  StronglySorted (λ x y, lt (key x) (key y) = false) (list_sort lt key true l).
Proof. unfold list_sort. apply (reverse_sorted ascending), sort_ascending_sorted. Qed.

Lemma list_sort_reversed_filter (P : A → Prop) `{!∀ x, Decision (P x)} (l : list A) :
  (∀ y z, P y → P z → lt (key y) (key z) = false) →
  filter P (list_sort lt key true l) = filter P l.
Proof.
  intros HP. unfold list_sort.
  rewrite filter_reverse, sort_ascending_filter by done.
  by rewrite filter_reverse, reverse_involutive.
Qed.

End ListSortFacts.

(** ** Categories *)

Lemma append_to_lookup (m : gmap string (list post)) (c category : string) (p : post) :
  default [] (append_to m c p !! category)
  = default [] (m !! category) ++ (if decide (c = category) then [p] else []).
Proof.
  unfold append_to. destruct (decide (c = category)) as [->|Hne].
  - by rewrite lookup_insert_eq.
  - rewrite lookup_insert_ne by done. by rewrite app_nil_r.
Qed.

Lemma add_post_lookup (m : gmap string (list post)) (category : string) (p : post) :
  default [] (add_post m p !! category) = default [] (m !! category) ++ declarations category p.
Proof.
  unfold add_post, declarations. generalize (categories p) as cs. intros cs. revert m.
  induction cs as [|c cs IH]; intros m; cbn [foldl].
  - by rewrite app_nil_r.
  - rewrite IH, append_to_lookup, bind_cons. by rewrite app_assoc.
Qed.

Lemma build_categories_lookup (m : gmap string (list post)) (category : string)
    (all_posts : list post) :
  default [] (foldl add_post m all_posts !! category)
  = default [] (m !! category) ++ bucket_of category all_posts.
Proof.
  unfold bucket_of. revert m. induction all_posts as [|p l IH]; intros m; cbn [foldl].
  - by rewrite app_nil_r.
  - rewrite IH, add_post_lookup, bind_cons. by rewrite app_assoc.
Qed.

Lemma append_to_no_empty (m : gmap string (list post)) (c : string) (p : post) :
  no_empty_bucket m → no_empty_bucket (append_to m c p).
Proof.
  intros Hm category bucket. unfold append_to.
  destruct (decide (c = category)) as [->|Hne].
  - rewrite lookup_insert_eq. intros [= <-]. by destruct (default [] (m !! category)).
  - rewrite lookup_insert_ne by done. apply Hm.
Qed.

Lemma add_post_no_empty (m : gmap string (list post)) (p : post) :
  no_empty_bucket m → no_empty_bucket (add_post m p).
Proof.
  unfold add_post. generalize (categories p) as cs. intros cs. revert m.
  induction cs as [|c cs IH]; intros m Hm; [done|].
  cbn [foldl]. by apply IH, append_to_no_empty.
Qed.

Lemma build_categories_no_empty (all_posts : list post) :
  no_empty_bucket (build_categories all_posts).
Proof.
  unfold build_categories.
  assert (no_empty_bucket (∅ : gmap string (list post))) as H by (by intros c b).
  revert H. generalize (∅ : gmap string (list post)) as m.
  induction all_posts as [|p l IH]; intros m Hm; [done|].
  cbn [foldl]. by apply IH, add_post_no_empty.
Qed.

Lemma bucket_of_declares (category : string) (all_posts : list post) (p : post) :
  p ∈ bucket_of category all_posts ↔ p ∈ all_posts ∧ category ∈ categories p.
Proof.
  unfold bucket_of, declarations. rewrite list_elem_of_bind. split.
  - intros (q & Hp & Hq).
    apply list_elem_of_bind in Hp as (c & Hp & Hc).
    destruct (decide (c = category)) as [->|]; [|by apply elem_of_nil in Hp].
    by apply list_elem_of_singleton in Hp as ->.
  - intros [Hp Hc]. exists p. split; [|done].
    apply list_elem_of_bind. exists category. split; [|done].
    rewrite decide_True by done. by apply list_elem_of_singleton.
Qed.

(** ** Pagination *)

Lemma range_5 (n : nat) : range 5 n 5 = map (λ i, 5 + i * 5) (seq 0 ((n - 1) / 5)).
Proof.
  unfold range. do 2 f_equal.
  destruct (decide (n < 5)) as [Hn|Hn].
  - replace (n - 5 + (5 - 1)) with 4 by lia. rewrite !Nat.div_small; lia.
  - f_equal. lia.
Qed.

Lemma zip_seq_map {B : Type} (h : nat → B) (a c : nat) :
  zip (seq a c) (map h (seq a c)) = map (λ i, (i, h i)) (seq a c).
Proof.
  revert a. induction c as [|c IH]; intros a; [done|]. cbn. by rewrite IH.
Qed.

Lemma enumerate_map_seq {B : Type} (h : nat → B) (c : nat) :
  enumerate (map h (seq 0 c)) = map (λ i, (i, h i)) (seq 0 c).
Proof. unfold enumerate. by rewrite length_map, length_seq, zip_seq_map. Qed.

Section Pagination.

Variable config : site_config.
Variable all_posts : list post.
Variable template : string.

Lemma pagination_round_window (v : template_variables) (evs : list event) (i : nat) :
  site v = config → post_variable v = None →
  pagination_round config (length all_posts) template (v, evs)
    (i, slice all_posts (5 + i * 5) (5 + i * 5 + 5))
  = (window_variables config all_posts (S i),
     evs ++ window_page config all_posts template (S i)).
Proof.
  intros Hsite Hpost. unfold pagination_round, window_page, window_variables.
  cbn [fst snd]. replace (i + 1) with (S i) by lia.
  replace (5 + i * 5) with (5 * S i) by lia.
  assert ((Z.of_nat (S i * 5) >=? Z.of_nat (length all_posts) - 5)%Z
          = bool_decide (Z.of_nat (length all_posts) - 5 ≤ 5 * Z.of_nat (S i))%Z) as ->.
  { rewrite Z.geb_leb. case_bool_decide; [apply Z.leb_le|apply Z.leb_gt]; lia. }
  replace (S i + 1) with (S (S i)) by lia.
  destruct (bool_decide _);
    unfold set_next_page, set_current_posts; cbn; by rewrite Hsite, Hpost.
Qed.

Lemma pagination_rounds (c a : nat) (v : template_variables) (evs : list event) :
  site v = config → post_variable v = None →
  (foldl (pagination_round config (length all_posts) template) (v, evs)
     (map (λ i, (i, slice all_posts (5 + i * 5) (5 + i * 5 + 5))) (seq a c))).2
  = evs ++ (seq (S a) c ≫= window_page config all_posts template).
Proof.
  revert a v evs. induction c as [|c IH]; intros a v evs Hsite Hpost.
  - cbn. by rewrite app_nil_r.
  - cbn [seq map foldl]. rewrite pagination_round_window by done.
    rewrite IH by done. rewrite bind_cons. by rewrite app_assoc.
Qed.

Lemma pagination_pages :
  generate_pagination_pages config all_posts template
  = seq 1 ((length all_posts - 1) / 5) ≫= window_page config all_posts template.
Proof.
  unfold generate_pagination_pages. rewrite range_5, map_map, enumerate_map_seq.
  by rewrite pagination_rounds.
Qed.

End Pagination.



(** ** Linking *)





Lemma link_length (l : list post) (index : nat) : length (link l index) = length l.
Proof. unfold link. destruct (l !! index); [by rewrite length_insert|done]. Qed.


(** ** Post pages *)

Lemma generate_post_empty (p : post) (v : template_variables) :
  body p = "" →
  generate_post p v
  = (v, [], Raise (EnvironmentError ("No content for post [" ++ relative_path p ++ "] found."))).
Proof. unfold generate_post. by intros ->. Qed.

Lemma generate_post_content (p : post) (v : template_variables) :
  body p ≠ "" →
  generate_post p v
  = (set_post v p,
     [CreatePathToFile (path_join (output_dir (site v)) [relative_path p; "index.html"]);
      WriteFile (path_join (output_dir (site v)) [relative_path p; "index.html"])
        "post_index.html" (set_post v p)],
     Ok tt).
Proof.
  unfold generate_post. intros Hb.
  destruct (String.eqb_spec (body p) ""); done.
Qed.



Lemma link_content (l : list post) (index : nat) : content <$> link l index = content <$> l.
Proof.
  unfold link. destruct (l !! index) as [p|] eqn:Hp; [|done].
  rewrite list_fmap_insert. apply list_insert_id.
  by rewrite list_lookup_fmap, Hp.
Qed.

Lemma generate_rounds_app (l1 l2 : list nat) (r : run) :
  generate_rounds (l1 ++ l2) r
  = match generate_rounds l1 r with
    | (r', Ok _) => generate_rounds l2 r'
    | (r', Raise e) => (r', Raise e)
    end.
Proof.
  revert r. induction l1 as [|i l1 IH]; intros r; [done|].
  cbn [app generate_rounds]. destruct (generate_round i r) as [r' [[]|e]]; [apply IH|done].
Qed.

(** The rounds for posts with a body all succeed and change nothing that a
    later round reads. *)
Lemma generate_rounds_ok (indices : list nat) (r : run) :
  Forall (λ i, ∃ b path, (content <$> posts r) !! i = Some (b, path) ∧ b ≠ "") indices →
  (generate_rounds indices r).2 = Ok tt
  ∧ content <$> posts (generate_rounds indices r).1 = content <$> posts r
  ∧ site (variables_of (generate_rounds indices r).1) = site (variables_of r).
Proof.
  revert r. induction indices as [|i indices IH]; intros r Hi; [done|].
  apply Forall_cons in Hi as [(b & path & Hi & Hb) His]. cbn [generate_rounds].
  unfold generate_round.
  pose proof (link_content (posts r) i) as Hc.
  assert ((content <$> link (posts r) i) !! i = Some (b, path)) as Hl by by rewrite Hc.
  rewrite list_lookup_fmap in Hl.
  destruct (link (posts r) i !! i) as [p|]; [|done].
  injection Hl as Hbody Hpath.
  rewrite generate_post_content by by rewrite Hbody.
  match goal with |- context [generate_rounds indices ?r1] => destruct (IH r1) as (H1 & H2 & H3) end.
  { cbn. by rewrite Hc. }
  split_and!; [done|by rewrite H2|by rewrite H3].
Qed.

(** The loop stops at the first post without a body: the error names that
    post, and the events are those of the rounds before it. *)
Lemma generate_posts_aborts (all_posts : list post) (config : site_config) (i : nat) (p : post) :
  all_posts !! i = Some p → body p = "" →
  (∀ j q, j < i → all_posts !! j = Some q → body q ≠ "") →
  (generate_posts all_posts config).2
  = Raise (EnvironmentError ("No content for post [" ++ relative_path p ++ "] found."))
  ∧ events (generate_posts all_posts config).1
    = events (generate_rounds (seq 0 i) (first_run all_posts config)).1
  ∧ (generate_rounds (seq 0 i) (first_run all_posts config)).2 = Ok tt.
Proof.
  intros Hp Hbody Hbefore. unfold generate_posts.
  pose proof (lookup_lt_Some _ _ _ Hp) as Hi.
  replace (length all_posts) with (i + S (length all_posts - S i)) by lia.
  rewrite seq_app, generate_rounds_app. cbn [seq Nat.add].
  destruct (generate_rounds_ok (seq 0 i) (first_run all_posts config)) as (Hok & Hc & _).
  { apply Forall_forall. intros j Hj%elem_of_seq. cbn.
    destruct (lookup_lt_is_Some_2 all_posts j) as [q Hq]; [lia|].
    exists (body q), (relative_path q). rewrite list_lookup_fmap, Hq.
    split; [done|]. apply (Hbefore j q); [lia|done]. }
  destruct (generate_rounds (seq 0 i) (first_run all_posts config)) as [r' [[]|e]] eqn:Hr;
    [|done].
  cbn in Hc. cbn [generate_rounds]. unfold generate_round.
  pose proof (link_content (posts r') i) as Hl.
  assert ((content <$> link (posts r') i) !! i = Some (content p)) as Hlp.
  { by rewrite Hl, Hc, list_lookup_fmap, Hp. }
  rewrite list_lookup_fmap in Hlp.
  destruct (link (posts r') i !! i) as [p'|]; [|done].
  injection Hlp as Hb' Hpath'.
  rewrite generate_post_empty by by rewrite Hb', Hbody.
  cbn. rewrite Hpath', app_nil_r. done.
Qed.

(* ===================================================================== *)
(** * The claims *)
(* ===================================================================== *)



(** C2, the claim as the code has it: a converted file whose metadata has no
    [categories] key is never loaded.  [load_post] raises
    [KeyError: 'categories'] when the metadata has a title line, and
    otherwise the error of the title, which is read first: [KeyError:
    'title'] for a missing key, [IndexError] for a key without a line.  So
    [get_all_posts] raises for every content directory that holds such a
    file.  A loaded post has a [categories] line, and its category list is
    empty exactly when that line is blank. *)
Theorem missing_categories_raises (strptime : string → string → result datetime)
    (blog_prefix canonical_url : string) (blog_root : option string)
    (generated_html : string) (Meta : gmap string (list string)) :
  (Meta !! "categories" = None →
   load_post strptime blog_prefix canonical_url blog_root generated_html Meta
   = Raise (match Meta !! "title" with
            | Some (_ :: _) => KeyError "categories"
            | Some [] => IndexError
            | None => KeyError "title"
            end)
   ∧ (∀ converted, (generated_html, Meta) ∈ converted →
        ∃ e, get_all_posts strptime blog_prefix canonical_url blog_root converted = Raise e))
  ∧ (∀ p, load_post strptime blog_prefix canonical_url blog_root generated_html Meta = Ok p →
       ∃ line, meta_first Meta "categories" = Ok line
               ∧ (categories p = [] ↔ PyStr.all_chars PyStr.isspace line = true)).
Proof.
  split.
  - intros Hc.
    assert (load_post strptime blog_prefix canonical_url blog_root generated_html Meta
            = Raise (match Meta !! "title" with
                     | Some (_ :: _) => KeyError "categories"
                     | Some [] => IndexError
                     | None => KeyError "title"
                     end)) as Hload.
    { unfold load_post. rewrite (meta_first_missing _ _ Hc). unfold meta_first.
      by destruct (Meta !! "title") as [[|line lines]|]. }
    split; [done|].
    intros converted Hin. unfold get_all_posts.
    by apply (for_each_Raise _ _ (generated_html, Meta) _ Hin Hload).
  - intros p (_ & _ & line & Hline & Hcats)%load_post_fields.
    exists line. split; [done|]. rewrite Hcats. split; [apply split_nil|apply split_spaces].
Qed.

Lemma missing_categories_raises_witness :
  sample_meta_without_categories !! "categories" = None
  ∧ load_post strptime_padded "blog" "http://example.com" None sample_html
      sample_meta_without_categories
    = Raise (match sample_meta_without_categories !! "title" with
             | Some (_ :: _) => KeyError "categories"
             | Some [] => IndexError
             | None => KeyError "title"
             end)
  ∧ (∀ converted, (sample_html, sample_meta_without_categories) ∈ converted →
       ∃ e, get_all_posts strptime_padded "blog" "http://example.com" None converted
            = Raise e).
Proof.
  split; [reflexivity|].
  apply (missing_categories_raises strptime_padded "blog" "http://example.com" None
           sample_html sample_meta_without_categories).
  reflexivity.
Defined.

(** C2, the claim as stated fails: the sample file without a [categories]
    line is not returned with an empty category list, loading it raises
    [KeyError: 'categories']. *)
Lemma missing_categories_counterexample :
  load_post strptime_padded "blog" "http://example.com" None sample_html
    sample_meta_without_categories
  = Raise (KeyError "categories").
Proof. vm_compute. reflexivity. Qed.

(** C3, the claim as the code has it: applying [generate_post_file_name] to
    its own result gives that result again exactly for the titles without a
    space. *)
Theorem slug_idempotent_iff (title : string) :
  generate_post_file_name (generate_post_file_name title) = generate_post_file_name title
  ↔ PyStr.contains " " title = false.
Proof.
  split.
  - intros Heq. rewrite <- slug_hyphen, <- Heq, slug_hyphen. apply slug_no_space.
  - intros Hsp. by apply slug_fixed, slug_without_hyphen.
Qed.

(** C3, the claim as stated fails: the slug of ["a b"] is ["a-b"], and the
    slug of that is ["ab"]. *)
Lemma slug_not_idempotent :
  generate_post_file_name "a b" = "a-b"
  ∧ generate_post_file_name (generate_post_file_name "a b") = "ab".
Proof. split; reflexivity. Qed.


(** C5: sorting the posts keeps them all, puts them in order of
    non-increasing date, and leaves the posts of any one date in the order
    they had.  Of two posts of 2024-01-01 and one of 2023-12-31 the last
    comes last and the two others keep their order. *)
Theorem sort_posts_stable (all_posts : list post) :
  sort_posts all_posts ≡ₚ all_posts
  ∧ StronglySorted not_older (sort_posts all_posts)
  ∧ (∀ d, filter (λ p, date p = d) (sort_posts all_posts)
          = filter (λ p, date p = d) all_posts)
  ∧ (∀ A B C, date A = jan_1_2024 → date B = jan_1_2024 → date C = dec_31_2023 →
       sort_posts [A; B; C] = [A; B; C] ∧ sort_posts [C; A; B] = [A; B; C]).
Proof.
  split_and!.
  - apply list_sort_reversed_perm.
  - apply (list_sort_reversed_sorted datetime_lt date).
    + apply datetime_lt_asym.
    + apply datetime_lt_negtrans.
  - intros d. apply list_sort_reversed_filter.
    intros y z -> ->. apply datetime_lt_irrefl.
  - intros A B C HA HB HC. unfold sort_posts, list_sort, reverse.
    split;
      repeat (cbn [rev_append sort_ascending sort_insert]; rewrite ?HA, ?HB, ?HC;
              change (datetime_lt jan_1_2024 jan_1_2024) with false;
              change (datetime_lt jan_1_2024 dec_31_2023) with false;
              change (datetime_lt dec_31_2023 jan_1_2024) with true;
              cbn iota);
      reflexivity.
Qed.

(** C6: the bucket of a category holds the posts that declare it, once for
    each declaration and in the order of the sorted list, and a category
    nobody declares has no bucket; a post without categories is in no
    bucket.  For P1 with categories [a] and P2 with categories [a, b] the
    bucket of [a] is [P1, P2]. *)
Theorem categories_buckets (all_posts : list post) (category : string) :
  build_categories all_posts !! category
  = match bucket_of category all_posts with
    | [] => None
    | bucket => Some bucket
    end
  ∧ (∀ p, p ∈ bucket_of category all_posts ↔ p ∈ all_posts ∧ category ∈ categories p)
  ∧ (∀ p, categories p = [] → p ∉ bucket_of category all_posts)
  ∧ (∀ P1 P2, categories P1 = ["a"] → categories P2 = ["a"; "b"] →
       build_categories [P1; P2] !! "a" = Some [P1; P2]).
Proof.
  assert (∀ l c, build_categories l !! c
                 = match bucket_of c l with [] => None | bucket => Some bucket end) as Hall.
  { intros l c. pose proof (build_categories_lookup ∅ c l) as Hl.
    rewrite lookup_empty, app_nil_l in Hl. fold (build_categories l) in Hl.
    pose proof (build_categories_no_empty l c) as Hne.
    destruct (build_categories l !! c) as [bucket|]; cbn in Hl; rewrite <- Hl.
    - specialize (Hne bucket eq_refl). by destruct bucket.
    - done. }
  split_and!.
  - apply Hall.
  - intros p. apply bucket_of_declares.
  - intros p Hp [_ Hin]%bucket_of_declares. rewrite Hp in Hin. by apply elem_of_nil in Hin.
  - intros P1 P2 H1 H2. rewrite Hall. unfold bucket_of, declarations.
    rewrite !bind_cons, H1, H2. reflexivity.
Qed.

(** C7: a loaded post keeps the rendered body as it is, and its teaser is the
    part of the body strictly before the first [<!--more-->], or the whole
    body when the marker is absent. *)
Theorem teaser_before_marker (strptime : string → string → result datetime)
    (blog_prefix canonical_url : string) (blog_root : option string)
    (generated_html : string) (Meta : gmap string (list string)) (p : post) :
  load_post strptime blog_prefix canonical_url blog_root generated_html Meta = Ok p →
  body p = generated_html ∧ before_first "<!--more-->" generated_html (teaser p).
Proof.
  intros (Hbody & Hteaser & _)%load_post_fields.
  split; [done|]. rewrite Hteaser. apply partition_before_first.
Qed.

Lemma teaser_before_marker_witness :
  load_post strptime_padded "blog" "http://example.com" None sample_html sample_meta
  = Ok sample_post
  ∧ teaser sample_post = "<p>intro</p>"
  ∧ body sample_post = "<p>intro</p><!--more--><p>rest</p>"
  ∧ before_first "<!--more-->" sample_html (teaser sample_post).
Proof.
  assert (load_post strptime_padded "blog" "http://example.com" None sample_html sample_meta
          = Ok sample_post) as Hload by (vm_compute; reflexivity).
  split; [exact Hload|]. split; [reflexivity|].
  exact (teaser_before_marker strptime_padded "blog" "http://example.com" None
           sample_html sample_meta sample_post Hload).
Defined.

(** C8, the claim as the code has it: the relative path of a post is its
    date as [strftime] writes it for [%Y/%m/%d/], followed by its slug.  For
    the years 1000 to 9999 this is [YYYY/MM/DD/], with four, two and two
    digits; the year is written without leading zeros, so for a year below
    1000 the first part has fewer than four digits.  The slug is the title
    in lower case, without the characters that are neither alphanumeric nor
    a space, with a hyphen for each space; "My Post" of 2024-03-07 has the
    path [2024/03/07/my-post], and the slug of "Hello, World!" is
    [hello-world]. *)
Theorem relative_path_format (title : string) (date : datetime) :
  generate_post_file_path title date
  = (date_directory date ++ generate_post_file_name title)%string
  ∧ (1000 ≤ year date → (Z.of_nat (year date) ≤ 9999)%Z →
     generate_post_file_path title date
     = (date_path date ++ generate_post_file_name title)%string
     ∧ String.length (PyStr.str (year date)) = 4)
  ∧ (year date < 1000 → String.length (PyStr.str (year date)) < 4)
  ∧ (month date ≤ 99 → day date ≤ 99 →
     String.length (PyStr.zfill 2 (PyStr.str (month date))) = 2
     ∧ String.length (PyStr.zfill 2 (PyStr.str (day date))) = 2)
  ∧ generate_post_file_name title = deriveSlug_spec title
  ∧ (∀ h n, generate_post_file_path "My Post"
              {| year := 2024; month := 3; day := 7; hour := h; minute := n |}
            = "2024/03/07/my-post")
  ∧ generate_post_file_name "Hello, World!" = "hello-world".
Proof.
  split_and!.
  - apply post_file_path.
  - intros Hlow Hy. split.
    + by rewrite post_file_path, date_directory_path.
    + rewrite <- (year_four_digits _ Hlow Hy). by apply zfill_4_length.
  - apply year_short.
  - intros Hm Hd. by rewrite !zfill_2_length.
  - apply slug_spec.
  - reflexivity.
  - reflexivity.
Qed.

(** C8, the claim as stated fails: the post "Old Post" of the year 999, a
    date that [strptime] reads from [0999-01-01 00:00], has the path
    [999/01/01/old-post], whose date part is not [YYYY/MM/DD/]. *)
Lemma relative_path_short_year :
  generate_post_file_path "Old Post"
    {| year := 999; month := 1; day := 1; hour := 0; minute := 0 |}
  = "999/01/01/old-post".
Proof. reflexivity. Qed.

(** C9: [generate_post] fails exactly for a post with an empty body; the
    error names the relative path of the post, and nothing is written, no
    directory is created and the variables stay as they were.  A post with
    a body gets its page written. *)
Theorem empty_body_fatal (p : post) (v : template_variables) :
  ((∃ e, (generate_post p v).2 = Raise e) ↔ body p = "")
  ∧ (body p = "" →
     generate_post p v
     = (v, [], Raise (EnvironmentError
                        ("No content for post [" ++ relative_path p ++ "] found."))))
  ∧ (body p ≠ "" →
     (generate_post p v).2 = Ok tt
     ∧ WriteFile (path_join (output_dir (site v)) [relative_path p; "index.html"])
         "post_index.html" (set_post v p) ∈ (generate_post p v).1.2).
Proof.
  split_and!.
  - split.
    + intros [e He]. destruct (decide (body p = "")) as [|Hb]; [done|].
      rewrite generate_post_content in He by done. done.
    + intros Hb. rewrite generate_post_empty by done. by eexists.
  - apply generate_post_empty.
  - intros Hb. rewrite generate_post_content by done. cbn. split; [done|].
    apply elem_of_cons. right. apply elem_of_cons. by left.
Qed.

(** The two models of [generate_post_file_name] agree on the titles of
    U+0000-U+00FF. *)
Lemma code_point_space (c : ascii) : (N_of_ascii c =? 32)%N = Ascii.eqb c " ".
Proof. by each_char c. Qed.

Lemma code_point_table (c : ascii) : (N_of_ascii c <? 256)%N = true.
Proof. by each_char c. Qed.

Lemma slug_code_points (title : string) :
  PyUnicode.generate_post_file_name (PyUnicode.code_points title)
  = Some (PyUnicode.code_points (generate_post_file_name title)).
Proof.
  assert (∀ s, PyUnicode.lower (PyUnicode.code_points s)
               = Some (PyUnicode.code_points (PyStr.lower s))) as Hlower.
  { induction s as [|c s IH]; [done|].
    change (PyUnicode.code_points (String c s))
      with (N_of_ascii c :: PyUnicode.code_points s).
    cbn [PyUnicode.lower]. unfold PyUnicode.lower_char.
    by rewrite code_point_table, ascii_N_embedding, IH. }
  assert (∀ s, PyUnicode.join_if
                 (λ char, alnum ← PyUnicode.isalnum char; Some (alnum || (char =? 32)%N))
                 (PyUnicode.code_points s)
               = Some (PyUnicode.code_points
                         (PyStr.join_if (λ char, PyStr.isalnum char || Ascii.eqb char " ") s)))
    as Hkeep.
  { induction s as [|c s IH]; [done|].
    change (PyUnicode.code_points (String c s))
      with (N_of_ascii c :: PyUnicode.code_points s).
    cbn [PyUnicode.join_if PyStr.join_if]. rewrite IH. unfold PyUnicode.isalnum.
    rewrite code_point_table, ascii_N_embedding. cbn [mbind option_bind].
    rewrite code_point_space.
    by destruct (PyStr.isalnum c || Ascii.eqb c " "). }
  assert (∀ s, PyUnicode.replace 32 45 (PyUnicode.code_points s)
               = PyUnicode.code_points (PyStr.replace " " "-" s)) as Hreplace.
  { induction s as [|c s IH]; [done|].
    change (PyUnicode.code_points (String c s))
      with (N_of_ascii c :: PyUnicode.code_points s).
    unfold PyUnicode.replace in *. cbn [fmap list_fmap PyStr.replace].
    change (PyUnicode.code_points (String ?x ?r))
      with (N_of_ascii x :: PyUnicode.code_points r).
    rewrite IH, code_point_space. by destruct (Ascii.eqb c " "). }
  unfold PyUnicode.generate_post_file_name, generate_post_file_name.
  rewrite Hlower. cbn [mbind option_bind]. rewrite Hkeep. cbn [mbind option_bind].
  by rewrite Hreplace.
Qed.

Lemma code_points_of_table (wide : list N) :
  Forall (λ c, (c < 256)%N) wide →
  wide = PyUnicode.code_points (string_of_list_ascii (ascii_of_N <$> wide)).
Proof.
  unfold PyUnicode.code_points. rewrite list_ascii_of_string_of_list_ascii.
  induction 1 as [|c wide Hc _ IH]; [done|].
  cbn [fmap list_fmap] in *. by rewrite <- IH, N_ascii_embedding.
Qed.

Lemma slug_char_code_point (c : ascii) :
  is_slug_char c = true →
  N_of_ascii c = 45%N
  ∨ (PyUnicode.isalnum (N_of_ascii c) = Some true
     ∧ PyUnicode.isupper (N_of_ascii c) = Some false).
Proof.
  unfold PyUnicode.isalnum, PyUnicode.isupper.
  rewrite code_point_table, ascii_N_embedding. by each_char c; intros H; auto.
Qed.

Lemma slug_code_points_chars (s : string) :
  PyStr.all_chars is_slug_char s = true → PyStr.contains " " s = false →
  Forall (λ c, c = 45%N ∨ (PyUnicode.isalnum c = Some true ∧ PyUnicode.isupper c = Some false))
    (PyUnicode.code_points s)
  ∧ 32%N ∉ PyUnicode.code_points s.
Proof.
  induction s as [|c s IH]; [intros _ _; split; [constructor|apply not_elem_of_nil]|].
  cbn [PyStr.all_chars PyStr.contains]. intros [Hc Hs]%andb_prop [Hsp Hrest]%orb_false_elim.
  destruct (IH Hs Hrest) as [Hall Hnot].
  change (PyUnicode.code_points (String c s)) with (N_of_ascii c :: PyUnicode.code_points s).
  split.
  - constructor; [by apply slug_char_code_point|done].
  - rewrite not_elem_of_cons. split; [|done].
    intros Heq. symmetry in Heq. rewrite <- N.eqb_eq, code_point_space in Heq. congruence.
Qed.

(** C10, the claim as the code has it: for a title of characters up to
    U+00FF, so for every ASCII title, every character of the slug is a
    hyphen or an alphanumeric character that is not upper-case, and no slug
    of such a title holds a space or an upper-case character.  The slug of
    an ASCII title consists of hyphens, digits and the letters a-z.  The
    slug of such a title is the same whether the title is read as a string
    of these characters or as a list of code points, and on lists of code
    points below 256 the function has a slug of hyphens (45) and of
    alphanumeric code points that are not upper-case, without a space
    (32). *)
Theorem slug_characters (title : string) :
  PyStr.all_chars is_slug_char (generate_post_file_name title) = true
  ∧ PyStr.contains " " (generate_post_file_name title) = false
  ∧ PyStr.all_chars (λ c, negb (PyStr.isupper c)) (generate_post_file_name title) = true
  ∧ (PyStr.all_chars is_ascii title = true →
     PyStr.all_chars is_ascii_slug_char (generate_post_file_name title) = true)
  ∧ PyUnicode.generate_post_file_name (PyUnicode.code_points title)
    = Some (PyUnicode.code_points (generate_post_file_name title))
  ∧ (∀ wide, Forall (λ c, (c < 256)%N) wide →
       ∃ slug, PyUnicode.generate_post_file_name wide = Some slug
               ∧ Forall (λ c, c = 45%N
                              ∨ (PyUnicode.isalnum c = Some true
                                 ∧ PyUnicode.isupper c = Some false)) slug
               ∧ 32%N ∉ slug).
Proof.
  split_and!.
  - apply slug_all_slug_chars.
  - apply slug_no_space.
  - apply slug_no_upper.
  - apply slug_ascii.
  - apply slug_code_points.
  - intros wide Hwide. rewrite (code_points_of_table wide Hwide), slug_code_points.
    eexists. split; [reflexivity|].
    apply slug_code_points_chars; [apply slug_all_slug_chars|apply slug_no_space].
Qed.

(** C10, the claim as stated fails: the title that is the one character
    U+1D400, the mathematical bold capital A, has this character as its
    slug; it is alphanumeric, it is upper-case, and [lower] leaves it as it
    is. *)
Lemma slug_keeps_upper_case :
  PyUnicode.generate_post_file_name [0x1D400%N] = Some [0x1D400%N]
  ∧ PyUnicode.isupper 0x1D400%N = Some true.
Proof. split; reflexivity. Qed.

(* ===================================================================== *)
(** * Further properties *)
(* ===================================================================== *)

(** ** Strings *)

Lemma length_append (a b : string) :
  String.length (a ++ b)%string = String.length a + String.length b.
Proof.
  induction a as [|x a IH]; [done|]. rewrite append_cons. cbn. by rewrite IH.
Qed.

Lemma append_empty_r (a : string) : (a ++ "")%string = a.
Proof.
  induction a as [|x a IH]; [done|]. by rewrite append_cons, IH.
Qed.


Lemma all_chars_append (f : ascii → bool) (a b : string) :
  PyStr.all_chars f (a ++ b)%string = PyStr.all_chars f a && PyStr.all_chars f b.
Proof.
  induction a as [|x a IH]; [done|]. rewrite append_cons. cbn. by rewrite IH, andb_assoc.
Qed.

Lemma upto_append (a b : string) : PyPath.upto (String.length a) (a ++ b) = a.
Proof.
  induction a as [|x a IH]; [by destruct b|]. rewrite append_cons. cbn. by rewrite IH.
Qed.

Lemma from_append (a b : string) : PyPath.from (String.length a) (a ++ b) = b.
Proof.
  induction a as [|x a IH]; [by destruct b|]. rewrite append_cons. cbn. by rewrite IH.
Qed.

Lemma get_append (a : string) (c : ascii) (b : string) :
  String.get (String.length a) (a ++ String c b) = Some c.
Proof.
  induction a as [|x a IH]; [done|]. rewrite append_cons. cbn. by rewrite IH.
Qed.

(** ** The last occurrence of a character *)

Lemma rfind_bounds (c : ascii) (s : string) :
  (-1 ≤ PyPath.rfind c s < Z.of_nat (String.length s))%Z.
Proof.
  induction s as [|d s IH]; cbn [PyPath.rfind String.length]; [lia|].
  destruct (0 <=? PyPath.rfind c s)%Z eqn:Hr; [lia|].
  destruct (Ascii.eqb d c); lia.
Qed.

Lemma rfind_absent (c : ascii) (s : string) :
  PyStr.contains c s = false → PyPath.rfind c s = (-1)%Z.
Proof.
  induction s as [|d s IH]; [done|]. cbn. intros [Hd Hs]%orb_false_elim.
  by rewrite (IH Hs), Hd.
Qed.

Lemma rfind_append_absent (c : ascii) (a b : string) :
  PyStr.contains c b = false → PyPath.rfind c (a ++ b)%string = PyPath.rfind c a.
Proof.
  intros Hb. induction a as [|x a IH].
  - rewrite append_nil. by apply rfind_absent.
  - rewrite append_cons. cbn. by rewrite IH.
Qed.

Lemma rfind_append_last (c : ascii) (a b : string) :
  PyStr.contains c b = false →
  PyPath.rfind c (a ++ String c b)%string = Z.of_nat (String.length a).
Proof.
  intros Hb. induction a as [|x a IH].
  - rewrite append_nil. cbn. by rewrite (rfind_absent _ _ Hb), Ascii.eqb_refl.
  - rewrite append_cons. cbn [PyPath.rfind String.length]. rewrite IH.
    destruct (0 <=? Z.of_nat (String.length a))%Z eqn:H0; [lia|].
    apply Z.leb_gt in H0. lia.
Qed.

(** A name with a dot splits at its last dot. *)
Lemma last_dot (name : string) :
  PyStr.contains "." name = true →
  ∃ a b, name = (a ++ String "." b)%string ∧ PyStr.contains "." b = false.
Proof.
  induction name as [|c s IH]; [done|]. cbn.
  destruct (PyStr.contains "." s) eqn:Hs.
  - intros _. destruct (IH eq_refl) as (a & b & -> & Hb).
    exists (String c a), b. by rewrite append_cons.
  - rewrite orb_false_r. intros ->%Ascii.eqb_eq. by exists "", s.
Qed.

(** ** Extensions and directories *)

Lemma rfind_sep_prefix (pre name : string) :
  directory_prefix pre → PyStr.contains "/" name = false →
  (PyPath.rfind "/" (pre ++ name) + 1)%Z = Z.of_nat (String.length pre).
Proof.
  intros Hpre Hname. rewrite rfind_append_absent by done.
  destruct Hpre as [->|[d ->]]; [done|].
  rewrite rfind_append_last by done. rewrite length_append. cbn. lia.
Qed.

Lemma skip_dots_scan (pre a rest : string) :
  PyPath.skip_dots (pre ++ a ++ rest) (String.length pre) (String.length a)
  = negb (PyStr.all_chars is_dot a).
Proof.
  revert pre. induction a as [|c a IH]; intros pre; [done|].
  rewrite append_cons. cbn [String.length PyPath.skip_dots]. rewrite get_append.
  cbn [PyStr.all_chars]. unfold is_dot at 1.
  destruct (Ascii.eqb c "."); [|done]. cbn [andb].
  specialize (IH (pre ++ String c "")%string).
  rewrite append_assoc, append_cons, append_nil, length_append in IH. cbn in IH.
  by replace (String.length pre + 1) with (S (String.length pre)) in IH by lia.
Qed.

Lemma splitext_extension (pre a b : string) :
  directory_prefix pre → PyStr.contains "/" (a ++ String "." b) = false →
  PyStr.contains "." b = false →
  PyPath.splitext (pre ++ a ++ String "." b)
  = if PyStr.all_chars is_dot a then ((pre ++ a ++ String "." b)%string, "")
    else ((pre ++ a)%string, String "." b).
Proof.
  intros Hpre Hsep Hdot. unfold PyPath.splitext.
  pose proof (rfind_sep_prefix pre _ Hpre Hsep) as Hs.
  assert (PyPath.rfind "." (pre ++ a ++ String "." b) = Z.of_nat (String.length (pre ++ a)))
    as Hd by (by rewrite <- append_assoc, rfind_append_last).
  rewrite Hd. rewrite length_append in *.
  replace (PyPath.rfind "/" (pre ++ a ++ String "." b) <? Z.of_nat (String.length pre + String.length a))%Z
    with true by (symmetry; apply Z.ltb_lt; lia).
  rewrite Hs, !Nat2Z.id.
  replace (String.length pre + String.length a - String.length pre) with (String.length a) by lia.
  rewrite skip_dots_scan.
  destruct (PyStr.all_chars is_dot a); [done|]. cbn [negb].
  rewrite <- length_append, <- append_assoc. by rewrite upto_append, from_append.
Qed.

Lemma splitext_no_dot (pre name : string) :
  directory_prefix pre → PyStr.contains "/" name = false → PyStr.contains "." name = false →
  PyPath.splitext (pre ++ name) = ((pre ++ name)%string, "").
Proof.
  intros Hpre Hsep Hdot. unfold PyPath.splitext.
  pose proof (rfind_sep_prefix pre _ Hpre Hsep) as Hs.
  pose proof (rfind_bounds "." pre) as Hb.
  rewrite (rfind_append_absent "." pre name Hdot).
  replace (PyPath.rfind "/" (pre ++ name) <? PyPath.rfind "." pre)%Z with false; [done|].
  symmetry. apply Z.ltb_ge. lia.
Qed.

Lemma rstrip_sep_seps (n : nat) : PyPath.rstrip_sep (PyPath.seps n) = "".
Proof. induction n as [|n IH]; [done|]. cbn. by rewrite IH. Qed.

Lemma rstrip_sep_fixed (d : string) : ends_with_sep d = false → PyPath.rstrip_sep d = d.
Proof.
  induction d as [|c d IH]; [done|]. cbn [ends_with_sep PyPath.rstrip_sep].
  destruct d as [|c' d'].
  - cbn. by intros ->.
  - intros Hd. rewrite (IH Hd). done.
Qed.

Lemma rstrip_sep_append_sep (d : string) :
  PyPath.rstrip_sep (d ++ "/") = PyPath.rstrip_sep d.
Proof.
  induction d as [|c d IH]; [done|]. rewrite append_cons. cbn. by rewrite IH.
Qed.

Lemma dirname_of_file (d name : string) :
  d ≠ "" → ends_with_sep d = false → PyStr.contains "/" name = false →
  PyPath.dirname (d ++ "/" ++ name) = d.
Proof.
  intros Hne Hd Hname. unfold PyPath.dirname.
  assert (directory_prefix (d ++ "/")) as Hpre by (right; by exists d).
  pose proof (rfind_sep_prefix _ _ Hpre Hname) as Hs.
  rewrite append_assoc in Hs. rewrite Hs, Nat2Z.id.
  rewrite <- append_assoc, upto_append.
  assert (PyPath.rstrip_sep (d ++ "/") = d) as Hstrip
    by (by rewrite rstrip_sep_append_sep, rstrip_sep_fixed).
  destruct (String.eqb_spec (d ++ "/") "") as [He|_].
  { rewrite He in Hstrip. by rewrite <- Hstrip in Hne. }
  destruct (String.eqb_spec (d ++ "/") (PyPath.seps (String.length (d ++ "/")))) as [He|_].
  { rewrite He, rstrip_sep_seps in Hstrip. by rewrite <- Hstrip in Hne. }
  done.
Qed.

Lemma ends_with_sep_contains (s : string) :
  ends_with_sep s = true → PyStr.contains "/" s = true.
Proof.
  induction s as [|c s IH]; [done|]. cbn [ends_with_sep PyStr.contains].
  destruct s as [|c' s'].
  - intros ->. done.
  - intros Hs. rewrite (IH Hs). by rewrite orb_true_r.
Qed.

Lemma ends_with_sep_name (x name : string) :
  name ≠ "" → PyStr.contains "/" name = false → ends_with_sep (x ++ name) = false.
Proof.
  intros Hne Hsep. destruct name as [|c name]; [done|].
  rewrite ends_with_sep_append. apply not_true_is_false.
  intros H%ends_with_sep_contains. congruence.
Qed.

Lemma path_join_file (x f : string) :
  x ≠ "" → ends_with_sep x = false → starts_with_sep f = false →
  path_join x [f] = (x ++ "/" ++ f)%string.
Proof.
  intros Hne Hend Hf. unfold path_join. cbn [foldl]. unfold join_step.
  rewrite Hf, Hend. destruct (String.eqb_spec x ""); done.
Qed.

Lemma append_not_empty (x y : string) : y ≠ "" → (x ++ y)%string ≠ "".
Proof.
  intros Hy Hxy. apply (f_equal String.length) in Hxy. rewrite length_append in Hxy.
  destruct y; [done|]. cbn in Hxy. lia.
Qed.

Lemma create_path_parent (present : string → bool) (d a b : string) :
  d ≠ "" → ends_with_sep d = false →
  PyStr.contains "/" (a ++ String "." b) = false → PyStr.contains "." b = false →
  PyStr.all_chars is_dot a = false →
  create_path_to_file present (d ++ "/" ++ a ++ String "." b)
  = if present d then None else Some d.
Proof.
  intros Hne Hd Hsep Hdot Ha. unfold create_path_to_file.
  assert (directory_prefix (d ++ "/")) as Hpre by (right; by exists d).
  pose proof (splitext_extension _ a b Hpre Hsep Hdot) as Hsplit.
  rewrite Ha, append_assoc in Hsplit. rewrite Hsplit. cbn [snd].
  replace (String.eqb (String "." b) "") with false by done.
  by rewrite dirname_of_file.
Qed.

Lemma create_path_directory (present : string → bool) (pre name : string) :
  directory_prefix pre → PyStr.contains "/" name = false →
  (PyStr.contains "." name = false
   ∨ ∃ a b, name = (a ++ String "." b)%string ∧ PyStr.all_chars is_dot a = true
            ∧ PyStr.contains "." b = false) →
  create_path_to_file present (pre ++ name)
  = if present (pre ++ name ++ "/")%string then None else Some (pre ++ name ++ "/")%string.
Proof.
  intros Hpre Hsep Hname. unfold create_path_to_file.
  assert (PyPath.splitext (pre ++ name) = ((pre ++ name)%string, "")) as ->.
  { destruct Hname as [Hdot|(a & b & -> & Ha & Hb)].
    - by apply splitext_no_dot.
    - rewrite splitext_extension by done. by rewrite Ha. }
  cbn [snd]. by rewrite append_assoc.
Qed.

(* ===================================================================== *)
(** * Further results *)
(* ===================================================================== *)

(** X1: of the names of the content directory, [get_all_posts] takes those
    that end in [.md] behind a stem with a character that is not a dot:
    the test is exact in the letters' case, it looks at the last dot only,
    and a name of dots followed by [md] has no extension. *)
Theorem post_file_names (post_file_name : string) :
  PyStr.contains "/" post_file_name = false →
  (is_post_file post_file_name = true
   ↔ ∃ stem, post_file_name = (stem ++ ".md")%string ∧ PyStr.all_chars is_dot stem = false).
Proof.
  intros Hsep. unfold is_post_file.
  assert (directory_prefix "") as Hpre by by left.
  split.
  - intros Hext. destruct (PyStr.contains "." post_file_name) eqn:Hdot.
    + destruct (last_dot _ Hdot) as (a & b & -> & Hb).
      pose proof (splitext_extension "" a b Hpre Hsep Hb) as Hsplit.
      rewrite append_nil in Hsplit. rewrite Hsplit in Hext.
      destruct (PyStr.all_chars is_dot a) eqn:Ha; [done|].
      cbn [snd] in Hext. apply String.eqb_eq in Hext. injection Hext as ->. by exists a.
    + pose proof (splitext_no_dot "" _ Hpre Hsep Hdot) as Hsplit.
      rewrite append_nil in Hsplit. by rewrite Hsplit in Hext.
  - intros (stem & -> & Hstem).
    pose proof (splitext_extension "" stem "md" Hpre Hsep eq_refl) as Hsplit.
    rewrite append_nil, Hstem in Hsplit.
    change (stem ++ ".md")%string with (stem ++ String "." "md")%string.
    by rewrite Hsplit.
Qed.

Lemma post_file_names_witness :
  is_post_file "2024-03-07-my-post.md" = true
  ∧ is_post_file "notes.md.bak" = false
  ∧ is_post_file "README.MD" = false
  ∧ is_post_file ".md" = false.
Proof.
  split.
  - apply (post_file_names "2024-03-07-my-post.md" eq_refl).
    exists "2024-03-07-my-post". by split.
  - repeat split.
Defined.

(** ** Runs on a file system *)

Lemma carry_out_app {E : Type} (op : E → operation) (F : file_system) (s : state F)
    (l1 l2 : list E) :
  carry_out op F s (l1 ++ l2)
  = match carry_out op F s l1 with
    | (done, s', Raise e) => (done, s', Raise e)
    | (done, s', Ok _) =>
        let '(done', s'', outcome) := carry_out op F s' l2 in (done ++ done', s'', outcome)
    end.
Proof.
  revert s. induction l1 as [|e l1 IH]; intros s; cbn [app carry_out].
  - by destruct (carry_out op F s l2) as [[did' s''] outcome].
  - destruct (carry_out_one F s (op e)) as [s'|x]; [|done].
    rewrite IH. destruct (carry_out op F s' l1) as [[did s''] [[]|x]]; [|done].
    by destruct (carry_out op F s'' l2) as [[did' s3] outcome].
Qed.

Lemma carry_out_prefix {E : Type} (op : E → operation) (F : file_system) (s : state F)
    (l : list E) :
  (carry_out op F s l).1.1 `prefix_of` l.
Proof.
  revert s. induction l as [|e l IH]; intros s; cbn [carry_out]; [done|].
  destruct (carry_out_one F s (op e)) as [s'|x]; [|apply prefix_nil].
  specialize (IH s'). destruct (carry_out op F s' l) as [[did s''] outcome].
  by apply prefix_cons.
Qed.

Lemma carry_out_done {E : Type} (op : E → operation) (F : file_system) (s : state F)
    (l : list E) :
  (carry_out op F s l).2 = Ok tt → (carry_out op F s l).1.1 = l.
Proof.
  revert s. induction l as [|e l IH]; intros s; cbn [carry_out]; [done|].
  destruct (carry_out_one F s (op e)) as [s'|x]; [|done].
  specialize (IH s'). destruct (carry_out op F s' l) as [[did s''] outcome].
  cbn in *. intros Hok. by rewrite IH.
Qed.

Lemma run_in_outcome {E A : Type} (op : E → operation) (F : file_system) (s : state F)
    (program : list E * result A) (a : A) :
  (run_in op F s program).2 = Ok a
  ↔ (carry_out op F s program.1).2 = Ok tt ∧ program.2 = Ok a.
Proof.
  unfold run_in. destruct (carry_out op F s program.1) as [[did s'] [[]|x]]; cbn.
  - split; [by intros ?|by intros [_ ?]].
  - split; [done|]. by intros [? _].
Qed.

Lemma run_in_done {E A : Type} (op : E → operation) (F : file_system) (s : state F)
    (program : list E * result A) (a : A) :
  (run_in op F s program).2 = Ok a → (run_in op F s program).1.1 = program.1.
Proof.
  intros [Hok _]%run_in_outcome. apply carry_out_done in Hok.
  unfold run_in. by destruct (carry_out op F s program.1) as [[did s'] outcome].
Qed.

Lemma run_in_prefix {E A : Type} (op : E → operation) (F : file_system) (s : state F)
    (program : list E * result A) :
  (run_in op F s program).1.1 `prefix_of` program.1.
Proof.
  pose proof (carry_out_prefix op F s program.1) as H.
  unfold run_in. by destruct (carry_out op F s program.1) as [[did s'] outcome].
Qed.

Lemma run_in_carried {E A : Type} (op : E → operation) (F : file_system) (s s' : state F)
    (program : list E * result A) :
  carry_out op F s program.1 = (program.1, s', Ok tt) →
  run_in op F s program = (program.1, s', program.2).
Proof. intros H. unfold run_in. by rewrite H. Qed.

(** X2: for a path whose last component has an extension
    [create_path_to_file] takes the path for a file and sees to its
    directory: it asks for the parent and never for the path itself.  So
    [generate_static_page] with an [output_dir] such as
    [.../categories/node.js] creates at most the parent and then opens
    [index.html] in a directory that the call has not created: where that
    directory does not exist the call ends with the exception of [open],
    with the parent created and no file written. *)
Theorem create_path_with_extension (F : file_system) (s : state F) (d a b : string)
    (variables : template_variables) (template : string) :
  d ≠ "" → ends_with_sep d = false →
  PyStr.contains "/" (a ++ String "." b) = false → PyStr.contains "." b = false →
  PyStr.all_chars is_dot a = false →
  create_path_to_file (path_exists F s) (d ++ "/" ++ a ++ String "." b)
  = (if path_exists F s d then None else Some d)
  ∧ generate_static_page_in F s variables (d ++ "/" ++ a ++ String "." b) template
      "index.html"
    = match (if path_exists F s d then Ok s else makedirs F s d) with
      | Raise e => ([], s, Raise e)
      | Ok s' =>
          match open_write F s' (d ++ "/" ++ a ++ String "." b ++ "/index.html") with
          | Raise e => ([CreatePathToFile (d ++ "/" ++ a ++ String "." b)], s', Raise e)
          | Ok s'' =>
              ([CreatePathToFile (d ++ "/" ++ a ++ String "." b);
                WriteFile (d ++ "/" ++ a ++ String "." b ++ "/index.html") template
                  variables], s'', Ok tt)
          end
      end.
Proof.
  intros Hne Hd Hsep Hdot Ha.
  pose proof (create_path_parent (path_exists F s) d a b Hne Hd Hsep Hdot Ha) as Hparent.
  split; [done|].
  unfold generate_static_page_in, generate_static_page.
  assert (path_join (d ++ "/" ++ a ++ String "." b) ["index.html"]
          = (d ++ "/" ++ a ++ String "." b ++ "/index.html")%string) as ->.
  { rewrite path_join_file.
    + rewrite !append_assoc. reflexivity.
    + by apply append_not_empty.
    + rewrite <- append_assoc. apply ends_with_sep_name; [by apply append_not_empty|done].
    + done. }
  cbn [carry_out event_operation carry_out_one]. unfold create_path_to_file_in.
  rewrite Hparent.
  destruct (path_exists F s d).
  - by destruct (open_write F s _) as [s''|e].
  - destruct (makedirs F s d) as [s'|e]; [|done].
    by destruct (open_write F s' _) as [s''|e].
Qed.

Lemma create_path_with_extension_witness :
  (create_path_to_file (path_exists sample_fs []) "generated/blog/categories/node.js"
   = (if path_exists sample_fs [] "generated/blog/categories"
      then None else Some "generated/blog/categories")
   ∧ generate_static_page_in sample_fs [] (copy sample_config)
       "generated/blog/categories/node.js" "archives.html" "index.html"
     = match (if path_exists sample_fs [] "generated/blog/categories"
              then Ok [] else makedirs sample_fs [] "generated/blog/categories") with
       | Raise e => ([], [], Raise e)
       | Ok s' =>
           match open_write sample_fs s' "generated/blog/categories/node.js/index.html" with
           | Raise e => ([CreatePathToFile "generated/blog/categories/node.js"], s', Raise e)
           | Ok s'' =>
               ([CreatePathToFile "generated/blog/categories/node.js";
                 WriteFile "generated/blog/categories/node.js/index.html" "archives.html"
                   (copy sample_config)], s'', Ok tt)
           end
       end)
  ∧ generate_static_page_in sample_fs [] (copy sample_config)
      "generated/blog/categories/node.js" "archives.html" "index.html"
    = ([CreatePathToFile "generated/blog/categories/node.js"],
       ["generated"; "generated/blog"; "generated/blog/categories"],
       Raise (FileNotFoundError "generated/blog/categories/node.js/index.html")).
Proof.
  split.
  - apply (create_path_with_extension sample_fs [] "generated/blog/categories" "node" "js"
             (copy sample_config) "archives.html"); done.
  - vm_compute. reflexivity.
Defined.

(** X3: for a path whose last component has no extension (no dot, or dots
    only in front) [create_path_to_file] takes the path for a directory and
    asks for the path itself, with a separator at its end. *)
Theorem create_path_without_extension (present : string → bool) (pre name : string) :
  directory_prefix pre → PyStr.contains "/" name = false →
  (PyStr.contains "." name = false
   ∨ ∃ a b, name = (a ++ String "." b)%string ∧ PyStr.all_chars is_dot a = true
            ∧ PyStr.contains "." b = false) →
  create_path_to_file present (pre ++ name)
  = if present (pre ++ name ++ "/")%string then None else Some (pre ++ name ++ "/")%string.
Proof. apply create_path_directory. Qed.

Lemma create_path_without_extension_witness :
  create_path_to_file nothing_present "generated/about-me" = Some "generated/about-me/"
  ∧ create_path_to_file nothing_present "generated/.well-known"
    = Some "generated/.well-known/".
Proof.
  split.
  - apply (create_path_without_extension nothing_present "generated/" "about-me").
    + right. by exists "generated".
    + done.
    + by left.
  - apply (create_path_without_extension nothing_present "generated/" ".well-known").
    + right. by exists "generated".
    + done.
    + right. by exists "", "well-known".
Defined.

(** ** Decimal numbers *)

Lemma string_of_uint_digits (d : Decimal.uint) :
  PyStr.all_chars is_digit (NilEmpty.string_of_uint d) = true.
Proof. induction d; cbn; done. Qed.

Lemma str_digits (n : nat) : PyStr.all_chars is_digit (PyStr.str n) = true.
Proof. apply string_of_uint_digits. Qed.

Lemma str_not_empty (n : nat) : PyStr.str n ≠ "".
Proof.
  unfold PyStr.str.
  pose proof (DecimalNat.Unsigned.to_of (Nat.to_uint n)) as Hn.
  rewrite DecimalNat.Unsigned.of_to in Hn. rewrite Hn. unfold Decimal.unorm.
  by destruct (Decimal.nzhead (Nat.to_uint n)).
Qed.

Lemma all_chars_contains (f : ascii → bool) (c : ascii) (s : string) :
  PyStr.all_chars f s = true → f c = false → PyStr.contains c s = false.
Proof.
  intros Hs Hc. induction s as [|d s IH]; [done|].
  cbn in *. apply andb_prop in Hs as [Hd Hs]. rewrite (IH Hs), orb_false_r.
  destruct (Ascii.eqb_spec d c) as [->|]; [congruence|done].
Qed.

Lemma digits_no_sep (s : string) :
  PyStr.all_chars is_digit s = true → PyStr.contains "/" s = false.
Proof. intros Hs. by apply (all_chars_contains is_digit). Qed.

Lemma digits_no_dot (s : string) :
  PyStr.all_chars is_digit s = true → PyStr.contains "." s = false.
Proof. intros Hs. by apply (all_chars_contains is_digit). Qed.

Lemma no_sep_starts (s : string) : PyStr.contains "/" s = false → starts_with_sep s = false.
Proof. destruct s as [|c s]; [done|]. cbn. by intros [H _]%orb_false_elim. Qed.

(** Joining a name without separator to a path that has a name at its end. *)
Lemma join_step_name (x name : string) :
  PyStr.contains "/" name = false →
  join_step x name
  = if String.eqb x "" || ends_with_sep x then (x ++ name)%string
    else (x ++ "/" ++ name)%string.
Proof. intros Hn. unfold join_step. by rewrite (no_sep_starts _ Hn). Qed.

Lemma join_step_name_shape (x name : string) :
  name ≠ "" → PyStr.contains "/" name = false →
  ∃ pre, directory_prefix pre ∧ join_step x name = (pre ++ name)%string
         ∧ join_step x name ≠ "" ∧ ends_with_sep (join_step x name) = false.
Proof.
  intros Hne Hn. rewrite join_step_name by done.
  destruct (String.eqb_spec x "") as [->|Hx]; cbn [orb].
  - exists "". rewrite append_nil. split_and!; [by left|done|done|].
    by apply (ends_with_sep_name "").
  - destruct (ends_with_sep x) eqn:Hend.
    + exists x. split_and!; [|done|by apply append_not_empty|by apply ends_with_sep_name].
      right. clear Hx. induction x as [|c x IH]; [done|].
      cbn [ends_with_sep] in Hend. destruct x as [|c' x'].
      * apply Ascii.eqb_eq in Hend as ->. by exists "".
      * destruct (IH Hend) as [d Hd]. exists (String c d). by rewrite append_cons, <- Hd.
    + exists (x ++ "/")%string. rewrite append_assoc.
      split_and!; [right; by exists x|done|by apply append_not_empty, append_not_empty|].
      rewrite <- append_assoc. by apply ends_with_sep_name.
Qed.

(** X4: each pagination window is written as [index.html] into its own
    directory [<blog_dir>/page/<k>], and this is the directory
    [create_path_to_file] asks for: the number has no extension. *)
Theorem pagination_directories (config : site_config) (all_posts : list post)
    (template : string) (present : string → bool) (k : nat) :
  let dir := path_join (blog_dir config) ["page"; PyStr.str k] in
  window_page config all_posts template k
  = [CreatePathToFile dir;
     WriteFile (dir ++ "/index.html") template (window_variables config all_posts k)]
  ∧ create_path_to_file present dir
    = if present (dir ++ "/")%string then None else Some (dir ++ "/")%string.
Proof.
  cbn zeta. unfold window_page, generate_static_page.
  pose proof (digits_no_sep _ (str_digits k)) as Hsep.
  pose proof (digits_no_dot _ (str_digits k)) as Hdot.
  assert (path_join (blog_dir config) ["page"; PyStr.str k]
          = join_step (join_step (blog_dir config) "page") (PyStr.str k)) as -> by done.
  destruct (join_step_name_shape (blog_dir config) "page") as (_ & _ & _ & Hne & Hend);
    [done..|].
  rewrite (join_step_name _ (PyStr.str k)) by done.
  destruct (String.eqb_spec (join_step (blog_dir config) "page") "") as [|_]; [done|].
  rewrite Hend. cbn [orb]. split.
  - rewrite path_join_file; [by rewrite !append_assoc|by apply append_not_empty, append_not_empty, str_not_empty| |done].
    rewrite <- append_assoc. apply ends_with_sep_name; [apply str_not_empty|done].
  - rewrite <- (append_assoc _ "/" (PyStr.str k)).
    rewrite create_path_directory; [by rewrite !append_assoc| |done|by left].
    right. by eexists.
Qed.

Lemma join_step_ends (x y : string) :
  y ≠ "" → ends_with_sep (join_step x y) = ends_with_sep y.
Proof.
  intros Hy. unfold join_step. destruct y as [|c y]; [done|].
  destruct (starts_with_sep (String c y)); [done|].
  destruct (String.eqb x "" || ends_with_sep x).
  - apply ends_with_sep_append.
  - rewrite <- append_assoc. apply ends_with_sep_append.
Qed.

Lemma join_step_not_empty (x y : string) : y ≠ "" → join_step x y ≠ "".
Proof.
  intros Hy. unfold join_step. destruct (starts_with_sep y); [done|].
  destruct (String.eqb x "" || ends_with_sep x).
  - by apply append_not_empty.
  - by apply append_not_empty, append_not_empty.
Qed.

(** X5: a post with a body and a relative path that names a directory (it
    is not empty and does not end with the separator) gets its page as
    [index.html] in the directory [output_dir] joined with the relative
    path, and this is the directory [create_path_to_file] asks for. *)
Theorem post_page_directory (p : post) (v : template_variables) (present : string → bool) :
  let dir := path_join (output_dir (site v)) [relative_path p] in
  body p ≠ "" → relative_path p ≠ "" → ends_with_sep (relative_path p) = false →
  (generate_post p v).1.2
  = [CreatePathToFile (dir ++ "/index.html");
     WriteFile (dir ++ "/index.html") "post_index.html" (set_post v p)]
  ∧ create_path_to_file present (dir ++ "/index.html") = if present dir then None else Some dir.
Proof.
  cbn zeta. intros Hbody Hne Hend.
  rewrite generate_post_content by done. cbn [fst snd].
  assert (path_join (output_dir (site v)) [relative_path p; "index.html"]
          = (path_join (output_dir (site v)) [relative_path p] ++ "/index.html")%string)
    as ->.
  { unfold path_join. cbn [foldl]. rewrite (join_step_name _ "index.html") by done.
    rewrite join_step_ends, Hend by done.
    destruct (String.eqb_spec (join_step (output_dir (site v)) (relative_path p)) "")
      as [He|_]; [by apply join_step_not_empty in He|done]. }
  split; [done|].
  apply (create_path_parent present _ "index" "html"); try done.
  - unfold path_join. cbn [foldl]. by apply join_step_not_empty.
  - unfold path_join. cbn [foldl]. by rewrite join_step_ends.
Qed.

Lemma post_page_directory_witness :
  (generate_post sample_post (variables_from sample_config)).1.2
  = [CreatePathToFile "generated/blog/2024/03/07/my-post/index.html";
     WriteFile "generated/blog/2024/03/07/my-post/index.html" "post_index.html"
       (set_post (variables_from sample_config) sample_post)]
  ∧ create_path_to_file nothing_present "generated/blog/2024/03/07/my-post/index.html"
    = Some "generated/blog/2024/03/07/my-post".
Proof.
  apply (post_page_directory sample_post (variables_from sample_config) nothing_present);
    done.
Defined.

(** ** The loader's outcomes *)


Lemma zfill_starts (width n : nat) (rest : string) :
  starts_with_sep (PyStr.zfill width (PyStr.str n) ++ rest) = false.
Proof.
  unfold PyStr.zfill. destruct (width - String.length (PyStr.str n)) as [|k]; [|done].
  cbn [PyStr.zeros]. rewrite append_nil.
  pose proof (str_not_empty n) as Hne. pose proof (digits_no_sep _ (str_digits n)) as Hd.
  destruct (PyStr.str n) as [|c s]; [done|]. rewrite append_cons. cbn in *.
  by apply orb_false_elim in Hd as [-> _].
Qed.

Lemma post_file_path_starts (t : string) (d : datetime) :
  starts_with_sep (generate_post_file_path t d) = false.
Proof.
  rewrite post_file_path. unfold date_directory. rewrite append_assoc.
  apply (zfill_starts 0).
Qed.

Lemma post_file_path_not_empty (t : string) (d : datetime) : generate_post_file_path t d ≠ "".
Proof.
  rewrite post_file_path. unfold date_directory. rewrite !append_assoc.
  do 5 apply append_not_empty. done.
Qed.

Lemma starts_with_sep_append (a b : string) :
  a ≠ "" → starts_with_sep (a ++ b) = starts_with_sep a.
Proof. destruct a; [done|]. by rewrite append_cons. Qed.

Lemma join_step_rooted (x y : string) :
  starts_with_sep x = true → starts_with_sep (join_step x y) = true.
Proof.
  intros Hx. unfold join_step. destruct (starts_with_sep y) eqn:Hy; [done|].
  assert (x ≠ "") as Hne by (by destruct x).
  destruct (String.eqb x "" || ends_with_sep x); by rewrite starts_with_sep_append.
Qed.

Section LoaderOutcomes.

Variable strptime : string → string → result datetime.
Variables (prefix base : string) (root : option string).
Variables (generated_html : string) (Meta : gmap string (list string)).

Lemma load_post_inversion (p : post) :
  load_post strptime prefix base root generated_html Meta = Ok p →
  ∃ date_line,
    meta_first Meta "title" = Ok (title p)
    ∧ meta_first Meta "date" = Ok date_line
    ∧ strptime (PyStr.strip date_line) "%Y-%m-%d %H:%M" = Ok (date p)
    ∧ relative_path p
      = (if truthy (Some prefix)
         then path_join prefix [generate_post_file_path (title p) (date p)]
         else generate_post_file_path (title p) (date p))
    ∧ relative_url p
      = (if truthy root
         then path_join "/" [default "" root; relative_path p]
         else path_join "/" [relative_path p])
    ∧ canonical_url p = (base ++ relative_url p)%string.
Proof.
  unfold load_post. intros H.
  apply bind_Ok in H as (t & Ht & H).
  apply bind_Ok in H as (line & Hline & H).
  apply bind_Ok in H as (dl & Hdl & H).
  apply bind_Ok in H as (d & Hd & H).
  injection H as <-. cbn.
  exists dl. split_and!; try done.
  destruct root as [r|]; [|done]. cbn [default]. by destruct (truthy (Some r)).
Qed.

End LoaderOutcomes.

Lemma for_each_Ok {A B : Type} (f : A → result B) (l : list A) (ys : list B) :
  for_each f l = Ok ys ↔ Forall2 (λ x y, f x = Ok y) l ys.
Proof.
  revert ys. induction l as [|x l IH]; intros ys; cbn [for_each].
  - split; [intros [= <-]; constructor|by intros ->%Forall2_nil_inv_l].
  - split.
    + intros (y & Hy & H)%bind_Ok. apply bind_Ok in H as (ys' & Hys & [= <-]).
      constructor; [done|by apply IH].
    + intros (y & ys' & Hy & Hys & ->)%Forall2_cons_inv_l.
      rewrite Hy. cbn. apply IH in Hys. by rewrite Hys.
Qed.

Lemma for_each_app {A B : Type} (f : A → result B) (l1 l2 : list A) :
  for_each f (l1 ++ l2)
  = (ys1 ← for_each f l1; ys2 ← for_each f l2; Ok (ys1 ++ ys2)).
Proof.
  induction l1 as [|x l1 IH]; cbn [app for_each].
  - cbn. by destruct (for_each f l2).
  - destruct (f x) as [y|e]; [|done]. cbn. rewrite IH.
    destruct (for_each f l1) as [ys1|e]; [|done]. cbn.
    by destruct (for_each f l2).
Qed.

Lemma for_each_error_found {A B : Type} (f : A → result B) (l : list A) (e : exn) :
  for_each f l = Raise e →
  ∃ before x after ys, l = before ++ x :: after ∧ for_each f before = Ok ys
                       ∧ f x = Raise e.
Proof.
  induction l as [|x l IH]; [done|]. cbn [for_each].
  destruct (f x) as [y|e'] eqn:Hx; cbn.
  - destruct (for_each f l) as [ys|e'] eqn:Hl; cbn; [done|].
    intros [= ->]. destruct (IH eq_refl) as (before & z & after & zs & -> & Hb & Hz).
    exists (x :: before), z, after, (y :: zs). cbn. by rewrite Hx, Hb.
  - intros [= ->]. by exists [], x, l, [].
Qed.

Lemma for_each_first_error {A B : Type} (f : A → result B) (l : list A) (e : exn) :
  for_each f l = Raise e
  ↔ ∃ before x after ys, l = before ++ x :: after ∧ for_each f before = Ok ys
                         ∧ f x = Raise e.
Proof.
  split; [apply for_each_error_found|].
  intros (before & x & after & ys & -> & Hb & Hx).
  rewrite for_each_app, Hb. cbn. by rewrite Hx.
Qed.

(** X6: the paths of a loaded post.  Its relative path is the blog prefix,
    a separator where the prefix does not end with one, the date as
    [strftime] writes it for [%Y/%m/%d/] (the year without leading zeros,
    month and day with two digits) and the slug.  Its relative URL always
    starts with the separator; it is the relative path itself when the
    prefix is absolute (the blog root is then dropped), and the separator
    followed by the relative path when the prefix is relative and no blog
    root is set.  The canonical URL is the site URL followed by the relative
    URL. *)
Theorem loaded_post_urls (strptime : string → string → result datetime)
    (prefix base : string) (root : option string)
    (generated_html : string) (Meta : gmap string (list string)) (p : post) :
  load_post strptime prefix base root generated_html Meta = Ok p →
  relative_path p
  = (if String.eqb prefix "" || ends_with_sep prefix
     then prefix ++ date_directory (date p) ++ generate_post_file_name (title p)
     else prefix ++ "/" ++ date_directory (date p) ++ generate_post_file_name (title p))%string
  ∧ starts_with_sep (relative_url p) = true
  ∧ (starts_with_sep prefix = true → relative_url p = relative_path p)
  ∧ (starts_with_sep prefix = false → truthy root = false →
     relative_url p = ("/" ++ relative_path p)%string)
  ∧ canonical_url p = (base ++ relative_url p)%string.
Proof.
  intros (dl & _ & _ & _ & Hpath & Hurl & Hcanonical)%load_post_inversion.
  pose proof (post_file_path_starts (title p) (date p)) as Hstart.
  assert (relative_path p
          = (if String.eqb prefix "" || ends_with_sep prefix
             then prefix ++ generate_post_file_path (title p) (date p)
             else prefix ++ "/" ++ generate_post_file_path (title p) (date p))%string)
    as Hrp.
  { rewrite Hpath. cbn [truthy]. destruct (String.eqb_spec prefix "") as [->|Hne]; [done|].
    cbn [negb orb]. unfold path_join. cbn [foldl]. unfold join_step. rewrite Hstart.
    by destruct (String.eqb_spec prefix ""). }
  assert (starts_with_sep (relative_path p) = starts_with_sep prefix) as Hrs.
  { rewrite Hrp. destruct (String.eqb_spec prefix "") as [->|Hne]; [done|]. cbn [orb].
    destruct (ends_with_sep prefix); by rewrite starts_with_sep_append. }
  split_and!.
  - by rewrite Hrp, post_file_path.
  - rewrite Hurl. destruct (truthy root); unfold path_join; cbn [foldl];
      by repeat apply join_step_rooted.
  - intros Hp. rewrite Hurl.
    destruct (truthy root); unfold path_join; cbn [foldl]; unfold join_step at 1;
      by rewrite Hrs, Hp.
  - intros Hp Hr. rewrite Hurl, Hr. unfold path_join. cbn [foldl]. unfold join_step.
    by rewrite Hrs, Hp.
  - done.
Qed.

Lemma loaded_post_urls_witness :
  load_post strptime_padded "blog" "http://example.com" None sample_html sample_meta
  = Ok sample_post
  ∧ relative_path sample_post = "blog/2024/03/07/my-post"
  ∧ starts_with_sep (relative_url sample_post) = true
  ∧ (starts_with_sep "blog" = true → relative_url sample_post = relative_path sample_post)
  ∧ (starts_with_sep "blog" = false → truthy None = false →
     relative_url sample_post = ("/" ++ relative_path sample_post)%string)
  ∧ canonical_url sample_post = ("http://example.com" ++ relative_url sample_post)%string.
Proof.
  assert (load_post strptime_padded "blog" "http://example.com" None sample_html sample_meta
          = Ok sample_post) as Hload by (vm_compute; reflexivity).
  split; [exact Hload|].
  exact (loaded_post_urls strptime_padded "blog" "http://example.com" None
           sample_html sample_meta sample_post Hload).
Defined.



(** X8: [load_post] returns a post exactly when the metadata binds [title],
    [categories] and [date] to at least one line each and the date line
    parses.  Otherwise it raises for the first of these that fails, in the
    order title, categories, date key, date format: a missing title hides
    every other fault. *)
Theorem load_post_outcome (strptime : string → string → result datetime)
    (prefix base : string) (root : option string)
    (generated_html : string) (Meta : gmap string (list string)) :
  ((∃ p, load_post strptime prefix base root generated_html Meta = Ok p)
   ↔ ∃ t c d parsed,
       meta_first Meta "title" = Ok t ∧ meta_first Meta "categories" = Ok c
       ∧ meta_first Meta "date" = Ok d
       ∧ strptime (PyStr.strip d) "%Y-%m-%d %H:%M" = Ok parsed)
  ∧ (Meta !! "title" = None →
     load_post strptime prefix base root generated_html Meta = Raise (KeyError "title"))
  ∧ (∀ t, meta_first Meta "title" = Ok t → Meta !! "categories" = None →
     load_post strptime prefix base root generated_html Meta = Raise (KeyError "categories"))
  ∧ (∀ t c, meta_first Meta "title" = Ok t → meta_first Meta "categories" = Ok c →
     Meta !! "date" = None →
     load_post strptime prefix base root generated_html Meta = Raise (KeyError "date"))
  ∧ (∀ t c d e, meta_first Meta "title" = Ok t → meta_first Meta "categories" = Ok c →
     meta_first Meta "date" = Ok d →
     strptime (PyStr.strip d) "%Y-%m-%d %H:%M" = Raise e →
     load_post strptime prefix base root generated_html Meta = Raise e).
Proof.
  split_and!.
  - split.
    + intros [p H]. unfold load_post in H.
      apply bind_Ok in H as (t & Ht & H).
      apply bind_Ok in H as (c & Hc & H).
      apply bind_Ok in H as (d & Hd & H).
      apply bind_Ok in H as (parsed & Hp & H).
      by exists t, c, d, parsed.
    + intros (t & c & d & parsed & Ht & Hc & Hd & Hp).
      unfold load_post. rewrite Ht. cbn. rewrite Hc. cbn. rewrite Hd. cbn. rewrite Hp. cbn.
      by eexists.
  - intros Ht. unfold load_post. by rewrite (meta_first_missing _ _ Ht).
  - intros t Ht Hc. unfold load_post. rewrite Ht. cbn. by rewrite (meta_first_missing _ _ Hc).
  - intros t c Ht Hc Hd. unfold load_post. rewrite Ht. cbn. rewrite Hc. cbn.
    by rewrite (meta_first_missing _ _ Hd).
  - intros t c d e Ht Hc Hd He. unfold load_post. rewrite Ht. cbn. rewrite Hc. cbn.
    rewrite Hd. cbn. by rewrite He.
Qed.

(** X9: [get_all_posts] loads all or nothing.  It returns the posts of the
    converted files one for one and in their order when every file loads,
    and otherwise raises the error of the first file that does not load. *)
Theorem get_all_posts_outcome (strptime : string → string → result datetime)
    (prefix base : string) (root : option string)
    (converted : list (string * gmap string (list string))) :
  (∀ loaded, get_all_posts strptime prefix base root converted = Ok loaded
     ↔ Forall2 (λ file p, load_post strptime prefix base root file.1 file.2 = Ok p)
         converted loaded)
  ∧ (∀ e, get_all_posts strptime prefix base root converted = Raise e
     ↔ ∃ before file after loaded,
         converted = before ++ file :: after
         ∧ get_all_posts strptime prefix base root before = Ok loaded
         ∧ load_post strptime prefix base root file.1 file.2 = Raise e).
Proof.
  split.
  - intros loaded. apply for_each_Ok.
  - intros e. apply for_each_first_error.
Qed.

(** ** Links between the pagination windows *)

Lemma window_count (n k : nat) : k < (n - 1) / 5 ↔ 5 * (k + 1) < n.
Proof.
  pose proof (Nat.div_mod_eq (n - 1) 5) as Hd.
  pose proof (Nat.mod_upper_bound (n - 1) 5) as Hm.
  lia.
Qed.

(** X10: the pagination windows are chained without a loose end: every
    window but the last points to the next window, which is written, and
    the last window points nowhere.  No window is written for five posts or
    fewer, and each window is one directory and one file. *)
Theorem pagination_links (config : site_config) (all_posts : list post) (template : string) :
  let windows := (length all_posts - 1) / 5 in
  generate_pagination_pages config all_posts template
  = seq 1 windows ≫= (λ k,
      generate_static_page
        {| site := config;
           current_posts := Some (slice all_posts (5 * k) (5 * k + 5));
           next_page := Some (if decide (k < windows) then Some (k + 1) else None);
           post_variable := None |}
        (path_join (blog_dir config) ["page"; PyStr.str k]) template "index.html")
  ∧ (generate_pagination_pages config all_posts template = [] ↔ length all_posts ≤ 5)
  ∧ length (generate_pagination_pages config all_posts template) = 2 * windows.
Proof.
  cbn zeta. rewrite pagination_pages.
  assert (∀ c a, length (seq a c ≫= window_page config all_posts template) = 2 * c) as Hlen.
  { induction c as [|c IH]; intros a; [done|].
    cbn [seq]. rewrite bind_cons, length_app, IH.
    unfold window_page, generate_static_page. cbn [length]. lia. }
  split_and!.
  - apply Forall_bind_ext, Forall_forall. intros k [Hk1 Hk2]%elem_of_seq.
    unfold window_page, window_variables. do 3 f_equal.
    pose proof (window_count (length all_posts) k) as Hc.
    case_bool_decide; case_decide; try done; lia.
  - split.
    + intros Hnil. apply (f_equal length) in Hnil. rewrite Hlen in Hnil.
      cbn [length] in Hnil. pose proof (window_count (length all_posts) 0). lia.
    + intros Hn. rewrite Nat.div_small by lia. done.
  - apply Hlen.
Qed.

(** ** The run over the posts *)

(** X11: the loop over the posts stops at the first post without a body.
    The error names that post, the posts before it have their pages, and
    nothing is written for the post itself or for any post behind it. *)
Theorem first_empty_post_stops (all_posts : list post) (config : site_config)
    (i : nat) (p : post) :
  all_posts !! i = Some p → body p = "" →
  (∀ j q, j < i → all_posts !! j = Some q → body q ≠ "") →
  (generate_posts all_posts config).2
  = Raise (EnvironmentError ("No content for post [" ++ relative_path p ++ "] found."))
  ∧ events (generate_posts all_posts config).1
    = events (generate_rounds (seq 0 i) (first_run all_posts config)).1
  ∧ (generate_rounds (seq 0 i) (first_run all_posts config)).2 = Ok tt
  ∧ length (events (generate_posts all_posts config).1) = 2 * i.
Proof.
  intros Hp Hbody Hbefore.
  destruct (generate_posts_aborts all_posts config i p Hp Hbody Hbefore) as (Hr & He & Hok).
  split_and!; try done. rewrite He.
  pose proof (lookup_lt_Some _ _ _ Hp) as Hi.
  assert (∀ indices r,
    Forall (λ i, ∃ b path, (content <$> posts r) !! i = Some (b, path) ∧ b ≠ "") indices →
    length (events (generate_rounds indices r).1) = length (events r) + 2 * length indices)
    as Hcount.
  { induction indices as [|k indices IH]; intros r Hall; [cbn; lia|].
    apply Forall_cons in Hall as [(b & path & Hk & Hb) Hall]. cbn [generate_rounds].
    unfold generate_round.
    pose proof (link_content (posts r) k) as Hc.
    assert ((content <$> link (posts r) k) !! k = Some (b, path)) as Hl by by rewrite Hc.
    rewrite list_lookup_fmap in Hl.
    destruct (link (posts r) k !! k) as [q|]; [|done].
    injection Hl as Hbq Hpq.
    rewrite generate_post_content by by rewrite Hbq.
    rewrite IH by (cbn; by rewrite Hc). cbn. rewrite length_app. cbn. lia. }
  rewrite Hcount; [cbn; rewrite length_seq; lia|].
  apply Forall_forall. intros j Hj%elem_of_seq. cbn.
  destruct (lookup_lt_is_Some_2 all_posts j) as [q Hq]; [lia|].
  exists (body q), (relative_path q). rewrite list_lookup_fmap, Hq.
  split; [done|]. apply (Hbefore j q); [lia|done].
Qed.

Lemma first_empty_post_stops_witness :
  (generate_posts [sample_post; sample_empty_post; sample_post] sample_config).2
  = Raise (EnvironmentError "No content for post [blog/2024/03/06/empty] found.")
  ∧ events (generate_posts [sample_post; sample_empty_post; sample_post] sample_config).1
    = events (generate_rounds (seq 0 1)
                (first_run [sample_post; sample_empty_post; sample_post] sample_config)).1
  ∧ (generate_rounds (seq 0 1)
       (first_run [sample_post; sample_empty_post; sample_post] sample_config)).2 = Ok tt
  ∧ length (events (generate_posts [sample_post; sample_empty_post; sample_post]
                      sample_config).1) = 2 * 1.
Proof.
  apply (first_empty_post_stops [sample_post; sample_empty_post; sample_post] sample_config
           1 sample_empty_post); [done|done|].
  intros j q Hj Hq. destruct j as [|j]; [|lia]. by injection Hq as <-.
Defined.

(** ** The static pages *)

Lemma set_all_posts_twice (v : static_variables) (l1 l2 : list post) :
  set_all_posts (set_all_posts v l1) l2 = set_all_posts v l2.
Proof. reflexivity. Qed.

Lemma category_rounds (config : site_config) (v : static_variables)
    (evs : list static_event) (items : list (string * list post)) (l0 : list post) :
  (foldl (category_round config) (set_all_posts v l0, evs) items).2
  = evs ++ (items ≫= category_pages config v).
Proof.
  revert evs l0. induction items as [|[category listed] items IH]; intros evs l0.
  - cbn. by rewrite app_nil_r.
  - cbn [foldl]. unfold category_round at 2. cbn [fst snd].
    rewrite set_all_posts_twice, IH, bind_cons.
    unfold category_pages at 2. cbn [fst snd]. by rewrite <- !app_assoc.
Qed.

Lemma generate_static_files_pages (config : site_config)
    (additional_pages : option (list (string * gmap string string))) (now : string)
    (all_posts : list post) (categories : list (string * list post)) :
  generate_static_files config additional_pages now all_posts categories
  = let '(additional, outcome) :=
      match additional_pages with
      | Some entries =>
          additional_pages_loop config (site_variables config additional_pages) entries
      | None => ([], Ok tt)
      end in
    match outcome with
    | Raise e => (additional, Raise e)
    | Ok _ => (additional ++ standard_pages config additional_pages now all_posts categories,
               Ok tt)
    end.
Proof.
  unfold generate_static_files.
  destruct (match additional_pages with Some _ => _ | None => _ end) as [additional [[]|e]];
    [|done].
  cbn zeta. unfold standard_pages. cbn zeta.
  apply (f_equal (λ x, (additional ++ x, Ok tt))).
  do 5 refine (f_equal2 app eq_refl _).
  exact (category_rounds config (feed_variables config additional_pages now all_posts)
           [] categories all_posts).
Qed.

(** ** The items of the category dictionary *)

Lemma items_append_map (items : list (string * list post)) (category : string) (p : post) :
  (list_to_map (items_append items category p) : gmap string (list post))
  = append_to (list_to_map items) category p.
Proof.
  induction items as [|[c bucket] items IH]; cbn [items_append].
  - unfold append_to. cbn. by rewrite lookup_empty.
  - destruct (String.eqb_spec c category) as [->|Hne]; cbn [list_to_map foldr uncurry].
    + unfold append_to. rewrite lookup_insert_eq. cbn. by rewrite insert_insert_eq.
    + change (foldr (λ kv, uncurry insert kv) ∅ (items_append items category p))
        with (list_to_map (items_append items category p) : gmap string (list post)).
      rewrite IH. unfold append_to. rewrite lookup_insert_ne by done.
      by apply insert_insert_ne.
Qed.

Lemma items_append_keys (items : list (string * list post)) (category : string) (p : post) :
  (items_append items category p).*1
  = if decide (category ∈ items.*1) then items.*1 else items.*1 ++ [category].
Proof.
  induction items as [|[c bucket] items IH]; cbn [items_append].
  - rewrite decide_False by apply not_elem_of_nil. done.
  - destruct (String.eqb_spec c category) as [->|Hne]; cbn [fmap list_fmap fst].
    + rewrite decide_True by apply list_elem_of_here. done.
    + change (list_fmap _ _ fst ?l) with (l.*1). rewrite IH. cbn.
      destruct (decide (category ∈ items.*1)) as [Hin|Hin].
      * rewrite decide_True by by apply list_elem_of_further. done.
      * rewrite decide_False; [done|]. by intros [?|?]%elem_of_cons.
Qed.

Lemma first_seen_ext (s1 s2 l : list string) :
  (∀ x, x ∈ s1 ↔ x ∈ s2) → first_seen s1 l = first_seen s2 l.
Proof.
  revert s1 s2. induction l as [|c l IH]; intros s1 s2 Hs; [done|]. cbn.
  destruct (decide (c ∈ s1)) as [H1|H1].
  - rewrite decide_True by by apply Hs. by apply IH.
  - rewrite decide_False by by rewrite <- Hs. f_equal. apply IH.
    intros x. rewrite !elem_of_cons. by rewrite Hs.
Qed.

Lemma items_add_keys (cs : list string) (items : list (string * list post)) (p : post) :
  (foldl (λ acc category, items_append acc category p) items cs).*1
  = items.*1 ++ first_seen items.*1 cs.
Proof.
  revert items. induction cs as [|c cs IH]; intros items; cbn [foldl first_seen].
  - by rewrite app_nil_r.
  - rewrite IH, items_append_keys. destruct (decide (c ∈ items.*1)) as [Hin|Hin]; [done|].
    rewrite <- app_assoc. cbn. do 2 f_equal. apply first_seen_ext.
    intros x. rewrite elem_of_app, !elem_of_cons, elem_of_nil. tauto.
Qed.

Lemma first_seen_app (seen l1 l2 : list string) :
  first_seen seen (l1 ++ l2)
  = first_seen seen l1 ++ first_seen (seen ++ first_seen seen l1) l2.
Proof.
  revert seen. induction l1 as [|c l1 IH]; intros seen; cbn [app first_seen].
  - by rewrite app_nil_r.
  - destruct (decide (c ∈ seen)) as [Hin|Hin]; [apply IH|].
    cbn. f_equal. rewrite IH. f_equal. apply first_seen_ext.
    intros x. repeat (rewrite elem_of_app || rewrite elem_of_cons). tauto.
Qed.

Lemma first_seen_fresh (seen l : list string) :
  NoDup (first_seen seen l) ∧ ∀ x, x ∈ first_seen seen l → x ∉ seen.
Proof.
  revert seen. induction l as [|c l IH]; intros seen; cbn.
  - split; [constructor|]. by intros x ?%elem_of_nil.
  - destruct (decide (c ∈ seen)) as [Hin|Hin]; [apply IH|].
    destruct (IH (c :: seen)) as [Hnd Hfresh]. split.
    + constructor; [|done]. intros Hc%Hfresh. apply Hc, list_elem_of_here.
    + intros x [->|Hx]%elem_of_cons; [done|].
      intros Hs. apply (Hfresh x Hx). by apply list_elem_of_further.
Qed.

Lemma items_add_post_map (items : list (string * list post)) (p : post) :
  (list_to_map (items_add_post items p) : gmap string (list post))
  = add_post (list_to_map items) p.
Proof.
  unfold items_add_post, add_post. generalize (categories p). intros cs. revert items.
  induction cs as [|c cs IH]; intros items; [done|].
  cbn [foldl]. by rewrite IH, items_append_map.
Qed.

Lemma build_items (all_posts : list post) (items : list (string * list post)) :
  (list_to_map (foldl items_add_post items all_posts) : gmap string (list post))
  = foldl add_post (list_to_map items) all_posts
  ∧ (foldl items_add_post items all_posts).*1
    = items.*1 ++ first_seen items.*1 (all_posts ≫= categories).
Proof.
  revert items. induction all_posts as [|p l IH]; intros items; cbn [foldl].
  - split; [done|]. by rewrite app_nil_r.
  - destruct (IH (items_add_post items p)) as [Hmap Hkeys]. split.
    + by rewrite Hmap, items_add_post_map.
    + rewrite Hkeys. unfold items_add_post at 1 2. rewrite items_add_keys, bind_cons.
      rewrite first_seen_app, <- app_assoc. done.
Qed.

(** X12: the items of the category dictionary, which give the order of the
    category pages: the categories stand in the order in which the sorted
    posts first declare them, each once, and each with the posts that
    declare it, in the order of the posts. *)
Theorem category_items_order (all_posts : list post) :
  (list_to_map (build_category_items all_posts) : gmap string (list post))
  = build_categories all_posts
  ∧ (build_category_items all_posts).*1 = first_seen [] (all_posts ≫= categories)
  ∧ NoDup (build_category_items all_posts).*1
  ∧ ∀ category listed,
      (category, listed) ∈ build_category_items all_posts
      ↔ listed = bucket_of category all_posts ∧ listed ≠ [].
Proof.
  destruct (build_items all_posts []) as [Hmap Hkeys].
  fold (build_category_items all_posts) in Hmap, Hkeys.
  assert (NoDup (build_category_items all_posts).*1) as Hnd.
  { rewrite Hkeys. cbn. apply first_seen_fresh. }
  split_and!; [done|done|done|].
  intros category listed.
  rewrite (elem_of_list_to_map (M:=gmap string) _ _ _ Hnd), Hmap.
  change (foldl add_post (list_to_map []) all_posts) with (build_categories all_posts).
  pose proof (build_categories_lookup ∅ category all_posts) as Hl.
  rewrite lookup_empty in Hl. cbn in Hl. fold (build_categories all_posts) in Hl.
  pose proof (build_categories_no_empty all_posts category) as Hne.
  destruct (build_categories all_posts !! category) as [bucket|] eqn:Hb; cbn in Hl.
  - specialize (Hne bucket eq_refl). rewrite <- Hl. split; [by intros [= <-]|by intros [-> _]].
  - split; [done|]. intros [-> H]. by rewrite <- Hl in H.
Qed.

(** ** Outcomes of the run *)

Lemma generate_rounds_outcome (indices : list nat) (r : run) :
  Forall (λ i, i < length (posts r)) indices →
  (generate_rounds indices r).2 = Ok tt
  ↔ Forall (λ i, ∃ b path, (content <$> posts r) !! i = Some (b, path) ∧ b ≠ "") indices.
Proof.
  intros Hlt. split; [|by intros H; apply generate_rounds_ok].
  revert r Hlt. induction indices as [|i indices IH]; intros r Hlt Hok; [constructor|].
  apply Forall_cons in Hlt as [Hi Hlt]. cbn [generate_rounds] in Hok.
  unfold generate_round in Hok.
  pose proof (link_content (posts r) i) as Hc.
  destruct (lookup_lt_is_Some_2 (link (posts r) i) i) as [p Hp]; [by rewrite link_length|].
  rewrite Hp in Hok.
  assert ((content <$> posts r) !! i = Some (body p, relative_path p)) as Hcp.
  { by rewrite <- Hc, list_lookup_fmap, Hp. }
  destruct (decide (body p = "")) as [Hb|Hb].
  { by rewrite generate_post_empty in Hok by done. }
  rewrite generate_post_content in Hok by done.
  apply IH in Hok; [|cbn; by rewrite link_length].
  cbn in Hok. rewrite Hc in Hok. constructor; [by eexists _, _|done].
Qed.

Lemma generate_posts_outcome (all_posts : list post) (config : site_config) :
  (generate_posts all_posts config).2 = Ok tt ↔ Forall (λ p, body p ≠ "") all_posts.
Proof.
  unfold generate_posts. rewrite generate_rounds_outcome.
  - cbn. rewrite !Forall_forall. split.
    + intros H p [i Hi]%list_elem_of_lookup.
      destruct (H i) as (b & path & Hb & Hne).
      { apply elem_of_seq. apply lookup_lt_Some in Hi. lia. }
      rewrite list_lookup_fmap, Hi in Hb. by injection Hb as <- _.
    + intros H i [_ Hi]%elem_of_seq.
      destruct (lookup_lt_is_Some_2 all_posts i) as [p Hp]; [lia|].
      exists (body p), (relative_path p). rewrite list_lookup_fmap, Hp.
      split; [done|]. apply H. by apply list_elem_of_lookup_2 in Hp.
  - apply Forall_forall. intros i [_ Hi]%elem_of_seq. cbn. lia.
Qed.

Lemma post_events_templates (indices : list nat) (r : run) :
  Forall (λ e, ∀ path template v, e = WriteFile path template v → template = "post_index.html")
    (events r) →
  Forall (λ e, ∀ path template v, e = WriteFile path template v → template = "post_index.html")
    (events (generate_rounds indices r).1).
Proof.
  revert r. induction indices as [|i indices IH]; intros r Hr; [done|].
  cbn [generate_rounds]. unfold generate_round.
  destruct (link (posts r) i !! i) as [p|]; [|done].
  destruct (decide (body p = "")) as [Hb|Hb].
  - rewrite generate_post_empty by done. cbn. by rewrite app_nil_r.
  - rewrite generate_post_content by done. apply IH. cbn.
    apply Forall_app. split; [done|]. repeat constructor; [done|]. by intros ??? [= _ <- _].
Qed.

Lemma pagination_nothing (config : site_config) (all_posts : list post) (template : string) :
  length all_posts ≤ 5 → generate_pagination_pages config all_posts template = [].
Proof. intros Hn. rewrite pagination_pages, Nat.div_small by lia. done. Qed.

Lemma sort_posts_length (all_posts : list post) :
  length (sort_posts all_posts) = length all_posts.
Proof. apply Permutation_length, list_sort_reversed_perm. Qed.

Lemma additional_pages_loop_outcome (config : site_config) (v : static_variables)
    (entries : list (string * gmap string string)) :
  (additional_pages_loop config v entries).2 = Ok tt
  ↔ Forall (λ entry, is_Some (entry.2 !! "template")) entries.
Proof.
  induction entries as [|[name entry] entries IH]; cbn [additional_pages_loop].
  - split; [constructor|done].
  - unfold additional_page. rewrite Forall_cons. cbn [snd].
    destruct (entry !! "template") as [t|].
    + destruct (additional_pages_loop config v entries) as [pages outcome]. cbn in *.
      rewrite IH. split; [by intros H; split; [eexists|]|by intros [_ H]].
    + cbn. split; [done|]. by intros [[? ?] _].
Qed.

Lemma generate_static_files_outcome (config : site_config)
    (additional_pages : option (list (string * gmap string string))) (now : string)
    (all_posts : list post) (categories : list (string * list post)) :
  (generate_static_files config additional_pages now all_posts categories).2 = Ok tt
  ↔ templates_given additional_pages.
Proof.
  rewrite generate_static_files_pages. unfold templates_given.
  destruct additional_pages as [entries|].
  - pose proof (additional_pages_loop_outcome config
                  (site_variables config (Some entries)) entries) as H.
    destruct (additional_pages_loop _ _ entries) as [pages [[]|e]]; cbn in *.
    + split; [|done]. intros _ ? [= <-]. by apply H.
    + split; [done|]. intros Hall. by apply H, Hall.
  - split; [by intros _ ? [=]|done].
Qed.

Lemma additional_pages_loop_pages (config : site_config) (v : static_variables)
    (entries : list (string * gmap string string)) :
  Forall (λ entry, is_Some (entry.2 !! "template")) entries →
  additional_pages_loop config v entries
  = (entries ≫= (λ entry, generate_static_page_with v (additional_page_path config entry)
                            (default "" (entry.2 !! "template")) "index.html"),
     Ok tt).
Proof.
  induction 1 as [|[name entry] entries [t Ht] _ IH]; [done|].
  cbn [additional_pages_loop]. unfold additional_page. cbn [snd] in Ht. rewrite Ht, IH.
  rewrite bind_cons. unfold additional_page_path at 2. cbn [fst snd]. rewrite Ht.
  by destruct (entry !! "path").
Qed.

Lemma additional_pages_loop_stops (config : site_config) (v : static_variables)
    (before after : list (string * gmap string string)) (name : string)
    (entry : gmap string string) :
  Forall (λ entry, is_Some (entry.2 !! "template")) before →
  entry !! "template" = None →
  additional_pages_loop config v (before ++ (name, entry) :: after)
  = (before ≫= (λ entry, generate_static_page_with v (additional_page_path config entry)
                           (default "" (entry.2 !! "template")) "index.html"),
     Raise (KeyError "template")).
Proof.
  intros Hbefore Hentry.
  induction Hbefore as [|[name' entry'] before [t Ht] _ IH].
  - cbn [app additional_pages_loop]. unfold additional_page. by rewrite Hentry.
  - cbn [app additional_pages_loop]. unfold additional_page. cbn [snd] in Ht. rewrite Ht, IH.
    rewrite bind_cons. unfold additional_page_path at 2. cbn [fst snd]. rewrite Ht.
    by destruct (entry' !! "path").
Qed.

(** X13: an additional page without the key [template] stops
    [generate_static_files]: the call never ends without an exception, and
    of its pages only additional pages before that one are written, each
    into its [path] (or its name) under [output_dir]; neither the front page
    nor any other page of the site is.  When the file system lets all of
    these earlier pages be written, the exception is [KeyError('template')]. *)
Theorem additional_page_without_template (F : file_system) (s : state F)
    (config : site_config) (now : string)
    (all_posts : list post) (categories : list (string * list post))
    (before after : list (string * gmap string string)) (name : string)
    (entry : gmap string string) :
  Forall (λ entry, is_Some (entry.2 !! "template")) before →
  entry !! "template" = None →
  (generate_static_files_in F s config (Some (before ++ (name, entry) :: after)) now
     all_posts categories).2 ≠ Ok tt
  ∧ (generate_static_files_in F s config (Some (before ++ (name, entry) :: after)) now
       all_posts categories).1.1
    `prefix_of`
      (before ≫= (λ earlier,
         generate_static_page_with
           (site_variables config (Some (before ++ (name, entry) :: after)))
           (additional_page_path config earlier)
           (default "" (earlier.2 !! "template")) "index.html"))
  ∧ (∀ s',
       carry_out static_operation F s
         (before ≫= (λ earlier,
            generate_static_page_with
              (site_variables config (Some (before ++ (name, entry) :: after)))
              (additional_page_path config earlier)
              (default "" (earlier.2 !! "template")) "index.html"))
       = (before ≫= (λ earlier,
            generate_static_page_with
              (site_variables config (Some (before ++ (name, entry) :: after)))
              (additional_page_path config earlier)
              (default "" (earlier.2 !! "template")) "index.html"), s', Ok tt) →
       generate_static_files_in F s config (Some (before ++ (name, entry) :: after)) now
         all_posts categories
       = (before ≫= (λ earlier,
            generate_static_page_with
              (site_variables config (Some (before ++ (name, entry) :: after)))
              (additional_page_path config earlier)
              (default "" (earlier.2 !! "template")) "index.html"),
          s', Raise (KeyError "template"))).
Proof.
  intros Hbefore Hentry. unfold generate_static_files_in.
  assert (generate_static_files config (Some (before ++ (name, entry) :: after)) now
            all_posts categories
          = (before ≫= (λ earlier,
               generate_static_page_with
                 (site_variables config (Some (before ++ (name, entry) :: after)))
                 (additional_page_path config earlier)
                 (default "" (earlier.2 !! "template")) "index.html"),
             Raise (KeyError "template"))) as Hprogram.
  { rewrite generate_static_files_pages. by rewrite additional_pages_loop_stops. }
  rewrite Hprogram. split_and!.
  - by intros [_ Hok]%run_in_outcome.
  - apply (run_in_prefix static_operation F s (_, Raise (KeyError "template"))).
  - intros s' Hcarried. by apply (run_in_carried static_operation F s s' (_, _)).
Qed.

Lemma additional_page_without_template_witness :
  (generate_static_files_in sample_fs [] sample_config
     (Some ([("contact", {[ "template" := "contact.html" ]})]
            ++ ("projects", {[ "path" := "work" ]}) :: [])) sample_now
     [sample_post] [("python", [sample_post])]).2 ≠ Ok tt
  ∧ (generate_static_files_in sample_fs [] sample_config
       (Some ([("contact", {[ "template" := "contact.html" ]})]
              ++ ("projects", {[ "path" := "work" ]}) :: [])) sample_now
       [sample_post] [("python", [sample_post])]).1.1
    `prefix_of`
      ([("contact", {[ "template" := "contact.html" ]})] ≫= (λ earlier,
         generate_static_page_with
           (site_variables sample_config
              (Some ([("contact", {[ "template" := "contact.html" ]})]
                     ++ ("projects", {[ "path" := "work" ]}) :: [])))
           (additional_page_path sample_config earlier)
           (default "" (earlier.2 !! "template")) "index.html"))
  ∧ generate_static_files_in sample_fs [] sample_config
      (Some ([("contact", {[ "template" := "contact.html" ]})]
             ++ ("projects", {[ "path" := "work" ]}) :: [])) sample_now
      [sample_post] [("python", [sample_post])]
    = ([("contact", {[ "template" := "contact.html" ]})] ≫= (λ earlier,
         generate_static_page_with
           (site_variables sample_config
              (Some ([("contact", {[ "template" := "contact.html" ]})]
                     ++ ("projects", {[ "path" := "work" ]}) :: [])))
           (additional_page_path sample_config earlier)
           (default "" (earlier.2 !! "template")) "index.html"),
       ["generated"; "generated/contact"], Raise (KeyError "template")).
Proof.
  destruct (additional_page_without_template sample_fs [] sample_config sample_now
              [sample_post] [("python", [sample_post])]
              [("contact", {[ "template" := "contact.html" ]})] []
              "projects" {[ "path" := "work" ]}) as (Hnot & Hprefix & Hkey).
  - repeat constructor. by eexists.
  - reflexivity.
  - split; [exact Hnot|]. split; [exact Hprefix|].
    apply Hkey. vm_compute. reflexivity.
Defined.

Lemma generate_static_files_events (config : site_config)
    (additional_pages : option (list (string * gmap string string))) (now : string)
    (all_posts : list post) (categories : list (string * list post)) :
  templates_given additional_pages →
  generate_static_files config additional_pages now all_posts categories
  = ((default [] additional_pages ≫= (λ entry,
        generate_static_page_with (site_variables config additional_pages)
          (additional_page_path config entry)
          (default "" (entry.2 !! "template")) "index.html"))
     ++ standard_pages config additional_pages now all_posts categories, Ok tt).
Proof.
  intros Hgiven. rewrite generate_static_files_pages.
  destruct additional_pages as [entries|]; [|done].
  by rewrite additional_pages_loop_pages by by apply Hgiven.
Qed.

(** X14: in a call of [generate_static_files] that ends without an
    exception, the two pages of a category, its archive and its feed, are
    written in [<blog_dir>/categories/<category>/] and rendered with the
    variables the earlier pages left: the posts of the category as
    [all_posts], but the canonical URL of the blog's archives page, the
    first five posts of the whole site as [current_posts], the page number 1
    as [next_page] and the time of the site's feed. *)
Theorem category_page_variables (F : file_system) (s : state F) (config : site_config)
    (additional_pages : option (list (string * gmap string string))) (now : string)
    (all_posts : list post) (categories : list (string * list post))
    (category : string) (listed : list post) :
  (generate_static_files_in F s config additional_pages now all_posts categories).2 = Ok tt →
  (category, listed) ∈ categories →
  ∃ v,
    WriteStatic (path_join (blog_dir config) ["categories"; category; "index.html"])
      "archives.html" v
      ∈ (generate_static_files_in F s config additional_pages now all_posts categories).1.1
    ∧ WriteStatic (path_join (blog_dir config) ["categories"; category; "atom.xml"])
        "atom.xml" v
        ∈ (generate_static_files_in F s config additional_pages now all_posts categories).1.1
    ∧ all_posts_key v = Some listed
    ∧ canonical_url_key v
      = Some ((url config ++ "/" ++ blog_prefix config ++ "/") ++ "archives/")%string
    ∧ current_posts (shared v) = Some (take 5 all_posts)
    ∧ next_page (shared v) = Some (Some 1)
    ∧ now_key v = Some now.
Proof.
  intros Hok Hitem. unfold generate_static_files_in in *.
  rewrite (run_in_done _ _ _ _ _ Hok).
  apply run_in_outcome in Hok as [_ Hgiven%generate_static_files_outcome].
  exists (set_all_posts (feed_variables config additional_pages now all_posts) listed).
  rewrite generate_static_files_events by done. cbn [fst].
  assert (∀ e, e ∈ category_pages config
                     (feed_variables config additional_pages now all_posts)
                     (category, listed) →
               e ∈ (default [] additional_pages ≫= (λ entry,
                      generate_static_page_with (site_variables config additional_pages)
                        (additional_page_path config entry)
                        (default "" (entry.2 !! "template")) "index.html"))
                   ++ standard_pages config additional_pages now all_posts categories)
    as Hin.
  { intros e He. apply elem_of_app. right. unfold standard_pages.
    do 5 (apply elem_of_app; right).
    apply list_elem_of_bind. by exists (category, listed). }
  split_and!; try reflexivity.
  - apply Hin. unfold category_pages, generate_static_page_with. cbn [fst snd app].
    apply list_elem_of_further, list_elem_of_here.
  - apply Hin. unfold category_pages, generate_static_page_with. cbn [fst snd app].
    do 3 apply list_elem_of_further. apply list_elem_of_here.
Qed.

Lemma category_page_variables_witness :
  ∃ v,
    WriteStatic (path_join (blog_dir sample_config) ["categories"; "python"; "index.html"])
      "archives.html" v
      ∈ (generate_static_files_in sample_fs [] sample_config None sample_now
           [sample_post; sample_empty_post] [("python", [sample_post])]).1.1
    ∧ WriteStatic (path_join (blog_dir sample_config) ["categories"; "python"; "atom.xml"])
        "atom.xml" v
        ∈ (generate_static_files_in sample_fs [] sample_config None sample_now
             [sample_post; sample_empty_post] [("python", [sample_post])]).1.1
    ∧ all_posts_key v = Some [sample_post]
    ∧ canonical_url_key v
      = Some ((url sample_config ++ "/" ++ blog_prefix sample_config ++ "/")
              ++ "archives/")%string
    ∧ current_posts (shared v) = Some (take 5 [sample_post; sample_empty_post])
    ∧ next_page (shared v) = Some (Some 1)
    ∧ now_key v = Some sample_now.
Proof.
  apply (category_page_variables sample_fs [] sample_config None sample_now
           [sample_post; sample_empty_post] [("python", [sample_post])]
           "python" [sample_post]).
  - vm_compute. reflexivity.
  - apply list_elem_of_here.
Defined.

(** ** The whole run *)

Lemma additional_pages_loop_error (config : site_config) (v : static_variables)
    (entries : list (string * gmap string string)) (e : exn) :
  (additional_pages_loop config v entries).2 = Raise e → e = KeyError "template".
Proof.
  induction entries as [|[name entry] entries IH]; cbn [additional_pages_loop]; [done|].
  unfold additional_page. destruct (entry !! "template").
  - destruct (additional_pages_loop config v entries) as [pages outcome]. exact IH.
  - cbn. by intros [= <-].
Qed.

Lemma generate_static_files_error (config : site_config)
    (additional_pages : option (list (string * gmap string string))) (now : string)
    (all_posts : list post) (categories : list (string * list post)) (e : exn) :
  (generate_static_files config additional_pages now all_posts categories).2 = Raise e →
  e = KeyError "template".
Proof.
  rewrite generate_static_files_pages. destruct additional_pages as [entries|]; [|done].
  pose proof (additional_pages_loop_error config
                (site_variables config (Some entries)) entries e) as H.
  destruct (additional_pages_loop _ _ entries) as [pages [[]|e']]; [done|exact H].
Qed.

Lemma get_all_posts_bodies (strptime : string → string → result datetime)
    (prefix base : string) (root : option string)
    (converted : list (string * gmap string (list string))) (all_posts : list post) :
  get_all_posts strptime prefix base root converted = Ok all_posts →
  body <$> all_posts = converted.*1.
Proof.
  unfold get_all_posts. rewrite for_each_Ok.
  induction 1 as [|file p converted all_posts Hp _ IH]; [done|].
  cbn. rewrite IH. by destruct (load_post_fields _ _ _ _ _ _ _ Hp) as [-> _].
Qed.

Lemma sorted_bodies (all_posts : list post) :
  Forall (λ p, body p ≠ "") (sort_posts all_posts) ↔ Forall (λ h, h ≠ "") (body <$> all_posts).
Proof.
  rewrite Forall_fmap. split; apply Forall_Permutation; try done.
  - symmetry. apply list_sort_reversed_perm.
  - apply list_sort_reversed_perm.
Qed.

Section WholeRun.

Variable strptime : string → string → result datetime.
Variables (now : string) (config : site_config).
Variable additional_pages : option (list (string * gmap string string)).
Variable converted : list (string * gmap string (list string)).

Lemma generate_all_files_loaded (all_posts : list post) :
  get_all_posts strptime (blog_prefix config) (url config) (blog_root config) converted
  = Ok all_posts →
  templates_given additional_pages →
  generate_all_files strptime now config additional_pages converted
  = ((Static <$> (generate_static_files config additional_pages now (sort_posts all_posts)
                    (build_category_items (sort_posts all_posts))).1)
     ++ (Listed <$> generate_pagination_pages config (sort_posts all_posts) "list.html")
     ++ (Listed <$> events (generate_posts (sort_posts all_posts) config).1),
     (generate_posts (sort_posts all_posts) config).2).
Proof.
  intros Hload Hgiven. unfold generate_all_files. rewrite Hload.
  apply generate_static_files_outcome
    with (config := config) (now := now) (all_posts := sort_posts all_posts)
         (categories := build_category_items (sort_posts all_posts)) in Hgiven.
  destruct (generate_static_files _ _ _ _ _) as [static outcome]. cbn in Hgiven.
  rewrite Hgiven. by destruct (generate_posts (sort_posts all_posts) config).
Qed.

Lemma generate_all_files_template_missing (all_posts : list post) :
  get_all_posts strptime (blog_prefix config) (url config) (blog_root config) converted
  = Ok all_posts →
  ¬ templates_given additional_pages →
  generate_all_files strptime now config additional_pages converted
  = (Static <$> (generate_static_files config additional_pages now (sort_posts all_posts)
                   (build_category_items (sort_posts all_posts))).1,
     Raise (KeyError "template")).
Proof.
  intros Hload Hgiven. unfold generate_all_files. rewrite Hload.
  pose proof (generate_static_files_outcome config additional_pages now
                (sort_posts all_posts) (build_category_items (sort_posts all_posts))) as Hout.
  pose proof (generate_static_files_error config additional_pages now
                (sort_posts all_posts) (build_category_items (sort_posts all_posts))) as Herr.
  destruct (generate_static_files _ _ _ _ _) as [static [[]|e]]; cbn in *.
  - destruct Hgiven. by apply Hout.
  - by rewrite (Herr e eq_refl).
Qed.

Lemma generate_all_files_success :
  (generate_all_files strptime now config additional_pages converted).2 = Ok tt
  ↔ ∃ all_posts,
      get_all_posts strptime (blog_prefix config) (url config) (blog_root config) converted
      = Ok all_posts
      ∧ templates_given additional_pages
      ∧ Forall (λ p, body p ≠ "") (sort_posts all_posts).
Proof.
  split.
  - intros Hok.
    destruct (get_all_posts strptime (blog_prefix config) (url config) (blog_root config)
                converted) as [all_posts|e] eqn:Hload.
    + exists all_posts. split; [done|].
      pose proof (generate_static_files_outcome config additional_pages now
                    (sort_posts all_posts) (build_category_items (sort_posts all_posts)))
        as Hout.
      unfold generate_all_files in Hok. rewrite Hload in Hok.
      destruct (generate_static_files _ _ _ _ _) as [static [[]|e]]; [|done].
      split; [by apply Hout|].
      apply (proj1 (generate_posts_outcome (sort_posts all_posts) config)).
      by destruct (generate_posts (sort_posts all_posts) config).
    + unfold generate_all_files in Hok. by rewrite Hload in Hok.
  - intros (all_posts & Hload & Hgiven & Hbodies).
    rewrite (generate_all_files_loaded all_posts) by done. by apply generate_posts_outcome.
Qed.

End WholeRun.

Lemma generate_all_files_ends (strptime : string → string → result datetime) (now : string)
    (config : site_config) (additional_pages : option (list (string * gmap string string)))
    (converted : list (string * gmap string (list string))) :
  (generate_all_files strptime now config additional_pages converted).2 = Ok tt
  ↔ (∃ all_posts,
       get_all_posts strptime (blog_prefix config) (url config) (blog_root config)
         converted = Ok all_posts)
    ∧ templates_given additional_pages
    ∧ Forall (λ file, file.1 ≠ "") converted.
Proof.
  rewrite generate_all_files_success. split.
  - intros (all_posts & Hload & Hgiven & Hbodies). split_and!; [by eexists|done|].
    apply sorted_bodies in Hbodies.
    rewrite (get_all_posts_bodies _ _ _ _ _ _ Hload) in Hbodies.
    rewrite Forall_fmap in Hbodies. exact Hbodies.
  - intros ([all_posts Hload] & Hgiven & Hbodies). exists all_posts. split_and!; [done..|].
    apply sorted_bodies. rewrite (get_all_posts_bodies _ _ _ _ _ _ Hload).
    rewrite Forall_fmap. exact Hbodies.
Qed.

(** X15: the outcome of [generate_all_files] on a file system, with the
    templates found.  An exception of the loader ends the run before
    anything is written.  With the posts loaded, an additional page without
    template keeps the run from ending without exception, and no pagination
    or post page is written.  The run ends without exception exactly when
    every file loads, every additional page names its template, no converted
    file is empty and every file operation of the run succeeds; all pages
    are then written. *)
Theorem site_outcome (F : file_system) (s : state F)
    (strptime : string → string → result datetime) (now : string)
    (config : site_config) (additional_pages : option (list (string * gmap string string)))
    (converted : list (string * gmap string (list string))) :
  (∀ e, get_all_posts strptime (blog_prefix config) (url config) (blog_root config) converted
        = Raise e →
        generate_all_files_in F s strptime now config additional_pages converted
        = ([], s, Raise e))
  ∧ (∀ all_posts,
       get_all_posts strptime (blog_prefix config) (url config) (blog_root config) converted
       = Ok all_posts →
       ¬ templates_given additional_pages →
       (generate_all_files_in F s strptime now config additional_pages converted).2 ≠ Ok tt
       ∧ ∀ e, Listed e
              ∉ (generate_all_files_in F s strptime now config additional_pages converted).1.1)
  ∧ ((generate_all_files_in F s strptime now config additional_pages converted).2 = Ok tt
     ↔ (∃ all_posts,
          get_all_posts strptime (blog_prefix config) (url config) (blog_root config)
            converted = Ok all_posts)
       ∧ templates_given additional_pages
       ∧ Forall (λ file, file.1 ≠ "") converted
       ∧ (carry_out site_operation F s
            (generate_all_files strptime now config additional_pages converted).1).2 = Ok tt)
  ∧ ((generate_all_files_in F s strptime now config additional_pages converted).2 = Ok tt →
     (generate_all_files_in F s strptime now config additional_pages converted).1.1
     = (generate_all_files strptime now config additional_pages converted).1).
Proof.
  unfold generate_all_files_in. split_and!.
  - intros e Hload. unfold generate_all_files. by rewrite Hload.
  - intros all_posts Hload Hgiven.
    pose proof (run_in_prefix site_operation F s
                  (generate_all_files strptime now config additional_pages converted))
      as Hprefix.
    rewrite (generate_all_files_template_missing _ _ _ _ _ all_posts) in * by done.
    split; [by intros [_ Hok]%run_in_outcome|].
    intros e He. destruct Hprefix as [rest Hrest]. cbn [fst] in Hrest.
    assert (Listed e ∈ Static <$> (generate_static_files config additional_pages now
                                     (sort_posts all_posts)
                                     (build_category_items (sort_posts all_posts))).1)
      as Hin by (rewrite Hrest; apply elem_of_app; by left).
    rewrite list_elem_of_fmap in Hin. by destruct Hin as (? & ? & _).
  - rewrite run_in_outcome, generate_all_files_ends. tauto.
  - apply run_in_done.
Qed.

(** X16: a post without text is found late.  When the files load, the
    additional pages have their templates and the file system lets the
    pages be written, the run that meets an empty post has by then written
    all pages of [generate_static_files], the front page among them, all
    pagination pages and the pages of the posts that are newer than the
    empty one; it ends with the [EnvironmentError] that names the empty
    post. *)
Theorem empty_post_found_late (F : file_system) (s s' : state F)
    (strptime : string → string → result datetime) (now : string)
    (config : site_config) (additional_pages : option (list (string * gmap string string)))
    (converted : list (string * gmap string (list string))) (all_posts : list post)
    (i : nat) (p : post) :
  get_all_posts strptime (blog_prefix config) (url config) (blog_root config) converted
  = Ok all_posts →
  templates_given additional_pages →
  sort_posts all_posts !! i = Some p →
  body p = "" →
  (∀ j q, j < i → sort_posts all_posts !! j = Some q → body q ≠ "") →
  carry_out site_operation F s
    ((Static <$> (generate_static_files config additional_pages now (sort_posts all_posts)
                    (build_category_items (sort_posts all_posts))).1)
     ++ (Listed <$> generate_pagination_pages config (sort_posts all_posts) "list.html")
     ++ (Listed <$> events (generate_rounds (seq 0 i)
                              (first_run (sort_posts all_posts) config)).1))
  = ((Static <$> (generate_static_files config additional_pages now (sort_posts all_posts)
                    (build_category_items (sort_posts all_posts))).1)
     ++ (Listed <$> generate_pagination_pages config (sort_posts all_posts) "list.html")
     ++ (Listed <$> events (generate_rounds (seq 0 i)
                              (first_run (sort_posts all_posts) config)).1),
     s', Ok tt) →
  generate_all_files_in F s strptime now config additional_pages converted
  = ((Static <$> (generate_static_files config additional_pages now (sort_posts all_posts)
                    (build_category_items (sort_posts all_posts))).1)
     ++ (Listed <$> generate_pagination_pages config (sort_posts all_posts) "list.html")
     ++ (Listed <$> events (generate_rounds (seq 0 i)
                              (first_run (sort_posts all_posts) config)).1),
     s',
     Raise (EnvironmentError ("No content for post [" ++ relative_path p ++ "] found.")))
  ∧ Static (WriteStatic (path_join (output_dir config) ["index.html"]) "list.html"
              (front_variables config additional_pages (sort_posts all_posts)))
    ∈ (generate_all_files_in F s strptime now config additional_pages converted).1.1.
Proof.
  intros Hload Hgiven Hp Hbody Hbefore Hcarried.
  assert (generate_all_files strptime now config additional_pages converted
          = ((Static <$> (generate_static_files config additional_pages now
                            (sort_posts all_posts)
                            (build_category_items (sort_posts all_posts))).1)
             ++ (Listed <$> generate_pagination_pages config (sort_posts all_posts)
                              "list.html")
             ++ (Listed <$> events (generate_rounds (seq 0 i)
                                      (first_run (sort_posts all_posts) config)).1),
             Raise (EnvironmentError
                      ("No content for post [" ++ relative_path p ++ "] found."))))
    as Hprogram.
  { rewrite (generate_all_files_loaded _ _ _ _ _ all_posts) by done.
    destruct (generate_posts_aborts (sort_posts all_posts) config i p Hp Hbody Hbefore)
      as (Hout & Hevents & _).
    by rewrite Hout, Hevents. }
  unfold generate_all_files_in. rewrite Hprogram.
  rewrite (run_in_carried site_operation F s s' (_, _) Hcarried).
  split; [done|].
  cbn [fst]. apply elem_of_app. left. apply list_elem_of_fmap_2.
  rewrite generate_static_files_events by done. cbn [fst].
  apply elem_of_app. right. unfold standard_pages, generate_static_page_with.
  cbn [app]. apply list_elem_of_further, list_elem_of_here.
Qed.

Lemma empty_post_found_late_witness :
  generate_all_files_in sample_fs [] strptime_padded sample_now sample_config None
    sample_converted
  = ((Static <$> (generate_static_files sample_config None sample_now
                    (sort_posts [sample_post; sample_empty_post])
                    (build_category_items (sort_posts [sample_post; sample_empty_post]))).1)
     ++ (Listed <$> generate_pagination_pages sample_config
                      (sort_posts [sample_post; sample_empty_post]) "list.html")
     ++ (Listed <$> events (generate_rounds (seq 0 1)
                              (first_run (sort_posts [sample_post; sample_empty_post])
                                 sample_config)).1),
     (carry_out site_operation sample_fs []
        (generate_all_files strptime_padded sample_now sample_config None
           sample_converted).1).1.2,
     Raise (EnvironmentError
              ("No content for post [" ++ relative_path sample_empty_post ++ "] found.")))
  ∧ Static (WriteStatic (path_join (output_dir sample_config) ["index.html"]) "list.html"
              (front_variables sample_config None
                 (sort_posts [sample_post; sample_empty_post])))
    ∈ (generate_all_files_in sample_fs [] strptime_padded sample_now sample_config None
         sample_converted).1.1.
Proof.
  apply (empty_post_found_late sample_fs [] _ strptime_padded sample_now sample_config None
           sample_converted [sample_post; sample_empty_post] 1 sample_empty_post).
  - vm_compute. reflexivity.
  - intros entries Hentries. discriminate Hentries.
  - vm_compute. reflexivity.
  - reflexivity.
  - intros j q Hj Hq. destruct j as [|j]; [|lia].
    vm_compute in Hq. injection Hq as <-. discriminate.
  - vm_compute. reflexivity.
Defined.

(** X17: the front page always points to page 1.  In a run that comes to
    its end over at most five converted files, the front page
    [<output_dir>/index.html] shows all posts and carries [next_page] 1,
    while no pagination page is written: nothing but the front pages is
    rendered from [list.html]. *)
Theorem front_page_without_page_one (strptime : string → string → result datetime)
    (now : string) (config : site_config)
    (additional_pages : option (list (string * gmap string string)))
    (converted : list (string * gmap string (list string))) :
  (generate_all_files strptime now config additional_pages converted).2 = Ok tt →
  length converted ≤ 5 →
  ∃ all_posts,
    get_all_posts strptime (blog_prefix config) (url config) (blog_root config) converted
    = Ok all_posts
    ∧ Static (WriteStatic (path_join (output_dir config) ["index.html"]) "list.html"
                (front_variables config additional_pages (sort_posts all_posts)))
      ∈ (generate_all_files strptime now config additional_pages converted).1
    ∧ next_page (shared (front_variables config additional_pages (sort_posts all_posts)))
      = Some (Some 1)
    ∧ current_posts (shared (front_variables config additional_pages (sort_posts all_posts)))
      = Some (sort_posts all_posts)
    ∧ ∀ path v,
        Listed (WriteFile path "list.html" v)
        ∉ (generate_all_files strptime now config additional_pages converted).1.
Proof.
  intros Hok Hfew.
  apply generate_all_files_success in Hok as (all_posts & Hload & Hgiven & Hbodies).
  exists all_posts. split; [done|].
  assert (length (sort_posts all_posts) ≤ 5) as Hlen.
  { rewrite sort_posts_length.
    pose proof (f_equal length (get_all_posts_bodies _ _ _ _ _ _ Hload)) as Hl.
    rewrite !length_fmap in Hl. lia. }
  rewrite (generate_all_files_loaded _ _ _ _ _ all_posts) by done. cbn [fst].
  rewrite pagination_nothing by done.
  split_and!.
  - apply elem_of_app. left. apply list_elem_of_fmap_2.
    rewrite generate_static_files_events by done. cbn [fst].
    apply elem_of_app. right. unfold standard_pages, generate_static_page_with.
    cbn [app]. apply list_elem_of_further, list_elem_of_here.
  - reflexivity.
  - cbn. by rewrite take_ge.
  - intros path v. rewrite !elem_of_app, !list_elem_of_fmap.
    intros [(e & [=] & _)|[(e & _ & []%elem_of_nil)|(e & [= <-] & He)]].
    pose proof (post_events_templates (seq 0 (length (sort_posts all_posts)))
                  (first_run (sort_posts all_posts) config) (Forall_nil_2 _)) as Htemplates.
    rewrite Forall_forall in Htemplates.
    specialize (Htemplates _ He path "list.html" v eq_refl).
    discriminate Htemplates.
Qed.

Lemma front_page_without_page_one_witness :
  ∃ all_posts,
    get_all_posts strptime_padded (blog_prefix sample_config) (url sample_config)
      (blog_root sample_config) [(sample_html, sample_meta)]
    = Ok all_posts
    ∧ Static (WriteStatic (path_join (output_dir sample_config) ["index.html"]) "list.html"
                (front_variables sample_config None (sort_posts all_posts)))
      ∈ (generate_all_files strptime_padded sample_now sample_config None
           [(sample_html, sample_meta)]).1
    ∧ next_page (shared (front_variables sample_config None (sort_posts all_posts)))
      = Some (Some 1)
    ∧ current_posts (shared (front_variables sample_config None (sort_posts all_posts)))
      = Some (sort_posts all_posts)
    ∧ ∀ path v,
        Listed (WriteFile path "list.html" v)
        ∉ (generate_all_files strptime_padded sample_now sample_config None
             [(sample_html, sample_meta)]).1.
Proof.
  apply (front_page_without_page_one strptime_padded sample_now sample_config None
           [(sample_html, sample_meta)]).
  - vm_compute. reflexivity.
  - cbn. lia.
Defined.

(** ** The layout of the site *)

Lemma join_step_absolute (x y : string) : starts_with_sep y = true → join_step x y = y.
Proof. intros Hy. unfold join_step. by rewrite Hy. Qed.

Lemma join_step_relative (x y : string) :
  starts_with_sep y = false →
  join_step x y
  = if String.eqb x "" || ends_with_sep x then (x ++ y)%string else (x ++ "/" ++ y)%string.
Proof. intros Hy. unfold join_step. by rewrite Hy. Qed.

Lemma join_step_empty (y : string) : join_step "" y = y.
Proof. unfold join_step. destruct (starts_with_sep y); [done|]. cbn. by rewrite append_nil. Qed.

Lemma eqb_not_empty (x : string) : x ≠ "" → String.eqb x "" = false.
Proof. intros Hx. by destruct (String.eqb_spec x ""). Qed.

Lemma join_step_starts (x y : string) :
  x ≠ "" → starts_with_sep (join_step x y) = starts_with_sep y || starts_with_sep x.
Proof.
  intros Hx. unfold join_step. destruct (starts_with_sep y) eqn:Hy; [done|].
  destruct (String.eqb x "" || ends_with_sep x); by rewrite starts_with_sep_append.
Qed.

(** [os.path.join(a, os.path.join(b, c))] is [os.path.join(a, b, c)]. *)
Lemma join_step_assoc (a b c : string) :
  join_step a (join_step b c) = join_step (join_step a b) c.
Proof.
  destruct (starts_with_sep c) eqn:Hc.
  { by rewrite !(join_step_absolute _ c). }
  destruct (String.eqb_spec b "") as [->|Hb].
  { rewrite join_step_empty, (join_step_relative a "") by done.
    rewrite !(join_step_relative _ c) by done.
    destruct (String.eqb_spec a "") as [->|Ha]; [done|]. cbn [orb].
    destruct (ends_with_sep a) eqn:Hend.
    - by rewrite append_empty_r, Hend, (eqb_not_empty a).
    - rewrite append_empty_r, (ends_with_sep_append a "/" ""). cbn [ends_with_sep Ascii.eqb].
      change (Ascii.eqb "/" "/") with true. rewrite orb_true_r.
      by rewrite append_assoc. }
  destruct (starts_with_sep b) eqn:Hsb.
  { rewrite (join_step_absolute a b) by done.
    apply join_step_absolute. by rewrite join_step_starts, Hsb, orb_true_r. }
  assert (starts_with_sep (join_step b c) = false) as Hbc.
  { by rewrite join_step_starts, Hc, Hsb. }
  assert (join_step a b ≠ "") as Hab by by apply join_step_not_empty.
  rewrite (join_step_relative a (join_step b c)) by done.
  rewrite (join_step_relative (join_step a b) c) by done.
  rewrite (eqb_not_empty _ Hab), (join_step_ends a b) by done. cbn [orb].
  rewrite (join_step_relative b c), (join_step_relative a b) by done.
  rewrite (eqb_not_empty _ Hb). cbn [orb].
  destruct (String.eqb a "" || ends_with_sep a), (ends_with_sep b);
    by rewrite ?append_assoc.
Qed.

Lemma path_join_nested (a b c d : string) :
  path_join a [path_join b [c]; d] = path_join (path_join a [b]) [c; d].
Proof. unfold path_join. cbn [foldl]. by rewrite join_step_assoc. Qed.

(** X18: the pages of the posts lie in the blog directory.  With [blog_dir]
    as [generate_site] sets it, the page of a loaded post that has text is
    written to [os.path.join(blog_dir, <date and slug>, 'index.html')],
    whatever the blog prefix is: empty, relative or absolute. *)
Theorem post_pages_in_blog_dir (strptime : string → string → result datetime)
    (config : site_config) (base : string) (root : option string) (generated_html : string)
    (Meta : gmap string (list string)) (p : post) (v : template_variables) :
  load_post strptime (blog_prefix config) base root generated_html Meta = Ok p →
  generated_html ≠ "" →
  site v = with_blog_dir config →
  generate_post p v
  = (set_post v p,
     [CreatePathToFile
        (path_join (blog_dir (with_blog_dir config))
           [generate_post_file_path (title p) (date p); "index.html"]);
      WriteFile
        (path_join (blog_dir (with_blog_dir config))
           [generate_post_file_path (title p) (date p); "index.html"])
        "post_index.html" (set_post v p)],
     Ok tt).
Proof.
  intros Hload Hhtml Hsite.
  destruct (load_post_fields _ _ _ _ _ _ _ Hload) as (Hbody & _).
  destruct (load_post_inversion _ _ _ _ _ _ _ Hload) as (_ & _ & _ & _ & Hpath & _).
  rewrite generate_post_content by by rewrite Hbody.
  assert (relative_path p
          = path_join (blog_prefix config) [generate_post_file_path (title p) (date p)])
    as ->.
  { rewrite Hpath. cbn [truthy]. destruct (String.eqb_spec (blog_prefix config) "") as [->|];
      [|done]. cbn [negb]. unfold path_join. cbn [foldl]. by rewrite join_step_empty. }
  rewrite Hsite. cbn [output_dir blog_dir with_blog_dir]. by rewrite path_join_nested.
Qed.

Lemma post_pages_in_blog_dir_witness :
  generate_post sample_post (variables_from (with_blog_dir sample_config))
  = (set_post (variables_from (with_blog_dir sample_config)) sample_post,
     [CreatePathToFile
        (path_join (blog_dir (with_blog_dir sample_config))
           [generate_post_file_path (title sample_post) (date sample_post); "index.html"]);
      WriteFile
        (path_join (blog_dir (with_blog_dir sample_config))
           [generate_post_file_path (title sample_post) (date sample_post); "index.html"])
        "post_index.html"
        (set_post (variables_from (with_blog_dir sample_config)) sample_post)],
     Ok tt).
Proof.
  apply (post_pages_in_blog_dir strptime_padded sample_config "http://example.com" None
           sample_html sample_meta sample_post
           (variables_from (with_blog_dir sample_config))).
  - vm_compute. reflexivity.
  - discriminate.
  - reflexivity.
Defined.

(** ** The command [generate] *)

(** X19: [generate_site] replaces the output directory before it reads a
    post.  It first removes the output directory, if there is one, and
    copies the static content to its place; an exception of either call
    ends [generate_site] with no page written.  When a file of the content
    directory then fails to load, no page is written either and the
    exception of the loader leaves [generate_site], with the old site gone.
    The function returns [True] exactly when the copy succeeds and
    [generate_all_files] ends without exception on the file system the copy
    leaves, which needs every file to load, every additional page to name
    its template and no converted file to be empty; it never returns
    [False]. *)
Theorem generate_site_outcome (F : file_system) (s : state F)
    (strptime : string → string → result datetime) (now : string)
    (cwd : string) (config : site_config)
    (additional_pages : option (list (string * gmap string string)))
    (converted : list (string * gmap string (list string))) :
  copy_static_content F s (output_dir config) cwd
  = match (if path_exists F s (output_dir config) then rmtree F s (output_dir config)
           else Ok s) with
    | Ok s' => copytree F s' (path_join cwd ["static"]) (output_dir config)
    | Raise e => Raise e
    end
  ∧ (∀ e, copy_static_content F s (output_dir config) cwd = Raise e →
          generate_site F s strptime now cwd config additional_pages converted
          = ([], Raise e))
  ∧ (∀ s' e, copy_static_content F s (output_dir config) cwd = Ok s' →
             get_all_posts strptime (blog_prefix config) (url config) (blog_root config)
               converted = Raise e →
             generate_site F s strptime now cwd config additional_pages converted
             = ([], Raise e))
  ∧ ((generate_site F s strptime now cwd config additional_pages converted).2 = Ok true
     ↔ ∃ s', copy_static_content F s (output_dir config) cwd = Ok s'
             ∧ (generate_all_files_in F s' strptime now (with_blog_dir config)
                  additional_pages converted).2 = Ok tt)
  ∧ ((generate_site F s strptime now cwd config additional_pages converted).2 = Ok true →
     (∃ all_posts,
        get_all_posts strptime (blog_prefix config) (url config) (blog_root config)
          converted = Ok all_posts)
     ∧ templates_given additional_pages
     ∧ Forall (λ file, file.1 ≠ "") converted)
  ∧ (generate_site F s strptime now cwd config additional_pages converted).2 ≠ Ok false.
Proof.
  assert ((generate_site F s strptime now cwd config additional_pages converted).2 = Ok true
          ↔ ∃ s', copy_static_content F s (output_dir config) cwd = Ok s'
                  ∧ (generate_all_files_in F s' strptime now (with_blog_dir config)
                       additional_pages converted).2 = Ok tt) as Htrue.
  { unfold generate_site. cbn [output_dir with_blog_dir].
    destruct (copy_static_content F s (output_dir config) cwd) as [s'|e].
    - destruct (generate_all_files_in F s' strptime now (with_blog_dir config)
                  additional_pages converted) as [[pages s''] [[]|e]] eqn:Hrun; cbn.
      + split; [|done]. intros _. exists s'. by rewrite Hrun.
      + split; [done|]. intros (? & [= <-] & Hok). by rewrite Hrun in Hok.
    - split; [done|]. by intros (? & ? & _). }
  split_and!.
  - unfold copy_static_content.
    by destruct (if path_exists F s (output_dir config) then _ else _).
  - intros e Hcopy. unfold generate_site. cbn [output_dir with_blog_dir]. by rewrite Hcopy.
  - intros s' e Hcopy Hload. unfold generate_site. cbn [output_dir with_blog_dir].
    rewrite Hcopy. unfold generate_all_files_in, generate_all_files.
    cbn [blog_prefix url blog_root with_blog_dir]. by rewrite Hload.
  - exact Htrue.
  - intros (s' & _ & Hok)%Htrue. unfold generate_all_files_in in Hok.
    apply run_in_outcome in Hok as [_ Hok%generate_all_files_ends]. tauto.
  - unfold generate_site. cbn [output_dir with_blog_dir].
    destruct (copy_static_content F s (output_dir config) cwd) as [s'|e]; [|done].
    by destruct (generate_all_files_in F s' strptime now (with_blog_dir config)
                   additional_pages converted) as [[pages s''] [[]|e]].
Qed.

(** ** New posts *)

Lemma zeros_digits (n : nat) : PyStr.all_chars is_digit (PyStr.zeros n) = true.
Proof. induction n as [|n IH]; [done|]. cbn [PyStr.zeros PyStr.all_chars]. by rewrite IH. Qed.

Lemma zfill_digits (width n : nat) :
  PyStr.all_chars is_digit (PyStr.zfill width (PyStr.str n)) = true.
Proof. unfold PyStr.zfill. by rewrite all_chars_append, zeros_digits, str_digits. Qed.

Lemma zfill_not_empty (width n : nat) : PyStr.zfill width (PyStr.str n) ≠ "".
Proof. unfold PyStr.zfill. apply append_not_empty, str_not_empty. Qed.

(** The characters of a date and of a slug: digits, hyphens, and the
    alphanumeric characters. *)
Lemma slug_char_plain (c : ascii) :
  is_slug_char c = true → Ascii.eqb c "/" = false ∧ Ascii.eqb c "." = false.
Proof. by destruct c as [[] [] [] [] [] [] [] []]. Qed.






Lemma digit_not_space (c : ascii) : is_digit c = true → PyStr.isspace c = false.
Proof. by destruct c as [[] [] [] [] [] [] [] []]. Qed.

Lemma rstrip_fixed (a : string) (c : ascii) :
  PyStr.isspace c = false → PyStr.rstrip (a ++ String c "") = (a ++ String c "")%string.
Proof.
  intros Hc. induction a as [|x a IH].
  - rewrite append_nil. cbn. by rewrite Hc.
  - rewrite append_cons. cbn [PyStr.rstrip]. rewrite IH.
    destruct a; [by rewrite append_nil | by rewrite append_cons].
Qed.

Lemma last_char (f : ascii → bool) (s : string) :
  s ≠ "" → PyStr.all_chars f s = true → ∃ a c, s = (a ++ String c "")%string ∧ f c = true.
Proof.
  induction s as [|x s IH]; [done|]. intros _ [Hx Hs]%andb_prop.
  destruct s as [|y s].
  - exists "", x. by rewrite append_nil.
  - destruct (IH ltac:(done) Hs) as (a & c & -> & Hc).
    exists (String x a), c. by rewrite append_cons.
Qed.

Lemma strip_date_text (d : datetime) :
  PyStr.strip (strftime d "%Y-%m-%d %H:%M") = strftime d "%Y-%m-%d %H:%M".
Proof.
  change (strftime d "%Y-%m-%d %H:%M")
    with (PyStr.zfill 0 (PyStr.str (year d)) ++ "-"
          ++ PyStr.zfill 2 (PyStr.str (month d)) ++ "-"
          ++ PyStr.zfill 2 (PyStr.str (day d)) ++ " "
          ++ PyStr.zfill 2 (PyStr.str (hour d)) ++ ":"
          ++ PyStr.zfill 2 (PyStr.str (minute d)) ++ "")%string.
  rewrite append_empty_r. unfold PyStr.strip.
  pose proof (zfill_not_empty 0 (year d)) as Hne.
  pose proof (zfill_digits 0 (year d)) as Hd.
  destruct (last_char is_digit _ (zfill_not_empty 2 (minute d)) (zfill_digits 2 (minute d)))
    as (a & c & -> & Hc%digit_not_space).
  destruct (PyStr.zfill 0 (PyStr.str (year d))) as [|y s]; [done|].
  cbn [PyStr.all_chars] in Hd. apply andb_prop in Hd as [Hy%digit_not_space _].
  rewrite append_cons. cbn [PyStr.lstrip]. rewrite Hy, <- append_cons.
  rewrite <- !append_assoc. by apply rstrip_fixed.
Qed.

(** X21: a post made from the skeleton loads.  When the metadata hold a
    title, the date as [create_post] writes it and a [categories] line with
    nothing but white space, and [strptime] reads the written date back,
    [get_all_posts] loads the file: the date line needs no stripping, the
    post has the written date, the title of its line and no category. *)
Theorem skeleton_loads (strptime : string → string → result datetime)
    (prefix base : string) (root : option string) (generated_html : string)
    (Meta : gmap string (list string)) (title_line categories_line : string)
    (written : datetime) :
  meta_first Meta "title" = Ok title_line →
  meta_first Meta "date" = Ok (strftime written "%Y-%m-%d %H:%M") →
  meta_first Meta "categories" = Ok categories_line →
  PyStr.all_chars PyStr.isspace categories_line = true →
  strptime (strftime written "%Y-%m-%d %H:%M") "%Y-%m-%d %H:%M" = Ok written →
  ∃ p, load_post strptime prefix base root generated_html Meta = Ok p
       ∧ title p = title_line
       ∧ date p = written
       ∧ categories p = []
       ∧ body p = generated_html
       ∧ relative_path p = path_join prefix [generate_post_file_path title_line written].
Proof.
  intros Htitle Hdate Hcategories Hblank Hread.
  unfold load_post. rewrite Htitle, Hcategories, Hdate. cbn [mbind result_bind].
  rewrite strip_date_text, Hread. cbn [mbind result_bind].
  eexists. split; [reflexivity|]. cbn.
  split_and!; try done.
  - by apply split_spaces.
  - destruct (String.eqb_spec prefix "") as [->|]; [|done]. cbn [negb].
    by rewrite join_step_empty.
Qed.

Lemma skeleton_loads_witness :
  ∃ p, load_post strptime_padded "blog" "http://example.com" None ""
         (skeleton_meta "Empty" "2024-03-06 09:30") = Ok p
       ∧ title p = "Empty"
       ∧ date p = {| year := 2024; month := 3; day := 6; hour := 9; minute := 30 |}
       ∧ categories p = []
       ∧ body p = ""
       ∧ relative_path p
         = path_join "blog"
             [generate_post_file_path "Empty"
                {| year := 2024; month := 3; day := 6; hour := 9; minute := 30 |}].
Proof.
  apply (skeleton_loads strptime_padded "blog" "http://example.com" None ""
           (skeleton_meta "Empty" "2024-03-06 09:30") "Empty" ""
           {| year := 2024; month := 3; day := 6; hour := 9; minute := 30 |}).
  - reflexivity.
  - vm_compute. reflexivity.
  - reflexivity.
  - reflexivity.
  - vm_compute. reflexivity.
Defined.

(** ** What the listing pages show *)

Lemma windows_take {A : Type} (l : list A) (c : nat) :
  seq 0 c ≫= (λ k, slice l (5 * k) (5 * k + 5)) = take (5 * c) l.
Proof.
  induction c as [|c IH]; [done|].
  rewrite seq_S, bind_app, IH. cbn [seq mbind list_bind app Nat.add]. rewrite app_nil_r.
  unfold slice. replace (5 * c + 5 - 5 * c) with 5 by lia.
  replace (5 * S c) with (5 * c + 5) by lia.
  by rewrite take_take_drop.
Qed.

Lemma listed_posts_window (config : site_config) (all_posts : list post) (template : string)
    (k : nat) :
  window_page config all_posts template k ≫= listed_posts
  = slice all_posts (5 * k) (5 * k + 5).
Proof. unfold window_page, generate_static_page. cbn. by rewrite app_nil_r. Qed.

Lemma listed_posts_windows (config : site_config) (all_posts : list post) (template : string)
    (a c : nat) :
  (seq a c ≫= window_page config all_posts template) ≫= listed_posts
  = seq a c ≫= (λ k, slice all_posts (5 * k) (5 * k + 5)).
Proof.
  revert a. induction c as [|c IH]; intros a; [done|].
  cbn [seq]. by rewrite !bind_cons, bind_app, IH, listed_posts_window.
Qed.

(** X22: the listing pages show every post once.  The five posts of the
    front page followed by the posts of the pagination pages, page after
    page, are the list of all posts; with the list sorted by
    [generate_all_files], the pages go from the newest post to the oldest. *)
Theorem listing_pages_cover (config : site_config)
    (additional_pages : option (list (string * gmap string string)))
    (all_posts : list post) (template : string) :
  default [] (current_posts (shared (front_variables config additional_pages all_posts)))
  ++ (generate_pagination_pages config all_posts template ≫= listed_posts)
  = all_posts
  ∧ StronglySorted not_older
      (default []
         (current_posts
            (shared (front_variables config additional_pages (sort_posts all_posts))))
       ++ (generate_pagination_pages config (sort_posts all_posts) template ≫= listed_posts)).
Proof.
  assert (∀ l : list post,
            default [] (current_posts (shared (front_variables config additional_pages l)))
            ++ (generate_pagination_pages config l template ≫= listed_posts) = l) as Hcover.
  { intros l. rewrite pagination_pages. cbn [front_variables set_canonical_url set_front
      shared set_current_posts current_posts default].
    rewrite listed_posts_windows.
    pose proof (windows_take l (S ((length l - 1) / 5))) as Hw.
    cbn [seq] in Hw. rewrite bind_cons in Hw. unfold slice at 1 in Hw.
    rewrite Nat.mul_0_r, drop_0 in Hw. cbn [Nat.add Nat.sub] in Hw.
    etrans; [exact Hw|]. apply take_ge.
    pose proof (Nat.div_mod_eq (length l - 1) 5) as Hd.
    pose proof (Nat.mod_upper_bound (length l - 1) 5). lia. }
  split; [apply Hcover|]. rewrite Hcover.
  apply (list_sort_reversed_sorted datetime_lt date).
  - apply datetime_lt_asym.
  - apply datetime_lt_negtrans.
Qed.

(** ** The pages of the categories *)

Lemma declarations_copies (category : string) (p : post) :
  ∃ n, declarations category p = replicate n p.
Proof.
  unfold declarations. induction (categories p) as [|c cs [n IH]]; [by exists 0|].
  rewrite bind_cons, IH. destruct (decide (c = category)); [by exists (S n)|by exists n].
Qed.

Lemma bucket_of_sorted (R : post → post → Prop) (category : string) (l : list post) :
  (∀ p, R p p) → StronglySorted R l → StronglySorted R (bucket_of category l).
Proof.
  intros Hrefl. induction 1 as [|p l Hl IH Hp]; [constructor|].
  unfold bucket_of. rewrite bind_cons. fold (bucket_of category l).
  destruct (declarations_copies category p) as [n ->].
  assert (Forall (R p) (bucket_of category l)) as Hbucket.
  { rewrite Forall_forall in Hp |- *. intros q [Hq _]%bucket_of_declares. by apply Hp. }
  induction n as [|n IHn]; [done|].
  cbn [replicate app]. constructor; [done|].
  apply Forall_app. split; [|done]. apply Forall_forall. by intros q [-> _]%elem_of_replicate.
Qed.

Lemma category_item_bucket (all_posts : list post) (category : string) (listed : list post) :
  (category, listed) ∈ build_category_items all_posts →
  listed = bucket_of category all_posts ∧ listed ≠ [].
Proof.
  destruct (build_items all_posts []) as [Hmap Hkeys].
  fold (build_category_items all_posts) in Hmap, Hkeys.
  assert (NoDup (build_category_items all_posts).*1) as Hnd.
  { rewrite Hkeys. cbn. apply first_seen_fresh. }
  rewrite (elem_of_list_to_map (M:=gmap string) _ _ _ Hnd), Hmap.
  change (foldl add_post (list_to_map []) all_posts) with (build_categories all_posts).
  intros Hb.
  pose proof (build_categories_lookup ∅ category all_posts) as Hl.
  rewrite lookup_empty in Hl. cbn in Hl. fold (build_categories all_posts) in Hl.
  pose proof (build_categories_no_empty all_posts category listed Hb) as Hne.
  rewrite Hb in Hl. cbn in Hl. by rewrite <- Hl.
Qed.

(** X23: the page of a category lists its posts from the newest to the
    oldest.  The list that [generate_all_files] hands to the pages of a
    category is not empty, holds exactly the loaded posts that declare the
    category, and no post in it is older than a post behind it. *)
Theorem category_pages_newest_first (all_posts : list post) (category : string)
    (listed : list post) :
  (category, listed) ∈ build_category_items (sort_posts all_posts) →
  StronglySorted not_older listed
  ∧ listed ≠ []
  ∧ ∀ p, p ∈ listed ↔ p ∈ all_posts ∧ category ∈ categories p.
Proof.
  intros [-> Hne]%category_item_bucket. split_and!; [|done|].
  - apply bucket_of_sorted.
    + intros p. apply datetime_lt_irrefl.
    + apply (list_sort_reversed_sorted datetime_lt date).
      * apply datetime_lt_asym.
      * apply datetime_lt_negtrans.
  - intros p. rewrite bucket_of_declares.
    assert (p ∈ sort_posts all_posts ↔ p ∈ all_posts) as Hperm.
    { split; apply elem_of_Permutation_proper; [symmetry|]; apply list_sort_reversed_perm. }
    by rewrite Hperm.
Qed.

Lemma category_pages_newest_first_witness :
  StronglySorted not_older [sample_post]
  ∧ [sample_post] ≠ []
  ∧ ∀ p, p ∈ [sample_post]
         ↔ p ∈ [sample_empty_post; sample_post] ∧ "python" ∈ categories p.
Proof.
  apply (category_pages_newest_first [sample_empty_post; sample_post] "python" [sample_post]).
  vm_compute. apply list_elem_of_here.
Defined.
